(** * Idea Collision Engine backend: a shallow embedding and its properties

    The development follows the Go sources:
    - [internal/collision/engine.go]  (package collision): scoring and selection;
    - [internal/database/redis.go]    (package database):  sliding-window limiter, usage cache;
    - [internal/database/postgres.go] (package database):  sessions and usage rows;
    - [internal/middleware/ratelimit.go]: the two middlewares of the generate route;
    - [internal/handlers/collision.go]: the HTTP handlers.

    Conventions.
    - Go [string] is a byte sequence: Rocq [string].
    - Go [float64] scores are modelled by exact rationals [Q]; every constant of
      the source is a decimal literal and is written as the same fraction.
    - Go [int] / [int64] are [Z]; lengths and loop indices are [nat].
    - Wall-clock instants are nanoseconds since the Unix epoch, in [Z].
    - Functions of Go's standard library whose full Unicode or numeric
      behaviour is not reproduced here are fields of the class [GoLib]; the
      theorems hold for every instance, and [ascii_lib] is an executable one. *)

From Stdlib Require Import ZArith QArith Qminmax Qround Lqa Permutation Sorted Ascii String.
From stdpp Require Import base option list gmap strings pretty.

Local Open Scope string_scope.

(** ** Go standard library *)

Abbreviation float64 := Q (only parsing).

Class GoLib := {
  (** [strings.ToLower], [strings.Title], [strings.Fields] *)
  strings_ToLower : string -> string;
  strings_Title : string -> string;
  strings_Fields : string -> list string;
  (** [math.Exp] *)
  math_Exp : float64 -> float64;
  (** [sort.Slice]: an unstable comparison sort; all that is relied on is
      that it rearranges the slice in place. *)
  sort_Slice : forall A : Type, (A -> A -> bool) -> list A -> list A;
  sort_Slice_Permutation :
    forall (A : Type) (less : A -> A -> bool) (l : list A),
      Permutation (sort_Slice A less l) l
}.

Arguments sort_Slice {_} [A] less l.

(** [strings.HasPrefix] and [strings.Contains] are byte-wise. *)
Definition strings_HasPrefix (s pfx : string) : bool := String.prefix pfx s.

Fixpoint strings_Contains (s substr : string) : bool :=
  match s with
  | EmptyString => strings_HasPrefix EmptyString substr
  | String _ s' => strings_HasPrefix s substr || strings_Contains s' substr
  end.

(** [strings.Join] *)
Fixpoint strings_Join (elems : list string) (sep : string) : string :=
  match elems with
  | [] => ""
  | [e] => e
  | e :: es => e ++ sep ++ strings_Join es sep
  end.

Definition math_Min (x y : float64) : float64 := Qmin x y.
Definition math_Max (x y : float64) : float64 := Qmax x y.

(** Comparison of two scores, as a boolean. *)
Definition Qgt_bool (x y : Q) : bool := negb (Qle_bool x y).
Definition Qge_bool (x y : Q) : bool := Qle_bool y x.

(** *** An executable instance on ASCII text *)

Module AsciiLib.

Definition is_upper (c : ascii) : bool :=
  let n := nat_of_ascii c in (65 <=? n)%nat && (n <=? 90)%nat.
Definition is_lower (c : ascii) : bool :=
  let n := nat_of_ascii c in (97 <=? n)%nat && (n <=? 122)%nat.
Definition is_digit (c : ascii) : bool :=
  let n := nat_of_ascii c in (48 <=? n)%nat && (n <=? 57)%nat.
Definition is_space (c : ascii) : bool :=
  let n := nat_of_ascii c in ((9 <=? n)%nat && (n <=? 13)%nat) || (n =? 32)%nat.

Definition lower (c : ascii) : ascii :=
  if is_upper c then ascii_of_nat (nat_of_ascii c + 32) else c.
Definition upper (c : ascii) : ascii :=
  if is_lower c then ascii_of_nat (nat_of_ascii c - 32) else c.

Fixpoint ToLower (s : string) : string :=
  match s with
  | EmptyString => EmptyString
  | String c s' => String (lower c) (ToLower s')
  end.

(** A letter, digit or underscore continues a word; anything else separates. *)
Definition is_separator (c : ascii) : bool :=
  negb (is_upper c || is_lower c || is_digit c || (nat_of_ascii c =? 95)%nat).

Fixpoint title_from (prev_sep : bool) (s : string) : string :=
  match s with
  | EmptyString => EmptyString
  | String c s' =>
      String (if prev_sep then upper c else c) (title_from (is_separator c) s')
  end.
Definition Title (s : string) : string := title_from true s.

Fixpoint fields_from (cur : string) (s : string) : list string :=
  match s with
  | EmptyString => if String.eqb cur "" then [] else [cur]
  | String c s' =>
      if is_space c
      then (if String.eqb cur "" then fields_from "" s' else cur :: fields_from "" s')
      else fields_from (cur ++ String c "") s'
  end.
Definition Fields (s : string) : list string := fields_from "" s.

(** Insertion sort: one of the rearrangements [sort.Slice] may produce. *)
Fixpoint insert_by {A} (less : A -> A -> bool) (x : A) (l : list A) : list A :=
  match l with
  | [] => [x]
  | y :: l' => if less y x then y :: insert_by less x l' else x :: l
  end.
Definition Slice (A : Type) (less : A -> A -> bool) (l : list A) : list A :=
  foldr (insert_by less) [] l.

(** A rational stand-in for [exp] on the arguments the engine uses, the
    non-positive multiples of one half: [exp (-1/2)] is about 0.60653. *)
Definition Exp (x : Q) : Q :=
  Qred (Qpower (60653 # 100000) (Qfloor (- (2 * x)))).

End AsciiLib.

#[export, refine] Instance ascii_lib : GoLib := {|
  strings_ToLower := AsciiLib.ToLower;
  strings_Title := AsciiLib.Title;
  strings_Fields := AsciiLib.Fields;
  math_Exp := AsciiLib.Exp;
  sort_Slice := AsciiLib.Slice;
  sort_Slice_Permutation := _
|}.
Proof.
  intros A less l. unfold AsciiLib.Slice.
  induction l as [|x l IH]; simpl; [reflexivity|].
  transitivity (x :: foldr (AsciiLib.insert_by less) [] l); [|now constructor].
  generalize (foldr (AsciiLib.insert_by less) [] l) as sorted. clear.
  intros sorted. induction sorted as [|y s IHs]; simpl; [reflexivity|].
  destruct (less y x); [|reflexivity].
  rewrite IHs. apply perm_swap.
Defined.

(** *** [crypto/sha256] and [fmt] *)

Module SHA256.
Local Open Scope Z_scope.
Local Open Scope list_scope.

Definition w32 (x : Z) : Z := x mod 2 ^ 32.
Definition rotr (n x : Z) : Z := Z.lor (Z.shiftr x n) (w32 (Z.shiftl x (32 - n))).
Definition shr (n x : Z) : Z := Z.shiftr x n.
Definition not32 (x : Z) : Z := Z.lxor x 0xffffffff.

Definition Ch (x y z : Z) : Z := Z.lxor (Z.land x y) (Z.land (not32 x) z).
Definition Maj (x y z : Z) : Z :=
  Z.lxor (Z.lxor (Z.land x y) (Z.land x z)) (Z.land y z).
Definition Sigma0 (x : Z) : Z := Z.lxor (Z.lxor (rotr 2 x) (rotr 13 x)) (rotr 22 x).
Definition Sigma1 (x : Z) : Z := Z.lxor (Z.lxor (rotr 6 x) (rotr 11 x)) (rotr 25 x).
Definition sigma0 (x : Z) : Z := Z.lxor (Z.lxor (rotr 7 x) (rotr 18 x)) (shr 3 x).
Definition sigma1 (x : Z) : Z := Z.lxor (Z.lxor (rotr 17 x) (rotr 19 x)) (shr 10 x).

(** The round constants are the first 32 bits of the fractional parts of
    the cube roots of the first 64 primes; the initial hash value comes
    likewise from the square roots of the first 8 primes. *)
Definition is_prime (n : nat) : bool :=
  forallb (fun d : nat => negb (n mod d =? 0)%nat) (seq 2 (n - 2)).

Definition primes (count : nat) : list Z :=
  map Z.of_nat (firstn count (List.filter is_prime (seq 2 310))).

(** Integer cube root of a number below [2 ^ 105], bit by bit. *)
Definition icbrt (n : Z) : Z :=
  fold_left (fun r (i : nat) =>
               let r' := r + 2 ^ Z.of_nat i in
               if r' * r' * r' <=? n then r' else r)
            (rev (seq 0 35)) 0.

Definition K : list Z :=
  Eval vm_compute in map (fun p => w32 (icbrt (p * 2 ^ 96))) (primes 64).

Definition H0 : list Z :=
  Eval vm_compute in map (fun p => w32 (Z.sqrt (p * 2 ^ 64))) (primes 8).

(** The eight working words [a..h]. *)
Record state := mk { a : Z; b : Z; c : Z; d : Z; e : Z; f : Z; g : Z; h : Z }.

Definition init : state :=
  mk (nth 0 H0 0) (nth 1 H0 0) (nth 2 H0 0) (nth 3 H0 0)
     (nth 4 H0 0) (nth 5 H0 0) (nth 6 H0 0) (nth 7 H0 0).

Definition round (s : state) (kw : Z * Z) : state :=
  let t1 := w32 (h s + Sigma1 (e s) + Ch (e s) (f s) (g s) + fst kw + snd kw) in
  let t2 := w32 (Sigma0 (a s) + Maj (a s) (b s) (c s)) in
  mk (w32 (t1 + t2)) (a s) (b s) (c s) (w32 (d s + t1)) (e s) (f s) (g s).

(** Message schedule: [n] more words after the 16-word window [win]
    (oldest first). *)
Fixpoint schedule (n : nat) (win : list Z) : list Z :=
  match n with
  | O => []
  | S n' =>
      let w := w32 (sigma1 (nth 14 win 0) + nth 9 win 0 + sigma0 (nth 1 win 0) + nth 0 win 0) in
      w :: schedule n' (tl win ++ [w])
  end.

Fixpoint be_words (bytes : list Z) (n : nat) : list Z :=
  match n, bytes with
  | S n', b0 :: b1 :: b2 :: b3 :: rest =>
      (b0 * 2 ^ 24 + b1 * 2 ^ 16 + b2 * 2 ^ 8 + b3) :: be_words rest n'
  | _, _ => []
  end.

Definition compress (s : state) (block : list Z) : state :=
  let w16 := be_words block 16 in
  let w := w16 ++ schedule 48 w16 in
  let s' := fold_left round (combine K w) s in
  mk (w32 (a s + a s')) (w32 (b s + b s')) (w32 (c s + c s')) (w32 (d s + d s'))
     (w32 (e s + e s')) (w32 (f s + f s')) (w32 (g s + g s')) (w32 (h s + h s')).

Definition be_bytes (n : nat) (x : Z) : list Z :=
  map (fun i : nat => (x / 2 ^ (8 * Z.of_nat i)) mod 256) (rev (seq 0 n)).

Definition pad (msg : list Z) : list Z :=
  let len := Z.of_nat (length msg) in
  let zeros := Z.to_nat ((55 - len) mod 64) in
  msg ++ [0x80] ++ repeat 0 zeros ++ be_bytes 8 (8 * len).

Fixpoint blocks (n : nat) (s : state) (bytes : list Z) : state :=
  match n with
  | O => s
  | S n' => blocks n' (compress s (firstn 64 bytes)) (skipn 64 bytes)
  end.

(** [sha256.Sum256]: the digest, 32 bytes. *)
Definition Sum256 (msg : list Z) : list Z :=
  let p := pad msg in
  let s := blocks (length p / 64) init p in
  flat_map (be_bytes 4) [a s; b s; c s; d s; e s; f s; g s; h s].
End SHA256.

(** [[]byte(s)] *)
Fixpoint bytes_of_string (s : string) : list Z :=
  match s with
  | EmptyString => []
  | String ch s' => Z.of_nat (nat_of_ascii ch) :: bytes_of_string s'
  end.

Definition hex_digit (n : Z) : ascii :=
  match String.get (Z.to_nat n) "0123456789abcdef" with
  | Some ch => ch
  | None => "0"%char
  end.

(** [fmt.Sprintf("%x", bs)] for a byte array. *)
Fixpoint fmt_x (bs : list Z) : string :=
  match bs with
  | [] => EmptyString
  | x :: bs' => String (hex_digit (x / 16)) (String (hex_digit (x mod 16)) (fmt_x bs'))
  end.

(** [fmt.Sprintf("%v", ss)] for a slice of strings. *)
Definition fmt_v (ss : list string) : string := "[" ++ strings_Join ss " " ++ "]".

(** ** Package models *)

Module CollisionInput.
Record t := mk {
  UserInterests : list string;
  CurrentProject : string;
  ProjectType : string;
  CollisionIntensity : string
}.
End CollisionInput.

Module CollisionDomain.
Record t := mk {
  ID : string;
  Name : string;
  Category : string;
  Description : string;
  Examples : list string;
  Keywords : list string;
  Intensity : list string;
  Tier : string
}.
End CollisionDomain.

Module CollisionResult.
Record t := mk {
  ID : string;
  PrimaryDomain : string;
  CollisionDomain : string;
  Connection : string;
  SparkQuestions : list string;
  Examples : list string;
  NextSteps : list string;
  QualityScore : float64;
  Timestamp : Z;
  Rating : option Z;
  Notes : option string
}.
End CollisionResult.

(** [uuid.UUID] values are kept in their textual form. *)
Abbreviation UUID := string (only parsing).

Module CollisionSession.
Record t := mk {
  ID : UUID;
  UserID : UUID;
  InputData : CollisionInput.t;
  CollisionResult : CollisionResult.t;
  UserRating : option Z;
  ExplorationNotes : option string;
  CreatedAt : Z
}.
End CollisionSession.

Module UserUsage.
Record t := mk {
  ID : UUID;
  UserID : UUID;
  CollisionCount : Z;
  ResetDate : Z;
  CreatedAt : Z;
  UpdatedAt : Z
}.
End UserUsage.

Module ErrorResponse.
Record t := mk {
  Error : string;
  Message : string;
  Code : Z
}.
End ErrorResponse.

Definition TierFree : string := "free".
Definition TierPro : string := "pro".
Definition TierTeam : string := "team".

(** [var UsageLimits = map[string]int{...}]; indexing a Go map with an absent
    key yields the zero value. *)
Definition UsageLimits : gmap string Z :=
  <[TierFree := 5%Z]> (<[TierPro := (-1)%Z]> (<[TierTeam := (-1)%Z]> ∅)).

Definition UsageLimits_at (tier : string) : Z := default 0%Z (UsageLimits !! tier).

(** ** Package collision: the engine *)

Module CollisionEngine.
Record t := mk { Domains : list CollisionDomain.t }.
End CollisionEngine.

Module DomainMatch.
Record t := mk {
  Domain : CollisionDomain.t;
  RelevanceScore : float64;
  NoveltyScore : float64;
  OverallScore : float64;
  Reasoning : string
}.
End DomainMatch.

(** What one call of [GenerateCollision] draws from the process: the fresh
    uuid, the clock, and the values of [rand.Float64] (in selection and in the
    quality noise) and of [rand.Intn]. *)
Record Entropy := {
  uuid_New : UUID;
  time_Now : Z;
  rand_select : float64;
  rand_quality : float64;
  rand_Intn : nat
}.

(** Go's [error]: [None] is [nil]. *)
Abbreviation error := (option string) (only parsing).

Definition NewCollisionEngine (domains : list CollisionDomain.t) : CollisionEngine.t :=
  CollisionEngine.mk domains.

Definition float_of_len {A} (l : list A) : float64 := inject_Z (Z.of_nat (length l)).

Section Engine.
Context `{GoLib}.
Variable e : CollisionEngine.t.

Local Open Scope Q_scope.

(** The body of the loop over interests: the capped score of one interest. *)
Definition interestDomainScore (interestLower : string) (domain : CollisionDomain.t) : float64 :=
  let domainScore := 0 in
  let domainScore :=
    if strings_Contains (strings_ToLower (CollisionDomain.Name domain)) interestLower
    then domainScore + 3 else domainScore in
  let domainScore :=
    if strings_Contains (strings_ToLower (CollisionDomain.Category domain)) interestLower
    then domainScore + 2 else domainScore in
  let domainScore :=
    fold_left (fun domainScore keyword =>
                 if strings_Contains (strings_ToLower keyword) interestLower
                    || strings_Contains interestLower (strings_ToLower keyword)
                 then domainScore + 1 else domainScore)
              (CollisionDomain.Keywords domain) domainScore in
  if strings_Contains (strings_ToLower (CollisionDomain.Description domain)) interestLower
  then domainScore + (1 # 2) else domainScore.

Definition interestRelevanceLoop (interests : list string) (domain : CollisionDomain.t)
  : float64 * float64 :=
  fold_left (fun '(score, totalPossible) interest =>
               let interestLower := strings_ToLower interest in
               (score + math_Min (interestDomainScore interestLower domain) 3,
                totalPossible + 3))
            interests (0, 0).

Definition calculateInterestRelevance (interests : list string) (domain : CollisionDomain.t)
  : float64 :=
  if (length interests =? 0)%nat then 0
  else let '(score, totalPossible) := interestRelevanceLoop interests domain in
       score / totalPossible.

Definition selectPrimaryDomain (interests : list string) : string :=
  match interests with
  | [] => "General Innovation"
  | first :: _ =>
      let '(bestMatch, highestScore) :=
        fold_left (fun '(bestMatch, highestScore) domain =>
                     let score := calculateInterestRelevance interests domain in
                     if Qgt_bool score highestScore
                     then (CollisionDomain.Name domain, score)
                     else (bestMatch, highestScore))
                  (CollisionEngine.Domains e) ("", 0) in
      if String.eqb bestMatch "" then strings_Title first else bestMatch
  end.

Definition isIntensityCompatible (domain : CollisionDomain.t) (intensity : string) : bool :=
  existsb (fun supportedIntensity => String.eqb supportedIntensity intensity)
          (CollisionDomain.Intensity domain).

Definition filterCandidateDomains (input : CollisionInput.t) (primaryDomain : string)
  : list CollisionDomain.t :=
  List.filter (fun domain =>
                 negb (String.eqb (CollisionDomain.Name domain) primaryDomain)
                 && isIntensityCompatible domain (CollisionInput.CollisionIntensity input))
              (CollisionEngine.Domains e).

Definition relevanceMap : gmap string (list string) :=
  <["product" := ["design"; "technology"; "science"; "crafts"] ]>
  (<["content" := ["arts"; "media"; "cultural"; "entertainment"] ]>
  (<["business" := ["social systems"; "economics"; "human systems"] ]>
  (<["research" := ["science"; "mathematics"; "philosophy"] ]> ∅))).

Definition calculateDomainRelevance (input : CollisionInput.t) (domain : CollisionDomain.t)
  : float64 :=
  let score := 0 in
  let projectLower := strings_ToLower (CollisionInput.CurrentProject input) in
  let projectTypeLower := strings_ToLower (CollisionInput.ProjectType input) in
  let categoryLower := strings_ToLower (CollisionDomain.Category domain) in
  let score :=
    match relevanceMap !! projectTypeLower with
    | Some categories =>
        if existsb (fun cat => strings_Contains categoryLower cat) categories
        then score + (3 # 10) else score
    | None => score
    end in
  let score :=
    fold_left (fun score keyword =>
                 if strings_Contains projectLower (strings_ToLower keyword)
                 then score + (2 # 10) else score)
              (CollisionDomain.Keywords domain) score in
  let score :=
    fold_left (fun score example =>
                 let exampleLower := strings_ToLower example in
                 let words := strings_Fields projectLower in
                 if existsb (fun word => (3 <? String.length word)%nat
                                         && strings_Contains exampleLower word) words
                 then score + (1 # 10) else score)
              (CollisionDomain.Examples domain) score in
  math_Min score 1.

Definition unexpectedCategories : list string :=
  ["quantum"; "chaos"; "mythology"; "ancient"; "radical"].

Definition calculateNoveltyScore (interests : list string) (domain : CollisionDomain.t)
  : float64 :=
  let relevance := calculateInterestRelevance interests domain in
  let novelty := math_Max (2 # 10) (1 - relevance) in
  let categoryLower :=
    strings_ToLower (CollisionDomain.Category domain ++ " " ++ CollisionDomain.Name domain
                     ++ " " ++ CollisionDomain.Description domain)%string in
  let novelty :=
    if existsb (fun unexpected => strings_Contains categoryLower unexpected)
               unexpectedCategories
    then novelty * (12 # 10) else novelty in
  math_Min novelty 1.

(** [weights := map[string][2]float64{...}]: (relevance weight, novelty weight). *)
Definition weights : gmap string (float64 * float64) :=
  <["gentle" := (6 # 10, 4 # 10)]>
  (<["moderate" := (4 # 10, 6 # 10)]>
  (<["radical" := (2 # 10, 8 # 10)]> ∅)).

Definition weight_of (intensity : string) : float64 * float64 :=
  match weights !! intensity with
  | Some weight => weight
  | None => default (0, 0) (weights !! "moderate")
  end.

Definition calculateAntiEchoChamberScore (relevance novelty : float64) (intensity : string)
  : float64 :=
  let weight := weight_of intensity in
  relevance * fst weight + novelty * snd weight.

Definition generateReasoningSnippet (project : string) (domain : CollisionDomain.t)
    (relevance novelty : float64) : string :=
  (if Qgt_bool novelty (7 # 10) then
     "Exploring " ++ CollisionDomain.Name domain ++ " offers an unexpected lens for "
     ++ project ++ ", challenging conventional approaches through "
     ++ strings_ToLower (CollisionDomain.Category domain) ++ " principles."
   else if Qgt_bool relevance (6 # 10) then
     "The principles of " ++ CollisionDomain.Name domain ++ " can directly enhance "
     ++ project ++ " by applying "
     ++ strings_ToLower (CollisionDomain.Category domain) ++ " methodologies."
   else
     "Drawing from " ++ CollisionDomain.Name domain ++ " creates novel opportunities for "
     ++ project ++ " through cross-disciplinary insight.")%string.

(** The fallback of [selectWithRandomness] for an empty slice. *)
Definition fallbackMatch : DomainMatch.t :=
  DomainMatch.mk
    (CollisionDomain.mk "" "Innovation" "General" "General innovative thinking" [] [] [] "")
    0 0 0 "Fallback domain for creative exploration".

Definition poolSizes : gmap string nat :=
  <["gentle" := 3%nat]> (<["moderate" := 5%nat]> (<["radical" := 8%nat]> ∅)).

(** The last loop of [selectWithRandomness], from index [i] on: [ws] are the
    weights still to be added. *)
Fixpoint selectLoop (matches : list DomainMatch.t) (ws : list float64) (i : nat)
    (cumulative target : float64) : option DomainMatch.t :=
  match ws with
  | [] => None
  | w :: ws' =>
      let cumulative := cumulative + w in
      if Qge_bool cumulative target then matches !! i
      else selectLoop matches ws' (S i) cumulative target
  end.

Definition selectWithRandomness (r : float64) (matches : list DomainMatch.t)
    (intensity : string) : DomainMatch.t :=
  match matches with
  | [] => fallbackMatch
  | first :: _ =>
      let poolSize := default 5%nat (poolSizes !! "moderate") in
      let poolSize := match poolSizes !! intensity with
                      | Some size => size
                      | None => poolSize
                      end in
      let poolSize := if (length matches <? poolSize)%nat then length matches else poolSize in
      let weights :=
        map (fun i : nat => math_Exp (- inject_Z (Z.of_nat i) * (5 # 10))) (seq 0 poolSize) in
      let totalWeight := fold_left Qplus weights 0 in
      let target := r * totalWeight in
      match selectLoop matches weights 0 0 target with
      | Some m => m
      | None => first
      end
  end.

Definition scoreCandidate (input : CollisionInput.t) (domain : CollisionDomain.t)
  : DomainMatch.t :=
  let relevance := calculateDomainRelevance input domain in
  let novelty := calculateNoveltyScore (CollisionInput.UserInterests input) domain in
  let overall :=
    calculateAntiEchoChamberScore relevance novelty
      (CollisionInput.CollisionIntensity input) in
  let reasoning :=
    generateReasoningSnippet (CollisionInput.CurrentProject input) domain relevance novelty in
  DomainMatch.mk domain relevance novelty overall reasoning.

Definition selectCollisionDomain (r : float64) (input : CollisionInput.t)
    (primaryDomain : string) : CollisionDomain.t * string :=
  let candidates := filterCandidateDomains input primaryDomain in
  let matches := map (scoreCandidate input) candidates in
  let matches :=
    sort_Slice (fun mi mj =>
                  Qgt_bool (DomainMatch.OverallScore mi) (DomainMatch.OverallScore mj))
               matches in
  let selected := selectWithRandomness r matches (CollisionInput.CollisionIntensity input) in
  (DomainMatch.Domain selected, DomainMatch.Reasoning selected).

Definition complexityIndicators : list string :=
  ["system"; "platform"; "algorithm"; "network"; "framework";
   "architecture"; "optimization"; "intelligence"; "automation";
   "integration"; "scalable"; "distributed"; "analytics"].

Definition assessProjectComplexity (project : string) : float64 :=
  let projectLower := strings_ToLower project in
  let matches :=
    fold_left (fun matches indicator =>
                 if strings_Contains projectLower indicator then S matches else matches)
              complexityIndicators 0%nat in
  math_Min 1 (inject_Z (Z.of_nat matches) / 5).

Definition assessDomainDepth (domain : CollisionDomain.t) : float64 :=
  let score := 0 in
  let score := score + math_Min (3 # 10) (float_of_len (CollisionDomain.Keywords domain) / 10) in
  let score := score + math_Min (3 # 10) (float_of_len (CollisionDomain.Examples domain) / 5) in
  let score :=
    score + math_Min (2 # 10)
              (inject_Z (Z.of_nat (String.length (CollisionDomain.Description domain))) / 200) in
  let score :=
    if String.eqb (CollisionDomain.Tier domain) "premium" then score + (2 # 10) else score in
  math_Min 1 score.

Definition calculateQualityScore (r : float64) (input : CollisionInput.t)
    (domain : CollisionDomain.t) : float64 :=
  let relevance := calculateDomainRelevance input domain in
  let novelty := calculateNoveltyScore (CollisionInput.UserInterests input) domain in
  let projectComplexity := assessProjectComplexity (CollisionInput.CurrentProject input) in
  let domainDepth := assessDomainDepth domain in
  let score :=
    (relevance * (3 # 10) + novelty * (3 # 10) + projectComplexity * (2 # 10)
     + domainDepth * (2 # 10)) * 100 in
  let score := score + (r - (5 # 10)) * 5 in
  math_Max 0 (math_Min 100 score).
End Engine.

Section Generate.
Context `{GoLib}.
Variable e : CollisionEngine.t.

Definition generateSparkQuestions (rnd : Entropy) (input : CollisionInput.t)
    (domain : CollisionDomain.t) : list string :=
  let questions :=
    ["How might " ++ strings_ToLower (CollisionDomain.Name domain)
       ++ " principles reshape your approach to " ++ CollisionInput.CurrentProject input ++ "?";
     "What would " ++ CollisionInput.CurrentProject input ++ " look like if designed using "
       ++ CollisionDomain.Category domain ++ " patterns?";
     "Which aspects of " ++ CollisionDomain.Name domain
       ++ " could introduce unexpected benefits to your " ++ CollisionInput.ProjectType input
       ++ " project?"] in
  let keywords := CollisionDomain.Keywords domain in
  if (0 <? length keywords)%nat then
    let keyword := List.nth (rand_Intn rnd mod length keywords) keywords "" in
    List.app questions ["How could the concept of '" ++ keyword
                        ++ "' unlock new possibilities in your work?"]
  else questions.

Definition contextualizeExample (example : string) (input : CollisionInput.t) : string :=
  let exampleLower := strings_ToLower example in
  if strings_Contains exampleLower "system" then "could inspire new system architectures"
  else if strings_Contains exampleLower "pattern" then "might reveal new design patterns"
  else if strings_Contains exampleLower "flow" then "could optimize process flows"
  else "offers fresh perspective on implementation".

(** The arrow of the source text is the UTF-8 sequence E2 86 92. *)
Definition arrow : string :=
  String (ascii_of_nat 226) (String (ascii_of_nat 134) (String (ascii_of_nat 146) "")).

Definition adaptExamples (input : CollisionInput.t) (domain : CollisionDomain.t)
  : list string :=
  map (fun example =>
         example ++ " " ++ arrow ++ " Applied to " ++ CollisionInput.ProjectType input ++ ": "
         ++ contextualizeExample example input)
      (CollisionDomain.Examples domain).

Definition generateNextSteps (input : CollisionInput.t) (domain : CollisionDomain.t)
  : list string :=
  let steps :=
    ["Research core " ++ CollisionDomain.Name domain
       ++ " principles and identify 3 that could apply to "
       ++ CollisionInput.CurrentProject input;
     "Find experts or resources in " ++ CollisionDomain.Name domain
       ++ " to deepen understanding";
     "Prototype one small aspect of " ++ CollisionInput.CurrentProject input ++ " using "
       ++ CollisionDomain.Name domain ++ "-inspired approaches";
     "Document insights and unexpected connections discovered"] in
  if String.eqb (CollisionInput.CollisionIntensity input) "radical" then
    List.app steps ["Challenge fundamental assumptions about "
                    ++ CollisionInput.ProjectType input
                    ++ " using " ++ CollisionDomain.Name domain ++ " perspective"]
  else steps.

Definition enrichCollisionResult (rnd : Entropy) (result : CollisionResult.t)
    (input : CollisionInput.t) (domain : CollisionDomain.t) : CollisionResult.t :=
  CollisionResult.mk
    (CollisionResult.ID result) (CollisionResult.PrimaryDomain result)
    (CollisionResult.CollisionDomain result) (CollisionResult.Connection result)
    (generateSparkQuestions rnd input domain)
    (adaptExamples input domain)
    (generateNextSteps input domain)
    (CollisionResult.QualityScore result) (CollisionResult.Timestamp result)
    (CollisionResult.Rating result) (CollisionResult.Notes result).

(** A method of the engine that reads neither its receiver, nor the
    clock, nor the random source. *)
Definition generateConnectionHash (_ : CollisionEngine.t) (input : CollisionInput.t)
    (domainName : string) : string :=
  let content :=
    fmt_v (CollisionInput.UserInterests input) ++ "|" ++ CollisionInput.CurrentProject input
    ++ "|" ++ CollisionInput.ProjectType input ++ "|" ++ CollisionInput.CollisionIntensity input
    ++ "|" ++ domainName in
  let hash := SHA256.Sum256 (bytes_of_string content) in
  String.substring 0 16 (fmt_x hash).

Definition GenerateCollision (rnd : Entropy) (input : CollisionInput.t)
  : CollisionResult.t * error :=
  let primaryDomain := selectPrimaryDomain e (CollisionInput.UserInterests input) in
  let '(collisionDomain, reasoning) :=
    selectCollisionDomain e (rand_select rnd) input primaryDomain in
  let _ := generateConnectionHash e input (CollisionDomain.Name collisionDomain) in
  let result :=
    CollisionResult.mk (uuid_New rnd) primaryDomain (CollisionDomain.Name collisionDomain)
      reasoning [] [] []
      (calculateQualityScore (rand_quality rnd) input collisionDomain)
      (time_Now rnd) None None in
  let result := enrichCollisionResult rnd result input collisionDomain in
  (result, None).
End Generate.

(** ** Package database: the cache tier (Redis) *)

(** Every command sent to a store may fail (connection lost, timeout). The
    outcome of the commands still to come is a schedule: [true] makes the
    next command return an error and leave the data as they are. A state of
    the cache is the cache while one request is served: no key runs out of its
    time to live between the commands of the request. *)
Definition next_fault (faults : list bool) : bool * list bool :=
  match faults with
  | [] => (false, [])
  | f :: faults' => (f, faults')
  end.

Module Redis.
Record t := mk {
  (** sorted sets: key, then member to score *)
  zsets : gmap string (gmap Z Z);
  (** cached usage records, by key; the JSON text is kept decoded *)
  usage : gmap string UserUsage.t;
  (** time to live of a key, in seconds as [TTL] reports it *)
  ttl : gmap string Z;
  faults : list bool
}.

Definition zset_at (r : t) (key : string) : gmap Z Z := default ∅ (zsets r !! key).

Definition with_faults (r : t) (fs : list bool) : t := mk (zsets r) (usage r) (ttl r) fs.
Definition with_zset (r : t) (key : string) (s : gmap Z Z) : t :=
  mk (<[key := s]> (zsets r)) (usage r) (ttl r) (faults r).

Definition err : option string := Some "redis: command failed".

(** A key is gone, with its time to live. *)
Definition without_zset (r : t) (key : string) : t :=
  mk (delete key (zsets r)) (usage r) (delete key (ttl r)) (faults r).

(** [ZREMRANGEBYSCORE key min max]: both bounds are inclusive. A sorted set
    left without members is removed. *)
Definition ZRemRangeByScore (key : string) (min max : Z) (r : t) : option string * t :=
  let '(f, fs) := next_fault (faults r) in
  let r := with_faults r fs in
  if f then (err, r)
  else match zsets r !! key with
       | None => (None, r)
       | Some s =>
           let s' := filter (fun '(_, score) => ¬ (min ≤ score ∧ score ≤ max)%Z) s in
           if (size s' =? 0)%nat then (None, without_zset r key)
           else (None, with_zset r key s')
       end.

Definition ZCard (key : string) (r : t) : (Z * option string) * t :=
  let '(f, fs) := next_fault (faults r) in
  let r := with_faults r fs in
  if f then ((0%Z, err), r)
  else ((Z.of_nat (size (zset_at r key)), None), r).

(** [ZADD key score member]: a member already present gets the new score. *)
Definition ZAdd (key : string) (score member : Z) (r : t) : option string * t :=
  let '(f, fs) := next_fault (faults r) in
  let r := with_faults r fs in
  if f then (err, r)
  else (None, with_zset r key (<[member := score]> (zset_at r key))).

(** [EXPIRE key seconds]: only an existing key gets a time to live, and a
    time to live that is not positive removes the key at once. The command
    is sent for the keys of sorted sets only. *)
Definition Expire (key : string) (seconds : Z) (r : t) : option string * t :=
  let '(f, fs) := next_fault (faults r) in
  let r := with_faults r fs in
  if f then (err, r)
  else match zsets r !! key with
       | Some _ =>
           if (seconds <=? 0)%Z then (None, without_zset r key)
           else (None, mk (zsets r) (usage r) (<[key := seconds]> (ttl r)) (faults r))
       | None => (None, r)
       end.

(** The member of rank 0: least score, then least member. *)
Definition first_member (s : gmap Z Z) : option Z :=
  fst <$> foldr (fun '(m, sc) best =>
                   match best with
                   | None => Some (m, sc)
                   | Some (m', sc') =>
                       if ((sc <? sc') || ((sc =? sc') && (m <? m')))%Z
                       then Some (m, sc) else best
                   end)
                None (map_to_list s).

(** [ZRANGE key 0 0] *)
Definition ZRange00 (key : string) (r : t) : (list Z * option string) * t :=
  let '(f, fs) := next_fault (faults r) in
  let r := with_faults r fs in
  if f then (([], err), r)
  else ((option_list (first_member (zset_at r key)), None), r).

(** [ZSCORE key member]; an absent member is reported as the error [redis.Nil]. *)
Definition ZScore (key : string) (member : Z) (r : t) : (Z * option string) * t :=
  let '(f, fs) := next_fault (faults r) in
  let r := with_faults r fs in
  if f then ((0%Z, err), r)
  else match zset_at r key !! member with
       | Some sc => ((sc, None), r)
       | None => ((0%Z, Some "redis: nil"), r)
       end.

(** [GET key] on the usage keys: [inl None] is [redis.Nil]. *)
Definition Get (key : string) (r : t) : (option UserUsage.t + string) * t :=
  let '(f, fs) := next_fault (faults r) in
  let r := with_faults r fs in
  if f then (inr "redis: command failed", r)
  else (inl (usage r !! key), r).

(** The expiry options of [SET]. *)
Inductive Expiry :=
| NoExpiry
| EX (seconds : Z)
| PX (milliseconds : Z)
| KEEPTTL.

(** [SET key value [EX seconds | PX milliseconds | KEEPTTL]]: without an
    option the key loses the time to live it had. [TTL] rounds milliseconds
    to the nearest second. *)
Definition Set_ (key : string) (v : UserUsage.t) (expiry : Expiry) (r : t)
  : option string * t :=
  let '(f, fs) := next_fault (faults r) in
  let r := with_faults r fs in
  if f then (err, r)
  else
    let ttl' :=
      match expiry with
      | NoExpiry => delete key (ttl r)
      | EX seconds => <[key := seconds]> (ttl r)
      | PX milliseconds => <[key := ((milliseconds + 500) / 1000)%Z]> (ttl r)
      | KEEPTTL => ttl r
      end in
    (None, mk (zsets r) (<[key := v]> (usage r)) ttl' (faults r)).

Definition Del (key : string) (r : t) : option string * t :=
  let '(f, fs) := next_fault (faults r) in
  let r := with_faults r fs in
  if f then (err, r)
  else (None, mk (zsets r) (delete key (usage r)) (delete key (ttl r)) (faults r)).
End Redis.

Definition Millisecond : Z := 1000000.
Definition Second : Z := 1000000000.
Definition Minute : Z := 60 * Second.

(** Go's [int], [int64] and [time.Duration] have 64 bits: sums, differences
    and products wrap around. *)
Definition wrap64 (z : Z) : Z := ((z + 2 ^ 63) mod 2 ^ 64 - 2 ^ 63)%Z.

(** [t.Sub(u)] does not wrap: it stops at the least and the greatest
    [time.Duration]. *)
Definition sat64 (z : Z) : Z := Z.max (- 2 ^ 63) (Z.min (2 ^ 63 - 1) z).

(** [t.Unix()]: whole seconds of an instant given in nanoseconds. *)
Definition Unix (t : Z) : Z := (t / Second)%Z.

(** [t.UnixNano()], an [int64]. *)
Definition UnixNano (t : Z) : Z := wrap64 t.

(** [now.Add(-time.Duration(windowSeconds) * time.Second)] *)
Definition window_start (now windowSeconds : Z) : Z :=
  (now + wrap64 (wrap64 (- windowSeconds) * Second))%Z.

(** The go-redis client turns a [time.Duration] into the argument of [EX]
    and [EXPIRE] with [formatSec], into the argument of [PX] with [formatMs],
    and chooses [PX] when [usePrecise] holds. *)
Definition formatSec (dur : Z) : Z :=
  if ((0 <? dur) && (dur <? Second))%Z then 1%Z else Z.quot dur Second.
Definition formatMs (dur : Z) : Z :=
  if ((0 <? dur) && (dur <? Millisecond))%Z then 1%Z else Z.quot dur Millisecond.
Definition usePrecise (dur : Z) : bool :=
  ((dur <? Second) || negb (Z.rem dur Second =? 0))%Z.
Definition KeepTTL : Z := (-1)%Z.

(** [client.Set(ctx, key, value, expiration)] *)
Definition client_Set (key : string) (v : UserUsage.t) (expiration : Z) (r : Redis.t)
  : option string * Redis.t :=
  Redis.Set_ key v
    (if (0 <? expiration)%Z then
       if usePrecise expiration then Redis.PX (formatMs expiration)
       else Redis.EX (formatSec expiration)
     else if (expiration =? KeepTTL)%Z then Redis.KEEPTTL else Redis.NoExpiry) r.

(** [client.Expire(ctx, key, expiration)] *)
Definition client_Expire (key : string) (expiration : Z) (r : Redis.t)
  : option string * Redis.t :=
  Redis.Expire key (formatSec expiration) r.

Definition KeyUserUsage (userID : string) : string := "user:usage:" ++ userID.
Definition KeyRateLimit (userID : string) (window : Z) : string :=
  "rate:limit:" ++ userID ++ ":" ++ pretty window.

Section RedisClient.
Local Open Scope Z_scope.
(** The reading of [time.Now()] while the call runs. *)
Variable now : Z.

Definition CacheUserUsage (userID : string) (usage : UserUsage.t) (expiration : Z)
    (r : Redis.t) : option string * Redis.t :=
  client_Set (KeyUserUsage userID) usage expiration r.

(** Returns [(usage, err)]; a cache miss is [(nil, nil)]. *)
Definition GetCachedUserUsage (userID : string) (r : Redis.t)
  : (option UserUsage.t * option string) * Redis.t :=
  let key := KeyUserUsage userID in
  match Redis.Get key r with
  | (inr err, r) => ((None, Some err), r)
  | (inl None, r) => ((None, None), r)
  | (inl (Some usage), r) => ((Some usage, None), r)
  end.

Definition InvalidateUserUsage (userID : string) (r : Redis.t) : option string * Redis.t :=
  Redis.Del (KeyUserUsage userID) r.

Definition CheckRateLimit (userID : string) (windowSeconds limit : Z) (r : Redis.t)
  : (bool * option string) * Redis.t :=
  let windowStart := window_start now windowSeconds in
  let key := KeyRateLimit userID windowSeconds in
  let '(err, r) := Redis.ZRemRangeByScore key 0 (Unix windowStart) r in
  if bool_decide (err ≠ None) then ((false, err), r) else
  let '((count, err), r) := Redis.ZCard key r in
  if bool_decide (err ≠ None) then ((false, err), r) else
  if limit <=? count then ((false, None), r) else
  let '(err, r) := Redis.ZAdd key (Unix now) (UnixNano now) r in
  if bool_decide (err ≠ None) then ((false, err), r) else
  let '(_, r) := client_Expire key (wrap64 (windowSeconds * Second)) r in
  ((true, None), r).

(** Returns [(remaining, resetTime, err)], the reset time in nanoseconds. *)
Definition GetRateLimitStatus (userID : string) (windowSeconds limit : Z) (r : Redis.t)
  : (Z * Z * option string) * Redis.t :=
  let windowStart := window_start now windowSeconds in
  let key := KeyRateLimit userID windowSeconds in
  let '(err, r) := Redis.ZRemRangeByScore key 0 (Unix windowStart) r in
  if bool_decide (err ≠ None) then ((0, 0, err), r) else
  let '((count, err), r) := Redis.ZCard key r in
  if bool_decide (err ≠ None) then ((0, 0, err), r) else
  let remaining := wrap64 (limit - count) in
  let remaining := if remaining <? 0 then 0 else remaining in
  if 0 <? count then
    let '((oldest, err), r) := Redis.ZRange00 key r in
    match err, oldest with
    | None, member :: _ =>
        let '((score, err), r) := Redis.ZScore key member r in
        let oldestTime := if bool_decide (err = None) then score * Second else 0 in
        let resetTime := sat64 (oldestTime + wrap64 (windowSeconds * Second) - now) in
        let resetTime := if resetTime <? 0 then 0 else resetTime in
        ((remaining, resetTime, None), r)
    | _, _ => ((remaining, 0, None), r)
    end
  else ((remaining, 0, None), r).
End RedisClient.

(** ** Package database: the durable store (PostgreSQL) *)

Definition Day : Z := 86400 * Second.
(** The calendar day of an instant: what a [DATE] column keeps of it. *)
Definition date_of (t : Z) : Z := (t / Day)%Z.

Module Postgres.
Record t := mk {
  collision_sessions : list CollisionSession.t;
  user_usage : list UserUsage.t;
  faults : list bool
}.
Definition with_faults (p : t) (fs : list bool) : t :=
  mk (collision_sessions p) (user_usage p) fs.
Definition err : option string := Some "pq: command failed".
End Postgres.

Section PostgresDB.
Local Open Scope Z_scope.
(** The reading of [time.Now()], and of [CURRENT_DATE] on the server. *)
Variable now : Z.

(** [WHERE user_id = $1 AND reset_date >= CURRENT_DATE - INTERVAL '7 days'] *)
Definition in_window (userID : UUID) (u : UserUsage.t) : bool :=
  String.eqb (UserUsage.UserID u) userID
  && (date_of now - 7 <=? date_of (UserUsage.ResetDate u)).

(** [ORDER BY reset_date DESC LIMIT 1] *)
Definition latest (rows : list UserUsage.t) : option UserUsage.t :=
  foldr (fun u best =>
           match best with
           | Some b =>
               if date_of (UserUsage.ResetDate b) <? date_of (UserUsage.ResetDate u)
               then Some u else best
           | None => Some u
           end) None rows.

(** [fresh] is the value of [uuid.New()] should a row be created. *)
Definition GetUserUsage (fresh : UUID) (userID : UUID) (p : Postgres.t)
  : (option UserUsage.t * option string) * Postgres.t :=
  let '(f, fs) := next_fault (Postgres.faults p) in
  let p := Postgres.with_faults p fs in
  if f then ((None, Postgres.err), p) else
  match latest (List.filter (in_window userID) (Postgres.user_usage p)) with
  | Some usage => ((Some usage, None), p)
  | None =>
      let usage := UserUsage.mk fresh userID 0 now now now in
      let '(f, fs) := next_fault (Postgres.faults p) in
      let p := Postgres.with_faults p fs in
      if f then ((None, Postgres.err), p) else
      let row := UserUsage.mk fresh userID 0 (date_of now * Day) now now in
      ((Some usage, None),
       Postgres.mk (Postgres.collision_sessions p)
                   (Postgres.user_usage p ++ [row])%list (Postgres.faults p))
  end.

Definition IncrementUserUsage (userID : UUID) (p : Postgres.t) : option string * Postgres.t :=
  let '(f, fs) := next_fault (Postgres.faults p) in
  let p := Postgres.with_faults p fs in
  if f then (Postgres.err, p) else
  (None,
   Postgres.mk (Postgres.collision_sessions p)
     (map (fun u =>
             if in_window userID u
             then UserUsage.mk (UserUsage.ID u) (UserUsage.UserID u)
                    (UserUsage.CollisionCount u + 1) (UserUsage.ResetDate u)
                    (UserUsage.CreatedAt u) now
             else u)
          (Postgres.user_usage p))
     (Postgres.faults p)).

(** [INSERT INTO collision_sessions]: the primary key [id] must be new. *)
Definition CreateCollisionSession (session : CollisionSession.t) (p : Postgres.t)
  : option string * Postgres.t :=
  let '(f, fs) := next_fault (Postgres.faults p) in
  let p := Postgres.with_faults p fs in
  if f then (Postgres.err, p) else
  if existsb (fun s => String.eqb (CollisionSession.ID s) (CollisionSession.ID session))
             (Postgres.collision_sessions p)
  then (Some "pq: duplicate key value violates unique constraint", p)
  else (None,
        Postgres.mk (Postgres.collision_sessions p ++ [session])%list
                    (Postgres.user_usage p) (Postgres.faults p)).

Definition rate_matches (sessionID userID : UUID) (s : CollisionSession.t) : bool :=
  String.eqb (CollisionSession.ID s) sessionID
  && String.eqb (CollisionSession.UserID s) userID.

(** [UPDATE collision_sessions SET user_rating = $1, exploration_notes = $2
     WHERE id = $3 AND user_id = $4]: the result of [Exec] (rows affected)
    is dropped, only its error is returned. The column carries
    [CHECK (user_rating >= 1 AND user_rating <= 5)]. *)
Definition RateCollision (sessionID userID : UUID) (rating : Z) (notes : option string)
    (p : Postgres.t) : option string * Postgres.t :=
  let '(f, fs) := next_fault (Postgres.faults p) in
  let p := Postgres.with_faults p fs in
  if f then (Postgres.err, p) else
  if existsb (rate_matches sessionID userID) (Postgres.collision_sessions p)
     && negb ((1 <=? rating) && (rating <=? 5))
  then (Some "pq: new row violates check constraint", p)
  else (None,
        Postgres.mk
          (map (fun s =>
                  if rate_matches sessionID userID s
                  then CollisionSession.mk (CollisionSession.ID s) (CollisionSession.UserID s)
                         (CollisionSession.InputData s) (CollisionSession.CollisionResult s)
                         (Some rating) notes (CollisionSession.CreatedAt s)
                  else s)
               (Postgres.collision_sessions p))
          (Postgres.user_usage p) (Postgres.faults p)).
End PostgresDB.

(** ** The process state and the Fiber context *)

Record World := {
  redis : Redis.t;
  db : Postgres.t;
  (** what [fmt.Printf] wrote, oldest line first *)
  stdout : list string;
  (** [time.Now()]: one request is served at one reading of the clock *)
  clock : Z;
  (** the values [uuid.New()] returns next *)
  uuids : list UUID
}.

Definition with_redis (w : World) (r : Redis.t) : World :=
  Build_World r (db w) (stdout w) (clock w) (uuids w).
Definition with_db (w : World) (p : Postgres.t) : World :=
  Build_World (redis w) p (stdout w) (clock w) (uuids w).
Definition Printf (line : string) (w : World) : World :=
  Build_World (redis w) (db w) (stdout w ++ [line])%list (clock w) (uuids w).

Definition uuid_Nil : UUID := "00000000-0000-0000-0000-000000000000".

Definition uuid_New_ (w : World) : UUID * World :=
  match uuids w with
  | [] => (uuid_Nil, w)
  | u :: us => (u, Build_World (redis w) (db w) (stdout w) (clock w) us)
  end.

(** The body of a JSON response. *)
Inductive Body :=
| JSONError (e : ErrorResponse.t)
| JSONResult (r : CollisionResult.t)
| JSONMessage (message : string).

Module Ctx.
Record t := mk {
  (** [c.Locals("user_id")], [c.Locals("subscription_tier")], set by the
      authentication middleware, and [c.Locals("user_usage")] *)
  user_id : option UUID;
  subscription_tier : option string;
  user_usage : option (option UserUsage.t);
  (** [c.IP()] parsed by [uuid.Parse], when it parses *)
  ip_uuid : option UUID;
  (** [c.Params("id")] parsed by [uuid.Parse], when it parses *)
  param_id : option UUID;
  (** what [c.BodyParser] yields for the two request types; [None] is a
      parse error *)
  body_input : option CollisionInput.t;
  body_rate : option (Z * option string);
  (** response headers written by [c.Set] *)
  headers : gmap string string
}.

Definition Set_ (key value : string) (c : t) : t :=
  mk (user_id c) (subscription_tier c) (user_usage c) (ip_uuid c) (param_id c)
     (body_input c) (body_rate c) (<[key := value]> (headers c)).

Definition set_user_usage (u : option UserUsage.t) (c : t) : t :=
  mk (user_id c) (subscription_tier c) (Some u) (ip_uuid c) (param_id c)
     (body_input c) (body_rate c) (headers c).
End Ctx.

(** How a handler ends: a response was written, a [*fiber.Error] was
    returned, or the goroutine panicked. *)
Inductive Outcome :=
| Sent (status : Z) (body : Body)
| Failed (code : Z) (message : string)
| Panic (message : string).

Definition Handler : Type := Ctx.t -> World -> Outcome * Ctx.t * World.

Definition nil_dereference : string :=
  "runtime error: invalid memory address or nil pointer dereference".

Definition StatusBadRequest : Z := 400.
Definition StatusUnauthorized : Z := 401.
Definition StatusPaymentRequired : Z := 402.
Definition StatusTooManyRequests : Z := 429.
Definition StatusInternalServerError : Z := 500.

(** ** Package middleware *)

Definition GetUserIDFromContext (c : Ctx.t) : UUID + (Z * string) :=
  match Ctx.user_id c with
  | None => inr (StatusUnauthorized, "User not authenticated")
  | Some id => inl id
  end.

Definition GetSubscriptionTierFromContext (c : Ctx.t) : string :=
  match Ctx.subscription_tier c with
  | None => TierFree
  | Some tierStr => tierStr
  end.

Module RateLimitConfig.
Record t := mk { WindowSeconds : Z; MaxRequests : Z; SkipPremium : bool }.
End RateLimitConfig.

Definition is_premium (tier : string) : bool :=
  String.eqb tier TierPro || String.eqb tier TierTeam.

Section Middleware.
Local Open Scope Z_scope.

Definition RateLimitMiddleware (config : RateLimitConfig.t) (next : Handler) : Handler :=
  fun c w =>
  let identified :=
    match GetUserIDFromContext c with
    | inl userID => Some userID
    | inr _ =>
        (* the inner [userID] shadows the outer one, which stays [uuid.Nil] *)
        match Ctx.ip_uuid c with
        | Some ip => if String.eqb ip uuid_Nil then None else Some uuid_Nil
        | None => None
        end
    end in
  match identified with
  | None =>
      (Sent StatusTooManyRequests
         (JSONError (ErrorResponse.mk "rate_limit_exceeded"
                       "Unable to identify user for rate limiting" 429)), c, w)
  | Some userIDStr =>
      if RateLimitConfig.SkipPremium config
         && is_premium (GetSubscriptionTierFromContext c)
      then next c w
      else
        let W := RateLimitConfig.WindowSeconds config in
        let L := RateLimitConfig.MaxRequests config in
        let '((allowed, err), r) := CheckRateLimit (clock w) userIDStr W L (redis w) in
        let w := with_redis w r in
        match err with
        | Some err =>
            let w := Printf ("Rate limit check failed: " ++ err) w in
            next c w
        | None =>
            let '((remaining, resetTime, _), r) :=
              GetRateLimitStatus (clock w) userIDStr W L (redis w) in
            let w := with_redis w r in
            let c := Ctx.Set_ "X-RateLimit-Limit" (pretty L) c in
            if negb allowed then
              let c := Ctx.Set_ "X-RateLimit-Remaining" (pretty remaining) c in
              let c := Ctx.Set_ "X-RateLimit-Reset" (pretty (Unix (clock w + resetTime))) c in
              (Sent StatusTooManyRequests
                 (JSONError (ErrorResponse.mk "rate_limit_exceeded"
                               ("Rate limit exceeded. Try again in "
                                ++ pretty (resetTime / Second) ++ " seconds") 429)), c, w)
            else
              let c := Ctx.Set_ "X-RateLimit-Remaining" (pretty (remaining - 1)) c in
              let c := Ctx.Set_ "X-RateLimit-Reset" (pretty (Unix (clock w + resetTime))) c in
              next c w
        end
  end.

(** The part of [UsageLimitMiddleware] after the usage record was looked
    up: reading [usage.CollisionCount] through a nil pointer panics. *)
Definition checkWeeklyLimit (tier : string) (usage : option UserUsage.t) (next : Handler)
  : Handler :=
  fun c w =>
  let limit := UsageLimits_at tier in
  let proceed := next (Ctx.set_user_usage usage c) w in
  if 0 <? limit then
    match usage with
    | None => (Panic nil_dereference, c, w)
    | Some u =>
        if limit <=? UserUsage.CollisionCount u then
          (Sent StatusPaymentRequired
             (JSONError (ErrorResponse.mk "usage_limit_exceeded"
                           ("Weekly limit of " ++ pretty limit
                            ++ " collisions exceeded. Upgrade to Pro for unlimited access.")
                           402)), c, w)
        else proceed
    end
  else proceed.

Definition UsageLimitMiddleware (next : Handler) : Handler :=
  fun c w =>
  match GetUserIDFromContext c with
  | inr (code, message) => (Failed code message, c, w)
  | inl userID =>
      let tier := GetSubscriptionTierFromContext c in
      if is_premium tier then next c w else
      let userIDStr := userID in
      let '((usage, err), r) := GetCachedUserUsage userIDStr (redis w) in
      let w := with_redis w r in
      match err with
      | Some _ =>
          (* fallback to database; the value [uuid.New()] returns inside
             [GetUserUsage], should it create a row, is drawn here *)
          let '(fresh, w) := uuid_New_ w in
          let '((usage, err), p) := GetUserUsage (clock w) fresh userID (db w) in
          let w := with_db w p in
          match err, usage with
          | None, Some u =>
              let '(_, r) := CacheUserUsage userIDStr u (5 * Minute) (redis w) in
              let w := with_redis w r in
              checkWeeklyLimit tier usage next c w
          | _, _ =>
              (Sent StatusInternalServerError
                 (JSONError (ErrorResponse.mk "usage_check_failed"
                               "Unable to check usage limits" 500)), c, w)
          end
      | None => checkWeeklyLimit tier usage next c w
      end
  end.
End Middleware.

(** ** Package collision: the enrichment service *)

(** What the four calls to the language model return: [None] is an error
    (failure, timeout, no choice), [Some] the reply after trimming or after
    the numbered list was parsed. *)
Record AIReplies := {
  ai_connection : option string;
  ai_questions : option (list string);
  ai_examples : option (list string);
  ai_steps : option (list string)
}.

Definition EnhanceCollisionResult (ai : AIReplies) (result : CollisionResult.t)
  : CollisionResult.t * option string :=
  let connection :=
    match ai_connection ai with
    | Some s => if String.eqb s "" then CollisionResult.Connection result else s
    | None => CollisionResult.Connection result
    end in
  let pick (reply : option (list string)) (old : list string) :=
    match reply with
    | Some (x :: xs) => x :: xs
    | _ => old
    end in
  (CollisionResult.mk
     (CollisionResult.ID result) (CollisionResult.PrimaryDomain result)
     (CollisionResult.CollisionDomain result) connection
     (pick (ai_questions ai) (CollisionResult.SparkQuestions result))
     (pick (ai_examples ai) (CollisionResult.Examples result))
     (pick (ai_steps ai) (CollisionResult.NextSteps result))
     (CollisionResult.QualityScore result) (CollisionResult.Timestamp result)
     (CollisionResult.Rating result) (CollisionResult.Notes result),
   None).

(** ** Package handlers *)

(** The text of a field error of the validator, and of its errors
    together: one field error a line, for each failing field the first tag
    that fails. *)
Definition fieldError (structName field tag : string) : string :=
  "Key: '" ++ structName ++ "." ++ field ++ "' Error:Field validation for '" ++ field
  ++ "' failed on the '" ++ tag ++ "' tag".

Definition validationErrors (errors : list string) : option string :=
  match errors with
  | [] => None
  | _ => Some (String.concat (String (ascii_of_nat 10) "") errors)
  end.

(** The tags [required,oneof=...] of a string field. *)
Definition oneofErrors (structName field value : string) (allowed : list string)
  : list string :=
  if String.eqb value "" then [fieldError structName field "required"]
  else if negb (existsb (String.eqb value) allowed)
  then [fieldError structName field "oneof"]
  else [].

(** The [validate] tags of [models.CollisionInput]. The parsed body holds
    the interests as a slice that is not nil (a body without the field is
    not among the inputs here): [required] passes, and [min=1] decides. *)
Definition validate_CollisionInput (input : CollisionInput.t) : option string :=
  validationErrors
    (List.app
       (if (length (CollisionInput.UserInterests input) <? 1)%nat
        then [fieldError "CollisionInput" "UserInterests" "min"] else [])
       (List.app
          (if String.eqb (CollisionInput.CurrentProject input) ""
           then [fieldError "CollisionInput" "CurrentProject" "required"] else [])
          (List.app
             (oneofErrors "CollisionInput" "ProjectType" (CollisionInput.ProjectType input)
                ["product"; "content"; "business"; "research"])
             (oneofErrors "CollisionInput" "CollisionIntensity"
                (CollisionInput.CollisionIntensity input)
                ["gentle"; "moderate"; "radical"])))).

(** The [validate] tags of [RateRequest]: [required,min=1,max=5]. *)
Definition validate_RateRequest (rating : Z) : option string :=
  validationErrors
    (if (rating =? 0)%Z then [fieldError "RateRequest" "Rating" "required"]
     else if (rating <? 1)%Z then [fieldError "RateRequest" "Rating" "min"]
     else if (5 <? rating)%Z then [fieldError "RateRequest" "Rating" "max"]
     else []).

Module CollisionHandler.
Record t := mk { engine : CollisionEngine.t }.
End CollisionHandler.

Section Handlers.
Context `{GoLib}.
Variable h : CollisionHandler.t.

Definition findDomainByName (name : string) : option CollisionDomain.t :=
  List.find (fun domain => String.eqb (CollisionDomain.Name domain) name)
            (CollisionEngine.Domains (CollisionHandler.engine h)).

(** [rnd] and [ai] are what the engine draws and what the language model
    answers while this request is served. *)
Definition GenerateCollision_handler (rnd : Entropy) (ai : AIReplies) : Handler :=
  fun c w =>
  match GetUserIDFromContext c with
  | inr (code, message) => (Failed code message, c, w)
  | inl userID =>
      let tier := GetSubscriptionTierFromContext c in
      match Ctx.body_input c with
      | None =>
          (Sent StatusBadRequest
             (JSONError (ErrorResponse.mk "invalid_request" "Invalid request body" 400)), c, w)
      | Some input =>
          match validate_CollisionInput input with
          | Some err =>
              (Sent StatusBadRequest
                 (JSONError (ErrorResponse.mk "validation_failed" err 400)), c, w)
          | None =>
              match GenerateCollision (CollisionHandler.engine h) rnd input with
              | (_, Some _) =>
                  (Sent StatusInternalServerError
                     (JSONError (ErrorResponse.mk "collision_generation_failed"
                                   "Failed to generate collision" 500)), c, w)
              | (result, None) =>
                  let '(result, w) :=
                    if is_premium tier then
                      match findDomainByName (CollisionResult.CollisionDomain result) with
                      | Some _ =>
                          match EnhanceCollisionResult ai result with
                          | (result, Some err) =>
                              (result, Printf ("AI enhancement failed: " ++ err) w)
                          | (result, None) => (result, w)
                          end
                      | None => (result, w)
                      end
                    else (result, w) in
                  let '(id, w) := uuid_New_ w in
                  let session :=
                    CollisionSession.mk id userID input result None None (clock w) in
                  let '(err, p) := CreateCollisionSession session (db w) in
                  let w := with_db w p in
                  let w := match err with
                           | Some err => Printf ("Failed to save collision session: " ++ err) w
                           | None => w
                           end in
                  let w :=
                    if String.eqb tier TierFree then
                      let '(err, p) := IncrementUserUsage (clock w) userID (db w) in
                      let w := with_db w p in
                      let w := match err with
                               | Some err => Printf ("Failed to increment usage: " ++ err) w
                               | None => w
                               end in
                      let '(_, r) := InvalidateUserUsage userID (redis w) in
                      with_redis w r
                    else w in
                  (Sent 200 (JSONResult result), c, w)
              end
          end
      end
  end.

Definition RateCollision_handler : Handler :=
  fun c w =>
  match GetUserIDFromContext c with
  | inr (code, message) => (Failed code message, c, w)
  | inl userID =>
      match Ctx.param_id c with
      | None =>
          (Sent StatusBadRequest
             (JSONError (ErrorResponse.mk "invalid_session_id" "Invalid session ID" 400)), c, w)
      | Some sessionID =>
          match Ctx.body_rate c with
          | None =>
              (Sent StatusBadRequest
                 (JSONError (ErrorResponse.mk "invalid_request" "Invalid request body" 400)),
               c, w)
          | Some (rating, notes) =>
              match validate_RateRequest rating with
              | Some err =>
                  (Sent StatusBadRequest
                     (JSONError (ErrorResponse.mk "validation_failed" err 400)), c, w)
              | None =>
                  let '(err, p) := RateCollision sessionID userID rating notes (db w) in
                  let w := with_db w p in
                  match err with
                  | Some _ =>
                      (Sent StatusInternalServerError
                         (JSONError (ErrorResponse.mk "rating_failed"
                                       "Failed to save rating" 500)), c, w)
                  | None => (Sent 200 (JSONMessage "Rating saved successfully"), c, w)
                  end
              end
          end
      end
  end.
End Handlers.

(** ** Package main: the routes *)

Module Response.
Record t := mk { Status : Z; Body_ : Body; Headers : gmap string string }.
End Response.

(** [errorHandler] of the application, behind [recover.New()]: a returned
    [*fiber.Error] keeps its code, a recovered panic becomes a 500. *)
Definition serve (handler : Handler) (c : Ctx.t) (w : World) : Response.t * World :=
  match handler c w with
  | (Sent status body, c, w) => (Response.mk status body (Ctx.headers c), w)
  | (Failed code message, c, w) =>
      (Response.mk code (JSONError (ErrorResponse.mk "server_error" message code))
         (Ctx.headers c), w)
  | (Panic message, c, w) =>
      (Response.mk StatusInternalServerError
         (JSONError (ErrorResponse.mk "server_error" message StatusInternalServerError))
         (Ctx.headers c), w)
  end.

(** [rateLimitConfig] of [main]. *)
Definition rateLimitConfig : RateLimitConfig.t := RateLimitConfig.mk 60 10 true.

Section Routes.
Context `{GoLib}.
Variable h : CollisionHandler.t.

(** The handlers of [POST /api/collisions/generate] that follow
    [AuthMiddleware]; they run on the context in which it has stored the
    locals of the token. The route as [main] registers it, with
    [AuthMiddleware] in front, is [generate_endpoint]. *)
Definition generate_route (config : RateLimitConfig.t) (rnd : Entropy) (ai : AIReplies)
  : Handler :=
  UsageLimitMiddleware
    (RateLimitMiddleware config (GenerateCollision_handler h rnd ai)).

(** The handler of [PUT /api/collisions/:id/rate] that follows
    [AuthMiddleware]; the route as registered is [rate_endpoint]. *)
Definition rate_route : Handler := RateCollision_handler.
End Routes.

(** ** Sample data and auxiliary notions for the statements *)

Definition biomimicry : CollisionDomain.t :=
  CollisionDomain.mk "d-1" "Biomimicry" "Nature" "How nature solves problems" []
    ["evolution"; "adaptation"; "efficiency"] ["gentle"; "moderate"] "basic".

Definition jazz : CollisionDomain.t :=
  CollisionDomain.mk "d-2" "Jazz Improvisation" "Music"
    "Spontaneous creation and structured freedom" []
    ["improvisation"; "spontaneity"; "collaboration"] ["moderate"; "radical"] "basic".

Definition quantum : CollisionDomain.t :=
  CollisionDomain.mk "d-3" "Quantum Physics" "Science"
    "Counterintuitive principles of reality" []
    ["uncertainty"; "entanglement"; "superposition"] ["radical"] "premium".

Definition suite_engine : CollisionEngine.t := NewCollisionEngine [biomimicry; jazz; quantum].

Definition empty_engine : CollisionEngine.t := NewCollisionEngine [].

Definition suite_input : CollisionInput.t :=
  CollisionInput.mk ["machine learning"; "design"] "AI recommendation system"
    "product" "moderate".

Definition suite_entropy : Entropy :=
  {| uuid_New := "7c9e6679-7425-40de-944b-e07fc1f90ae7";
     time_Now := 1700000000 * Second;
     rand_select := 1 # 2;
     rand_quality := 1 # 4;
     rand_Intn := 1 |}.

Definition redis0 : Redis.t := Redis.mk ∅ ∅ ∅ [].

Definition pg0 : Postgres.t := Postgres.mk [] [] [].

Definition alice : UUID := "3f2b8c1e-5a4d-4e6f-9b7a-1c2d3e4f5a6b".

Definition world0 : World :=
  {| redis := redis0; db := pg0; stdout := [];
     clock := 1700000000 * Second + 5;
     uuids := ["0a0a0a0a-0000-4000-8000-000000000001";
               "0a0a0a0a-0000-4000-8000-000000000002"] |}.

(** A request of the free principal [alice] that passed authentication. *)
Definition ctx_generate (tier : string) (input : CollisionInput.t) : Ctx.t :=
  Ctx.mk (Some alice) (Some tier) None None None (Some input) None ∅.

Definition is_lower_hex (ch : ascii) : bool :=
  AsciiLib.is_digit ch
  || (let n := nat_of_ascii ch in (97 <=? n)%nat && (n <=? 102)%nat).

Fixpoint string_all (p : ascii -> bool) (s : string) : bool :=
  match s with
  | EmptyString => true
  | String ch s' => p ch && string_all p s'
  end.

(** The members of a window that eviction at instant [now] keeps: those whose
    score is not in [[0, (now - W).Unix()]]. *)
Definition live (now W : Z) (s : gmap Z Z) : gmap Z Z :=
  filter (fun '(_, score) => ¬ (0 ≤ score ∧ score ≤ Unix (window_start now W))%Z) s.

(** A last handler that answers 200 and leaves everything as it is. *)
Definition next_ok : Handler := fun c w => (Sent 200 (JSONMessage "ok"), c, w).

(** The cache is down: every command fails. *)
Definition world_cache_down : World :=
  {| redis := Redis.mk ∅ ∅ ∅ [true; true; true; true];
     db := pg0; stdout := []; clock := clock world0; uuids := uuids world0 |}.

(** The cache fails the fourth command of the check, [EXPIRE], and no other. *)
Definition world_expire_fails : World :=
  {| redis := Redis.mk ∅ ∅ ∅ [false; false; false; true];
     db := pg0; stdout := []; clock := clock world0; uuids := uuids world0 |}.

(** A command that the limiter sent to the cache for this request returned
    an error: there is a failure among the entries of the schedule that the
    limiter used up. *)
Definition limiter_cache_error (config : RateLimitConfig.t) (c : Ctx.t) (w : World) : Prop :=
  let w' := snd (RateLimitMiddleware config next_ok c w) in
  let sent := (length (Redis.faults (redis w)) - length (Redis.faults (redis w')))%nat in
  In true (firstn sent (Redis.faults (redis w))).

(** The claim as it is stated: whenever the cache returns an error during
    the rate-limit check, the request proceeds and the failure is logged. *)
Definition cache_error_is_logged (config : RateLimitConfig.t) (c : Ctx.t) (w : World)
  : Prop :=
  limiter_cache_error config c w ->
  forall next : Handler,
    exists c' w' line,
      RateLimitMiddleware config next c w = next c' w'
      /\ stdout w' = List.app (stdout w) [line].

(** Nine requests of [alice] recorded ten seconds before [clock world0]. *)
Definition nine_recorded : gmap Z Z :=
  list_to_map (map (fun k : nat => ((1699999990 * Second + Z.of_nat k)%Z, 1699999990%Z))
                   (seq 1 9)).

Definition world_nine : World :=
  {| redis := Redis.mk {[ KeyRateLimit alice 60 := nine_recorded ]} ∅ ∅ [];
     db := pg0; stdout := []; clock := clock world0; uuids := uuids world0 |}.

Definition no_ai : AIReplies := Build_AIReplies None None None None.

Definition suite_handler : CollisionHandler.t := CollisionHandler.mk suite_engine.

(** [alice] has used the five collisions of the week. *)
Definition usage_at_quota : UserUsage.t :=
  UserUsage.mk "0b0b0b0b-0000-4000-8000-000000000001" alice 5
    (date_of (clock world0) * Day) (clock world0 - 3600 * Second) (clock world0 - 60 * Second).

Definition world_at_quota : World :=
  {| redis := redis0; db := Postgres.mk [] [usage_at_quota] [];
     stdout := []; clock := clock world0; uuids := uuids world0 |}.

(** The same, with the record in the usage cache. *)
Definition world_at_quota_cached : World :=
  {| redis := Redis.mk ∅ {[ KeyUserUsage alice := usage_at_quota ]} ∅ [];
     db := Postgres.mk [] [usage_at_quota] [];
     stdout := []; clock := clock world0; uuids := uuids world0 |}.

Definition usage_limit_exceeded : Body :=
  JSONError (ErrorResponse.mk "usage_limit_exceeded"
               "Weekly limit of 5 collisions exceeded. Upgrade to Pro for unlimited access."
               402).

(** The claim as it is stated: a well-formed rating of a session that does
    not exist, or is not the principal's, is answered 404. *)
Definition rating_unknown_session_is_404 (c : Ctx.t) (w : World) : Prop :=
  forall userID sessionID rating notes,
    Ctx.user_id c = Some userID ->
    Ctx.param_id c = Some sessionID ->
    Ctx.body_rate c = Some (rating, notes) ->
    (1 <= rating <= 5)%Z ->
    (forall s, In s (Postgres.collision_sessions (db w)) ->
               rate_matches sessionID userID s = false) ->
    Response.Status (fst (serve rate_route c w)) = 404%Z.

(** [bob]'s session, and [alice] rating it. *)
Definition bob : UUID := "9d8c7b6a-5f4e-4d3c-8b2a-1f0e9d8c7b6a".

Definition bob_session : CollisionSession.t :=
  CollisionSession.mk "5e5e5e5e-0000-4000-8000-000000000001" bob suite_input
    (fst (GenerateCollision empty_engine suite_entropy suite_input)) None None
    (clock world0 - 60 * Second).

Definition world_bob : World :=
  {| redis := redis0; db := Postgres.mk [bob_session] [] [];
     stdout := []; clock := clock world0; uuids := uuids world0 |}.

Definition ctx_rate (sessionID : UUID) (rating : Z) (notes : option string) : Ctx.t :=
  Ctx.mk (Some alice) (Some TierFree) None None (Some sessionID) None
    (Some (rating, notes)) ∅.

(** ** Auxiliary notions for the further properties *)

(** What the search loop of [selectPrimaryDomain] holds after the domains
    [seen]: the best score so far, and the domain it came from. *)
Definition best_so_far `{GoLib} (interests : list string) (seen : list CollisionDomain.t)
    (acc : string * Q) : Prop :=
  (forall d, In d seen -> (calculateInterestRelevance interests d <= snd acc)%Q)
  /\ ((fst acc = "" /\ snd acc = 0%Q)
      \/ exists d, In d seen /\ fst acc = CollisionDomain.Name d
                   /\ snd acc = calculateInterestRelevance interests d
                   /\ (0 < calculateInterestRelevance interests d)%Q).




(** Two cache states that differ at most in the sorted set and the time to
    live stored under [key] (and in the commands still to fail). *)
Definition same_elsewhere (key : string) (r r' : Redis.t) : Prop :=
  (forall key', key' <> key ->
                Redis.zsets r' !! key' = Redis.zsets r !! key'
                /\ Redis.ttl r' !! key' = Redis.ttl r !! key')
  /\ Redis.usage r' = Redis.usage r.


(** What [RateCollision] does to a row it matches. *)
Definition rated (rating : Z) (notes : option string) (s : CollisionSession.t)
  : CollisionSession.t :=
  CollisionSession.mk (CollisionSession.ID s) (CollisionSession.UserID s)
    (CollisionSession.InputData s) (CollisionSession.CollisionResult s)
    (Some rating) notes (CollisionSession.CreatedAt s).

(** ** Collision history *)

(** [ORDER BY key DESC] of the database: the rows come back rearranged, highest
    key first; the order among equal keys is not fixed. *)
Class SQLOrder := {
  order_by_desc : forall A : Type, (A -> Z) -> list A -> list A;
  order_by_desc_Permutation :
    forall (A : Type) (key : A -> Z) (l : list A), Permutation (order_by_desc A key l) l;
  order_by_desc_Sorted :
    forall (A : Type) (key : A -> Z) (l : list A),
      StronglySorted (fun x y => (key y <= key x)%Z) (order_by_desc A key l)
}.

Arguments order_by_desc {_} [A] key l.

(** [SELECT ... FROM collision_sessions WHERE user_id = $1
     ORDER BY created_at DESC LIMIT $2]; a negative limit is an error of the
    database. *)
Definition GetUserCollisionHistory `{SQLOrder} (userID : UUID) (limit : Z) (p : Postgres.t)
  : (list CollisionSession.t * option string) * Postgres.t :=
  let '(f, fs) := next_fault (Postgres.faults p) in
  let p := Postgres.with_faults p fs in
  if f then (([], Postgres.err), p) else
  if (limit <? 0)%Z then (([], Some "pq: LIMIT must not be negative"), p) else
  ((firstn (Z.to_nat limit)
      (order_by_desc CollisionSession.CreatedAt
         (List.filter (fun s => String.eqb (CollisionSession.UserID s) userID)
            (Postgres.collision_sessions p))),
    None), p).

(** [strconv.Atoi]: an optional sign, then decimal digits, at least one; the
    value must fit a 64-bit [int]. *)
Fixpoint digits_value (acc : Z) (s : string) : option Z :=
  match s with
  | EmptyString => Some acc
  | String ch s' =>
      if AsciiLib.is_digit ch
      then digits_value (acc * 10 + (Z.of_nat (nat_of_ascii ch) - 48))%Z s'
      else None
  end.

Definition strconv_Atoi (s : string) : option Z :=
  let '(neg, body) :=
    match s with
    | String "-" rest => (true, rest)
    | String "+" rest => (false, rest)
    | _ => (false, s)
    end in
  if String.eqb body "" then None
  else match digits_value 0 body with
       | None => None
       | Some n =>
           let v := if neg then (- n)%Z else n in
           if ((- 2 ^ 63 <=? v) && (v <=? 2 ^ 63 - 1))%Z then Some v else None
       end.

(** The limit of [GetCollisionHistory]: [c.Query("limit", "20")] (the default
    also stands in for an empty value), parsed and clamped. *)
Definition historyLimit (query : option string) : Z :=
  let limitStr :=
    match query with
    | Some s => if String.eqb s "" then "20" else s
    | None => "20"
    end in
  match strconv_Atoi limitStr with
  | Some limit => if ((limit <? 1) || (100 <? limit))%Z then 20%Z else limit
  | None => 20%Z
  end.

(** What [GetCollisionHistory] answers: the sessions as JSON, an error
    response, or a returned [*fiber.Error]. *)
Inductive HistoryReply :=
| HistorySent (sessions : list CollisionSession.t)
| HistoryError (status : Z) (e : ErrorResponse.t)
| HistoryFailed (code : Z) (message : string).

Definition GetCollisionHistory_handler `{SQLOrder} (query : option string) (c : Ctx.t)
    (w : World) : HistoryReply * World :=
  match GetUserIDFromContext c with
  | inr (code, message) => (HistoryFailed code message, w)
  | inl userID =>
      let limit := historyLimit query in
      let '((sessions, err), p) := GetUserCollisionHistory userID limit (db w) in
      let w := with_db w p in
      match err with
      | Some _ =>
          (HistoryError StatusInternalServerError
             (ErrorResponse.mk "database_error" "Failed to retrieve collision history" 500), w)
      | None => (HistorySent sessions, w)
      end
  end.

(** Insertion into a list ordered by decreasing key. *)
Fixpoint insert_desc {A} (key : A -> Z) (x : A) (l : list A) : list A :=
  match l with
  | [] => [x]
  | y :: l' => if (key x <=? key y)%Z then y :: insert_desc key x l' else x :: l
  end.

#[export, refine] Instance insertion_order : SQLOrder := {|
  order_by_desc := fun A key l => foldr (insert_desc key) [] l;
  order_by_desc_Permutation := _;
  order_by_desc_Sorted := _
|}.
Proof.
  - intros A key l. induction l as [|x l IH]; simpl; [reflexivity|].
    transitivity (x :: foldr (insert_desc key) [] l); [|now constructor].
    generalize (foldr (insert_desc key) [] l) as sorted. clear.
    intros sorted. induction sorted as [|y s IHs]; simpl; [reflexivity|].
    destruct (key x <=? key y)%Z; [|reflexivity].
    rewrite IHs. apply perm_swap.
  - intros A key l. induction l as [|x l IH]; simpl; [constructor|].
    revert IH. generalize (foldr (insert_desc key) [] l) as sorted. clear.
    intros sorted Hs. induction Hs as [|y s Hs IHs Hy]; simpl.
    + repeat constructor.
    + destruct (Z.leb_spec (key x) (key y)) as [Hle|Hgt].
      * constructor; [exact IHs|].
        assert (Hperm : forall z, In z (insert_desc key x s) -> z = x \/ In z s).
        { clear. induction s as [|a s IH]; simpl; intros z Hz.
          - destruct Hz as [<-|[]]. now left.
          - destruct (key x <=? key a)%Z; simpl in Hz.
            + destruct Hz as [<-|Hz]; [right; now left|].
              destruct (IH z Hz) as [->|Hin]; [now left|right; now right].
            + destruct Hz as [<-|Hz]; [now left|now right]. }
        apply List.Forall_forall. intros z Hz. destruct (Hperm z Hz) as [->|Hin]; [exact Hle|].
        rewrite List.Forall_forall in Hy. now apply Hy.
      * constructor; [now constructor|].
        constructor; [lia|].
        rewrite List.Forall_forall in Hy |- *. intros z Hz. specialize (Hy z Hz). lia.
Defined.

(** ** Package collision: reading the language model's replies *)

Definition newline : ascii := ascii_of_nat 10.

(** A byte of printable, non-blank ASCII. *)
Definition is_graphic (a : ascii) : bool :=
  ((33 <=? nat_of_ascii a) && (nat_of_ascii a <=? 126))%nat.

Fixpoint last_byte (s : string) (a : ascii) : ascii :=
  match s with
  | EmptyString => a
  | String b s' => last_byte s' b
  end.

(** Text that starts and ends with printable, non-blank ASCII. *)
Definition graphic_ends (s : string) : bool :=
  match s with
  | EmptyString => false
  | String a s' => is_graphic a && is_graphic (last_byte s' a)
  end.

Fixpoint single_line (s : string) : bool :=
  match s with
  | EmptyString => true
  | String a s' => negb (Ascii.eqb a newline) && single_line s'
  end.

(** [strings.TrimSpace] cuts leading and trailing white space as Unicode
    defines it. What is relied on: the empty string stays empty, a leading
    blank goes, and text that starts and ends with printable ASCII stays. *)
Class GoTrim := {
  strings_TrimSpace : string -> string;
  TrimSpace_empty : strings_TrimSpace "" = "";
  TrimSpace_blank : forall s, strings_TrimSpace (String " " s) = strings_TrimSpace s;
  TrimSpace_graphic : forall s, graphic_ends s = true -> strings_TrimSpace s = s
}.

(** [strings.Split(s, "\n")]: byte-wise, and never an empty slice. *)
Fixpoint strings_Split_lines (s : string) : list string :=
  match s with
  | EmptyString => [""]
  | String a s' =>
      if Ascii.eqb a newline then "" :: strings_Split_lines s'
      else match strings_Split_lines s' with
           | line :: lines => String a line :: lines
           | [] => [String a ""]
           end
  end.

Fixpoint string_drop (n : nat) (s : string) : string :=
  match n, s with
  | O, _ => s
  | S n', String _ s' => string_drop n' s'
  | S _, EmptyString => EmptyString
  end.

(** [strings.TrimPrefix] *)
Definition strings_TrimPrefix (s pfx : string) : string :=
  if strings_HasPrefix s pfx then string_drop (String.length pfx) s else s.

Section AIService.
Context `{GoTrim}.

(** The inner loop of [parseNumberedList] on one trimmed line: the first
    [i] of [1..expectedCount] whose prefix ["i."] matches decides, and the
    item is appended unless it is empty. *)
Definition numberedItem (line : string) (expectedCount : Z) : option string :=
  match List.find (fun i : Z => strings_HasPrefix line (pretty i ++ "."))
                  (map Z.of_nat (seq 1 (Z.to_nat expectedCount))) with
  | Some i =>
      let item := strings_TrimSpace (strings_TrimPrefix line (pretty i ++ ".")) in
      if String.eqb item "" then None else Some item
  | None => None
  end.

Definition parseNumberedList (content : string) (expectedCount : Z) : list string :=
  fold_left
    (fun items line =>
       let line := strings_TrimSpace line in
       if String.eqb line "" then items
       else match numberedItem line expectedCount with
            | Some item => List.app items [item]
            | None => items
            end)
    (strings_Split_lines content) [].

Definition parseQuestionsList (content : string) : list string := parseNumberedList content 4.
Definition parseExamplesList (content : string) : list string := parseNumberedList content 3.
Definition parseStepsList (content : string) : list string := parseNumberedList content 4.

(** What [CreateChatCompletion] answers to the four prompts: [None] is an
    error or an answer without choices, [Some] the content of the first
    choice. *)
Record ChatReplies := {
  chat_connection : option string;
  chat_questions : option string;
  chat_examples : option string;
  chat_steps : option string
}.

Definition generateEnhancedConnection (chat : ChatReplies) : option string :=
  option_map strings_TrimSpace (chat_connection chat).
Definition generateAdvancedSparkQuestions (chat : ChatReplies) : option (list string) :=
  option_map parseQuestionsList (chat_questions chat).
Definition generateContextualExamples (chat : ChatReplies) : option (list string) :=
  option_map parseExamplesList (chat_examples chat).
Definition generateAdvancedNextSteps (chat : ChatReplies) : option (list string) :=
  option_map parseStepsList (chat_steps chat).

Definition replies_of_chat (chat : ChatReplies) : AIReplies :=
  Build_AIReplies (generateEnhancedConnection chat) (generateAdvancedSparkQuestions chat)
    (generateContextualExamples chat) (generateAdvancedNextSteps chat).
End AIService.

(** A reply in the format the prompts ask for: one item a line, numbered
    from [i]. *)
Fixpoint numbered (i : Z) (items : list string) : list string :=
  match items with
  | [] => []
  | item :: rest => (pretty i ++ ". " ++ item) :: numbered (i + 1) rest
  end.

Definition numbered_reply (items : list string) : string :=
  String.concat (String newline "") (numbered 1 items).

(** Trimming of ASCII white space. *)
Fixpoint ascii_TrimLeft (s : string) : string :=
  match s with
  | EmptyString => EmptyString
  | String a s' => if AsciiLib.is_space a then ascii_TrimLeft s' else s
  end.

Fixpoint ascii_TrimRight (s : string) : string :=
  match s with
  | EmptyString => EmptyString
  | String a s' =>
      match ascii_TrimRight s' with
      | EmptyString => if AsciiLib.is_space a then EmptyString else String a EmptyString
      | rest => String a rest
      end
  end.

#[export, refine] Instance ascii_trim : GoTrim := {|
  strings_TrimSpace := fun s => ascii_TrimRight (ascii_TrimLeft s);
  TrimSpace_empty := eq_refl;
  TrimSpace_blank := fun s => eq_refl;
  TrimSpace_graphic := _
|}.
Proof.
  assert (Hspace : forall a, is_graphic a = true -> AsciiLib.is_space a = false).
  { intros a. unfold is_graphic, AsciiLib.is_space.
    generalize (nat_of_ascii a). intros n Hg.
    apply andb_prop in Hg. destruct Hg as [Hlo Hhi].
    apply Nat.leb_le in Hlo. apply Nat.leb_le in Hhi.
    apply orb_false_intro.
    - apply andb_false_intro2. apply Nat.leb_gt. lia.
    - apply Nat.eqb_neq. lia. }
  assert (Hright : forall s a, is_graphic (last_byte s a) = true ->
                               ascii_TrimRight (String a s) = String a s).
  { induction s as [|b s IH]; intros a Hlast; simpl in Hlast.
    - simpl. now rewrite (Hspace a Hlast).
    - specialize (IH b Hlast).
      change (ascii_TrimRight (String a (String b s)))
        with (match ascii_TrimRight (String b s) with
              | EmptyString =>
                  if AsciiLib.is_space a then EmptyString else String a EmptyString
              | rest => String a rest
              end).
      rewrite IH. reflexivity. }
  intros [|a s] Hg; [discriminate|]. simpl in Hg.
  apply andb_prop in Hg. destruct Hg as [Ha Hlast].
  cbn [ascii_TrimLeft]. rewrite (Hspace a Ha). now apply Hright.
Defined.

(** ** The usage endpoint *)

(** The [fiber.Map] of [GetUsageStatus]. *)
Module UsageStatus.
Record t := mk {
  tier : string;
  collisions_used : Z;
  collisions_limit : Z;
  collisions_remaining : Z;
  reset_date : option Z;
  unlimited : bool
}.
End UsageStatus.

Inductive UsageReply :=
| UsageSent (status : UsageStatus.t)
| UsageError (status : Z) (e : ErrorResponse.t)
| UsageFailed (code : Z) (message : string).

Definition GetUsageStatus_handler (c : Ctx.t) (w : World) : UsageReply * World :=
  match GetUserIDFromContext c with
  | inr (code, message) => (UsageFailed code message, w)
  | inl userID =>
      let tier := GetSubscriptionTierFromContext c in
      if is_premium tier
      then (UsageSent (UsageStatus.mk tier 0 (-1) (-1) None true), w)
      else
        let '(fresh, w) := uuid_New_ w in
        let '((usage, err), p) := GetUserUsage (clock w) fresh userID (db w) in
        let w := with_db w p in
        match err, usage with
        | None, Some u =>
            let limit := UsageLimits_at tier in
            let remaining := (limit - UserUsage.CollisionCount u)%Z in
            let remaining := if (remaining <? 0)%Z then 0%Z else remaining in
            (UsageSent (UsageStatus.mk tier (UserUsage.CollisionCount u) limit remaining
                          (Some (UserUsage.ResetDate u)) false), w)
        | _, _ =>
            (UsageError StatusInternalServerError
               (ErrorResponse.mk "usage_check_failed" "Failed to check usage" 500), w)
        end
  end.

(** ** Authentication *)

(** The claims of a token. *)
Module Claims.
Record t := mk { UserID : UUID; Email : string; SubscriptionTier : string }.
End Claims.

(** [strings.Split(s, sep)] for a separator of one byte. *)
Fixpoint strings_Split_byte (sep : ascii) (s : string) : list string :=
  match s with
  | EmptyString => [""]
  | String a s' =>
      if Ascii.eqb a sep then "" :: strings_Split_byte sep s'
      else match strings_Split_byte sep s' with
           | part :: parts => String a part :: parts
           | [] => [String a ""]
           end
  end.

Fixpoint has_byte (a : ascii) (s : string) : bool :=
  match s with
  | EmptyString => false
  | String b s' => Ascii.eqb b a || has_byte a s'
  end.

Definition unauthorized (message : string) : Outcome :=
  Sent StatusUnauthorized (JSONError (ErrorResponse.mk "unauthorized" message 401)).

(** The context after [c.Locals("user_id", ...)] and
    [c.Locals("subscription_tier", ...)]; the local [user_email] is read by no
    handler. *)
Definition set_claims (claims : Claims.t) (c : Ctx.t) : Ctx.t :=
  Ctx.mk (Some (Claims.UserID claims)) (Some (Claims.SubscriptionTier claims))
    (Ctx.user_usage c) (Ctx.ip_uuid c) (Ctx.param_id c) (Ctx.body_input c)
    (Ctx.body_rate c) (Ctx.headers c).

Section Auth.
(** [jwtService.ValidateToken]: the claims of a token that is signed with
    the key of the service and valid; [None] is an error. *)
Variable ValidateToken : string -> option Claims.t.

(** [authHeader] is what [c.Get("Authorization")] returns for the request. *)
Definition AuthMiddleware (authHeader : string) (next : Handler) : Handler :=
  fun c w =>
  if String.eqb authHeader "" then
    (unauthorized "Authorization header required", c, w)
  else
    match strings_Split_byte " " authHeader with
    | [scheme; tokenString] =>
        if negb (String.eqb scheme "Bearer") then
          (unauthorized "Invalid authorization header format", c, w)
        else
          match ValidateToken tokenString with
          | None => (unauthorized "Invalid token", c, w)
          | Some claims => next (set_claims claims c) w
          end
    | _ => (unauthorized "Invalid authorization header format", c, w)
    end.

Context `{GoLib}.
Variable h : CollisionHandler.t.

(** [POST /api/collisions/generate] and [PUT /api/collisions/:id/rate] as
    [main] registers them. *)
Definition generate_endpoint (authHeader : string) (config : RateLimitConfig.t)
    (rnd : Entropy) (ai : AIReplies) : Handler :=
  AuthMiddleware authHeader (generate_route h config rnd ai).

Definition rate_endpoint (authHeader : string) : Handler :=
  AuthMiddleware authHeader rate_route.
End Auth.

(** A token service for the examples: one token is valid, [alice]'s. *)
Definition sample_ValidateToken (tokenString : string) : option Claims.t :=
  if String.eqb tokenString "alice-token"
  then Some (Claims.mk alice "alice@example.com" TierFree)
  else None.

(** * Properties *)

(** ** Scores stay in their ranges *)

Section ScoreBounds.
Context `{GoLib}.
Local Open Scope Q_scope.

Lemma math_Min_le_l x y : math_Min x y <= x.
Proof. apply Q.le_min_l. Qed.

Lemma math_Min_le_r x y : math_Min x y <= y.
Proof. apply Q.le_min_r. Qed.

Lemma math_Min_glb z x y : z <= x -> z <= y -> z <= math_Min x y.
Proof. intros. now apply Q.min_glb. Qed.

Lemma math_Max_le_l x y : x <= math_Max x y.
Proof. apply Q.le_max_l. Qed.

Lemma math_Max_lub x y z : x <= z -> y <= z -> math_Max x y <= z.
Proof. intros. now apply Q.max_lub. Qed.

(** Adding non-negative amounts in a loop keeps a score non-negative. *)
Lemma fold_bonus_nonneg {A} (test : A -> bool) (bonus : Q) (l : list A) (s0 : Q) :
  0 <= bonus -> 0 <= s0 ->
  0 <= fold_left (fun s x => if test x then s + bonus else s) l s0.
Proof.
  intros Hb. revert s0.
  induction l as [|x l IH]; simpl; intros s0 Hs; [exact Hs|].
  apply IH. destruct (test x); [|exact Hs].
  rewrite <- (Qplus_0_l 0). now apply Qplus_le_compat.
Qed.

Lemma interestDomainScore_nonneg interestLower domain :
  0 <= interestDomainScore interestLower domain.
Proof.
  unfold interestDomainScore.
  set (k := fold_left _ _ _).
  assert (Hk : 0 <= k).
  { subst k. apply fold_bonus_nonneg; [discriminate|].
    repeat match goal with |- context [if ?b then _ else _] => destruct b end;
      discriminate. }
  match goal with |- context [if ?b then _ else _] => destruct b end; [|exact Hk].
  rewrite <- (Qplus_0_l 0). apply Qplus_le_compat; [exact Hk|discriminate].
Qed.

(** The loop over the interests keeps [0 <= score <= totalPossible] and
    adds 3 to [totalPossible] at each interest. *)
Lemma interestRelevanceLoop_from interests domain s0 t0 :
  0 <= s0 -> s0 <= t0 ->
  let '(score, totalPossible) :=
    fold_left (fun '(score, totalPossible) interest =>
                 let interestLower := strings_ToLower interest in
                 (score + math_Min (interestDomainScore interestLower domain) 3,
                  totalPossible + 3))
              interests (s0, t0) in
  0 <= score /\ score <= totalPossible
  /\ totalPossible == t0 + 3 * inject_Z (Z.of_nat (length interests)).
Proof.
  revert s0 t0.
  induction interests as [|x l IH]; intros s0 t0 H0 H1.
  - simpl. repeat split; try assumption. ring.
  - cbn [fold_left length].
    set (m := math_Min (interestDomainScore (strings_ToLower x) domain) 3).
    assert (Hm0 : 0 <= m).
    { apply math_Min_glb; [apply interestDomainScore_nonneg|discriminate]. }
    assert (Hm3 : m <= 3) by apply math_Min_le_r.
    specialize (IH (s0 + m) (t0 + 3)).
    destruct (fold_left _ l (s0 + m, t0 + 3)) as [score total].
    destruct IH as (I0 & I1 & I2).
    + rewrite <- (Qplus_0_l 0). now apply Qplus_le_compat.
    + now apply Qplus_le_compat.
    + repeat split; try assumption.
      rewrite I2, Nat2Z.inj_succ. unfold Z.succ. rewrite inject_Z_plus. ring.
Qed.

Lemma calculateInterestRelevance_range interests domain :
  0 <= calculateInterestRelevance interests domain <= 1.
Proof.
  unfold calculateInterestRelevance, interestRelevanceLoop.
  destruct interests as [|x l]; [split; discriminate|].
  cbn [length Nat.eqb].
  pose proof (interestRelevanceLoop_from (x :: l) domain 0 0
                ltac:(discriminate) ltac:(discriminate)) as Hloop.
  destruct (fold_left _ (x :: l) (0, 0)) as [score total].
  destruct Hloop as (I0 & I1 & I2).
  assert (Hpos : 0 < total).
  { rewrite I2, Qplus_0_l.
    apply Qmult_lt_0_compat; [reflexivity|].
    change 0 with (inject_Z 0). rewrite <- Zlt_Qlt.
    cbn [length]. lia. }
  split.
  - apply Qle_shift_div_l; [exact Hpos|]. now rewrite Qmult_0_l.
  - apply Qle_shift_div_r; [exact Hpos|]. now rewrite Qmult_1_l.
Qed.

Lemma calculateNoveltyScore_range interests domain :
  0 <= calculateNoveltyScore interests domain <= 1.
Proof.
  unfold calculateNoveltyScore.
  set (n := math_Max (2 # 10) (1 - calculateInterestRelevance interests domain)).
  assert (Hn : 0 <= n).
  { apply Qle_trans with (2 # 10); [discriminate|apply math_Max_le_l]. }
  split; [|apply math_Min_le_r].
  apply math_Min_glb; [|discriminate].
  destruct (existsb _ _); [|exact Hn].
  apply Qmult_le_0_compat; [exact Hn|discriminate].
Qed.

Lemma calculateQualityScore_range r input domain :
  0 <= calculateQualityScore r input domain <= 100.
Proof.
  unfold calculateQualityScore. split.
  - apply math_Max_le_l.
  - apply math_Max_lub; [discriminate|apply math_Min_le_l].
Qed.
End ScoreBounds.

(** C6. For every domain and every list of interests, the interest-relevance
    score lies in [0,1] and is 0 for the empty list, the novelty score lies in
    [0,1], and the quality score, whatever the noise drawn, lies in [0,100]. *)
Theorem C6_scores_in_range `{GoLib} (interests : list string) (d : CollisionDomain.t)
    (noise : Q) (input : CollisionInput.t) :
  (0 <= calculateInterestRelevance interests d <= 1)%Q
  /\ calculateInterestRelevance [] d = 0%Q
  /\ (0 <= calculateNoveltyScore interests d <= 1)%Q
  /\ (0 <= calculateQualityScore noise input d <= 100)%Q.
Proof.
  split; [apply calculateInterestRelevance_range|].
  split; [reflexivity|].
  split; [apply calculateNoveltyScore_range|apply calculateQualityScore_range].
Qed.

(** ** The composite score *)

(** C7. The composite selection score is [w_R * relevance + w_N * novelty]
    with weights (0.6, 0.4) for gentle, (0.4, 0.6) for moderate and
    (0.2, 0.8) for radical; novelty outweighs relevance for radical, and
    relevance outweighs novelty for gentle. *)
Theorem C7_composite_weights (relevance novelty : Q) :
  weight_of "gentle" = (6 # 10, 4 # 10)
  /\ weight_of "moderate" = (4 # 10, 6 # 10)
  /\ weight_of "radical" = (2 # 10, 8 # 10)
  /\ calculateAntiEchoChamberScore relevance novelty "gentle"
     = (relevance * (6 # 10) + novelty * (4 # 10))%Q
  /\ calculateAntiEchoChamberScore relevance novelty "moderate"
     = (relevance * (4 # 10) + novelty * (6 # 10))%Q
  /\ calculateAntiEchoChamberScore relevance novelty "radical"
     = (relevance * (2 # 10) + novelty * (8 # 10))%Q
  /\ (fst (weight_of "radical") < snd (weight_of "radical"))%Q
  /\ (snd (weight_of "gentle") < fst (weight_of "gentle"))%Q.
Proof.
  assert (Hg : weight_of "gentle" = (6 # 10, 4 # 10)) by (vm_compute; reflexivity).
  assert (Hm : weight_of "moderate" = (4 # 10, 6 # 10)) by (vm_compute; reflexivity).
  assert (Hr : weight_of "radical" = (2 # 10, 8 # 10)) by (vm_compute; reflexivity).
  unfold calculateAntiEchoChamberScore. rewrite Hg, Hm, Hr. cbn [fst snd].
  repeat split; reflexivity.
Qed.

(** ** Selection *)

Section Selection.
Context `{GoLib}.

Lemma isIntensityCompatible_In domain intensity :
  isIntensityCompatible domain intensity = true
  <-> In intensity (CollisionDomain.Intensity domain).
Proof.
  unfold isIntensityCompatible. rewrite existsb_exists. split.
  - intros (x & Hx & Heq). apply String.eqb_eq in Heq. now subst.
  - intros Hin. exists intensity. split; [exact Hin|apply String.eqb_refl].
Qed.

Lemma filterCandidateDomains_In e input primaryDomain domain :
  In domain (filterCandidateDomains e input primaryDomain)
  <-> In domain (CollisionEngine.Domains e)
      /\ CollisionDomain.Name domain <> primaryDomain
      /\ isIntensityCompatible domain (CollisionInput.CollisionIntensity input) = true.
Proof.
  unfold filterCandidateDomains. rewrite filter_In, andb_true_iff, negb_true_iff.
  rewrite String.eqb_neq. tauto.
Qed.

Lemma selectLoop_In matches ws i cumulative target m :
  selectLoop matches ws i cumulative target = Some m -> In m matches.
Proof.
  revert i cumulative.
  induction ws as [|w ws IH]; simpl; intros i cumulative Hsel; [discriminate|].
  destruct (Qge_bool _ _).
  - apply list_elem_of_In. eapply list_elem_of_lookup_2. exact Hsel.
  - eapply IH. exact Hsel.
Qed.

(** A non-empty slice: the draw returns one of its elements. *)
Lemma selectWithRandomness_In r matches intensity :
  matches <> [] -> In (selectWithRandomness r matches intensity) matches.
Proof.
  destruct matches as [|first rest]; [congruence|]. intros _.
  unfold selectWithRandomness.
  match goal with |- context [selectLoop ?a ?b ?c ?d ?t] =>
    destruct (selectLoop a b c d t) as [m|] eqn:Hsel end.
  - eapply selectLoop_In. exact Hsel.
  - now left.
Qed.

Lemma selectWithRandomness_nil r intensity :
  selectWithRandomness r [] intensity = fallbackMatch.
Proof. reflexivity. Qed.

(** With a candidate at hand, the selected domain is one of the candidates. *)
Lemma selectCollisionDomain_candidate e r input primaryDomain :
  filterCandidateDomains e input primaryDomain <> [] ->
  In (fst (selectCollisionDomain e r input primaryDomain))
     (filterCandidateDomains e input primaryDomain).
Proof.
  intros Hne. unfold selectCollisionDomain. cbn [fst].
  set (cands := filterCandidateDomains e input primaryDomain) in *.
  set (sorted := sort_Slice _ (map (scoreCandidate input) cands)).
  assert (Hperm : Permutation sorted (map (scoreCandidate input) cands))
    by apply sort_Slice_Permutation.
  assert (Hsne : sorted <> []).
  { intros Hnil. rewrite Hnil in Hperm. apply Permutation_nil in Hperm.
    apply map_eq_nil in Hperm. contradiction. }
  pose proof (selectWithRandomness_In r sorted
                (CollisionInput.CollisionIntensity input) Hsne) as Hin.
  eapply Permutation_in in Hin; [|exact Hperm].
  apply in_map_iff in Hin. destruct Hin as (d & Hd & Hdin).
  rewrite <- Hd. exact Hdin.
Qed.

Lemma selectCollisionDomain_sentinel e r input primaryDomain :
  filterCandidateDomains e input primaryDomain = [] ->
  CollisionDomain.Name (fst (selectCollisionDomain e r input primaryDomain)) = "Innovation".
Proof.
  intros Hnil. unfold selectCollisionDomain. rewrite Hnil. cbn [map fst].
  set (sorted := sort_Slice _ _).
  assert (Hperm : Permutation sorted (@nil DomainMatch.t))
    by apply sort_Slice_Permutation.
  apply Permutation_sym, Permutation_nil in Hperm. rewrite Hperm.
  reflexivity.
Qed.

(** What [GenerateCollision] puts in the result, field by field. *)
Lemma GenerateCollision_fields e rnd input :
  let primaryDomain := selectPrimaryDomain e (CollisionInput.UserInterests input) in
  let chosen := fst (selectCollisionDomain e (rand_select rnd) input primaryDomain) in
  snd (GenerateCollision e rnd input) = None
  /\ CollisionResult.PrimaryDomain (fst (GenerateCollision e rnd input)) = primaryDomain
  /\ CollisionResult.CollisionDomain (fst (GenerateCollision e rnd input))
     = CollisionDomain.Name chosen.
Proof.
  cbv zeta. unfold GenerateCollision.
  destruct (selectCollisionDomain e (rand_select rnd) input _) as [d reasoning].
  cbn. repeat split.
Qed.
End Selection.

(** C1. When at least one catalog domain is admissible for the request (its
    intensity list contains the requested intensity and its name differs
    from the computed primary domain), the returned collision domain differs
    from the primary domain of the same result, and the chosen domain is a
    catalog domain whose intensity list contains the requested intensity. *)
Theorem C1_collision_differs_from_primary `{GoLib} (e : CollisionEngine.t) (rnd : Entropy)
    (input : CollisionInput.t) :
  (exists d, In d (CollisionEngine.Domains e)
             /\ In (CollisionInput.CollisionIntensity input) (CollisionDomain.Intensity d)
             /\ CollisionDomain.Name d
                <> selectPrimaryDomain e (CollisionInput.UserInterests input)) ->
  let result := fst (GenerateCollision e rnd input) in
  let chosen :=
    fst (selectCollisionDomain e (rand_select rnd) input
           (selectPrimaryDomain e (CollisionInput.UserInterests input))) in
  CollisionResult.CollisionDomain result <> CollisionResult.PrimaryDomain result
  /\ CollisionResult.CollisionDomain result = CollisionDomain.Name chosen
  /\ In chosen (CollisionEngine.Domains e)
  /\ In (CollisionInput.CollisionIntensity input) (CollisionDomain.Intensity chosen).
Proof.
  intros (d & Hd & Hint & Hname). cbv zeta.
  destruct (GenerateCollision_fields e rnd input) as (_ & Hprim & Hcol).
  rewrite Hprim, Hcol.
  set (primaryDomain := selectPrimaryDomain e (CollisionInput.UserInterests input)) in *.
  assert (Hne : filterCandidateDomains e input primaryDomain <> []).
  { intros Hnil.
    assert (Hin : In d (filterCandidateDomains e input primaryDomain)).
    { apply filterCandidateDomains_In. repeat split; try assumption.
      now apply isIntensityCompatible_In. }
    rewrite Hnil in Hin. exact Hin. }
  pose proof (selectCollisionDomain_candidate e (rand_select rnd) input primaryDomain Hne)
    as Hsel.
  apply filterCandidateDomains_In in Hsel. destruct Hsel as (Hc & Hcn & Hci).
  repeat split; try assumption.
  now apply isIntensityCompatible_In.
Qed.

Lemma C1_collision_differs_from_primary_witness :
  let result := fst (GenerateCollision suite_engine suite_entropy suite_input) in
  let chosen :=
    fst (selectCollisionDomain suite_engine (rand_select suite_entropy) suite_input
           (selectPrimaryDomain suite_engine (CollisionInput.UserInterests suite_input))) in
  CollisionResult.CollisionDomain result <> CollisionResult.PrimaryDomain result
  /\ CollisionResult.CollisionDomain result = CollisionDomain.Name chosen
  /\ In chosen (CollisionEngine.Domains suite_engine)
  /\ In (CollisionInput.CollisionIntensity suite_input) (CollisionDomain.Intensity chosen).
Proof.
  apply (C1_collision_differs_from_primary suite_engine suite_entropy suite_input).
  exists jazz. split; [simpl; tauto|]. split; [simpl; tauto|].
  vm_compute. discriminate.
Defined.

(** ** The sentinel, and the engine's error result *)

Section Sentinel.
Context `{GoLib}.

Lemma GenerateCollision_no_error e rnd input :
  snd (GenerateCollision e rnd input) = None.
Proof. apply GenerateCollision_fields. Qed.

(** No admissible domain: the candidate list is empty. *)
Lemma filterCandidateDomains_nil e input primaryDomain :
  (forall d, In d (CollisionEngine.Domains e) ->
             ~ In (CollisionInput.CollisionIntensity input) (CollisionDomain.Intensity d)) ->
  filterCandidateDomains e input primaryDomain = [].
Proof.
  intros Hnone.
  destruct (filterCandidateDomains e input primaryDomain) as [|d l] eqn:Hf; [reflexivity|].
  assert (Hin : In d (filterCandidateDomains e input primaryDomain))
    by (rewrite Hf; now left).
  apply filterCandidateDomains_In in Hin. destruct Hin as (Hd & _ & Hc).
  apply isIntensityCompatible_In in Hc. now apply Hnone in Hd.
Qed.

Lemma EnhanceCollisionResult_domain ai result :
  CollisionResult.CollisionDomain (fst (EnhanceCollisionResult ai result))
  = CollisionResult.CollisionDomain result.
Proof. reflexivity. Qed.

Lemma EnhanceCollisionResult_no_error ai result :
  snd (EnhanceCollisionResult ai result) = None.
Proof. reflexivity. Qed.

(** Once the request is parsed and valid, the handler answers 200 with
    the engine's collision domain. *)
Lemma GenerateCollision_handler_ok h rnd ai c w userID input :
  Ctx.user_id c = Some userID ->
  Ctx.body_input c = Some input ->
  validate_CollisionInput input = None ->
  exists result w',
    GenerateCollision_handler h rnd ai c w = (Sent 200 (JSONResult result), c, w')
    /\ CollisionResult.CollisionDomain result
       = CollisionResult.CollisionDomain
           (fst (GenerateCollision (CollisionHandler.engine h) rnd input)).
Proof.
  intros Hid Hbody Hvalid.
  unfold GenerateCollision_handler, GetUserIDFromContext.
  rewrite Hid, Hbody, Hvalid.
  pose proof (GenerateCollision_no_error (CollisionHandler.engine h) rnd input) as Herr.
  destruct (GenerateCollision (CollisionHandler.engine h) rnd input) as [result err].
  cbn [fst snd] in *. subst err.
  set (enhanced := if is_premium _ then _ else _).
  assert (Hdom : CollisionResult.CollisionDomain (fst enhanced)
                 = CollisionResult.CollisionDomain result).
  { subst enhanced. destruct (is_premium _); [|reflexivity].
    destruct (findDomainByName h _); reflexivity. }
  destruct enhanced as [result' w0]. cbn [fst] in Hdom.
  destruct (uuid_New_ w0) as [id w1].
  destruct (CreateCollisionSession _ _) as [err1 p1].
  destruct (String.eqb _ TierFree).
  - destruct (IncrementUserUsage _ _ _) as [err2 p2].
    destruct (InvalidateUserUsage _ _) as [err3 r3].
    eexists _, _. split; [reflexivity|exact Hdom].
  - eexists _, _. split; [reflexivity|exact Hdom].
Qed.

(** The branch that reports [collision_generation_failed] is never taken. *)
Lemma GenerateCollision_handler_never_fails h rnd ai c w status er :
  fst (fst (GenerateCollision_handler h rnd ai c w)) = Sent status (JSONError er) ->
  ErrorResponse.Error er <> "collision_generation_failed".
Proof.
  unfold GenerateCollision_handler.
  destruct (GetUserIDFromContext c) as [userID|[code message]]; [|discriminate].
  destruct (Ctx.body_input c) as [input|].
  2:{ cbn. intros [= <- <-]. discriminate. }
  destruct (validate_CollisionInput input) as [verr|].
  { cbn. intros [= <- <-]. discriminate. }
  pose proof (GenerateCollision_no_error (CollisionHandler.engine h) rnd input) as Herr.
  destruct (GenerateCollision (CollisionHandler.engine h) rnd input) as [result err].
  cbn [fst snd] in *. subst err.
  destruct (if is_premium _ then _ else _) as [result' w0].
  destruct (uuid_New_ w0) as [id w1].
  destruct (CreateCollisionSession _ _) as [err1 p1].
  destruct (String.eqb _ TierFree).
  - destruct (IncrementUserUsage _ _ _) as [err2 p2].
    destruct (InvalidateUserUsage _ _) as [err3 r3]. discriminate.
  - discriminate.
Qed.
End Sentinel.

(** C5. For every valid request evaluated against an empty catalog, or
    against an intensity that no catalog domain admits, generation succeeds
    without error and the collision domain of the result is the sentinel
    "Innovation", from the engine and from the handler (status 200); the
    engine returns no error for any input, and no response of the handler
    carries [collision_generation_failed]. *)
Theorem C5_sentinel_without_error `{GoLib} (h : CollisionHandler.t) (rnd : Entropy)
    (ai : AIReplies) (c : Ctx.t) (w : World) (userID : UUID) (input : CollisionInput.t) :
  validate_CollisionInput input = None ->
  CollisionEngine.Domains (CollisionHandler.engine h) = []
  \/ (forall d, In d (CollisionEngine.Domains (CollisionHandler.engine h)) ->
                ~ In (CollisionInput.CollisionIntensity input) (CollisionDomain.Intensity d)) ->
  Ctx.user_id c = Some userID ->
  Ctx.body_input c = Some input ->
  (exists result,
      GenerateCollision (CollisionHandler.engine h) rnd input = (result, None)
      /\ CollisionResult.CollisionDomain result = "Innovation")
  /\ (exists result w',
         GenerateCollision_handler h rnd ai c w = (Sent 200 (JSONResult result), c, w')
         /\ CollisionResult.CollisionDomain result = "Innovation")
  /\ (forall e' rnd' input', snd (GenerateCollision e' rnd' input') = None)
  /\ (forall rnd' ai' c' w' status er,
         fst (fst (GenerateCollision_handler h rnd' ai' c' w')) = Sent status (JSONError er) ->
         ErrorResponse.Error er <> "collision_generation_failed").
Proof.
  intros Hvalid Hcat Hid Hbody.
  set (e := CollisionHandler.engine h) in *.
  assert (Hnil : filterCandidateDomains e input
                   (selectPrimaryDomain e (CollisionInput.UserInterests input)) = []).
  { destruct Hcat as [Hempty|Hnone].
    - unfold filterCandidateDomains. now rewrite Hempty.
    - now apply filterCandidateDomains_nil. }
  assert (Hsent : CollisionResult.CollisionDomain (fst (GenerateCollision e rnd input))
                  = "Innovation").
  { destruct (GenerateCollision_fields e rnd input) as (_ & _ & Hcol).
    rewrite Hcol. now apply selectCollisionDomain_sentinel. }
  split.
  { exists (fst (GenerateCollision e rnd input)). split; [|exact Hsent].
    pose proof (GenerateCollision_no_error e rnd input) as Herr.
    destruct (GenerateCollision e rnd input) as [result err]. cbn in Herr. now subst. }
  split.
  { destruct (GenerateCollision_handler_ok h rnd ai c w userID input Hid Hbody Hvalid)
      as (result & w' & Hrun & Hdom).
    exists result, w'. split; [exact Hrun|]. now rewrite Hdom. }
  split.
  { intros. apply GenerateCollision_no_error. }
  intros. eapply GenerateCollision_handler_never_fails. eassumption.
Qed.

Lemma C5_sentinel_without_error_witness :
  (exists result,
      GenerateCollision empty_engine suite_entropy suite_input = (result, None)
      /\ CollisionResult.CollisionDomain result = "Innovation")
  /\ (exists result w',
         GenerateCollision_handler (CollisionHandler.mk empty_engine) suite_entropy
           (Build_AIReplies None None None None) (ctx_generate TierFree suite_input) world0
         = (Sent 200 (JSONResult result), ctx_generate TierFree suite_input, w')
         /\ CollisionResult.CollisionDomain result = "Innovation")
  /\ (forall e' rnd' input', snd (GenerateCollision e' rnd' input') = None)
  /\ (forall rnd' ai' c' w' status er,
         fst (fst (GenerateCollision_handler (CollisionHandler.mk empty_engine) rnd' ai' c' w'))
         = Sent status (JSONError er) ->
         ErrorResponse.Error er <> "collision_generation_failed").
Proof.
  apply (C5_sentinel_without_error (CollisionHandler.mk empty_engine) suite_entropy
           (Build_AIReplies None None None None) (ctx_generate TierFree suite_input)
           world0 alice suite_input).
  - vm_compute. reflexivity.
  - left. reflexivity.
  - reflexivity.
  - reflexivity.
Defined.

(** ** The connection hash *)

Lemma hex_digit_lower_hex (n : Z) : is_lower_hex (hex_digit n) = true.
Proof.
  unfold hex_digit. generalize (Z.to_nat n) as k. intros k.
  do 16 (destruct k as [|k]; [reflexivity|]). reflexivity.
Qed.

Lemma fmt_x_length (bs : list Z) : String.length (fmt_x bs) = (2 * length bs)%nat.
Proof. induction bs as [|x bs IH]; simpl; [reflexivity|]. rewrite IH. lia. Qed.

Lemma fmt_x_lower_hex (bs : list Z) : string_all is_lower_hex (fmt_x bs) = true.
Proof.
  induction bs as [|x bs IH]; simpl; [reflexivity|].
  now rewrite !hex_digit_lower_hex, IH.
Qed.

Lemma Sum256_length (msg : list Z) : length (SHA256.Sum256 msg) = 32%nat.
Proof.
  unfold SHA256.Sum256.
  generalize (SHA256.blocks (length (SHA256.pad msg) / 64) SHA256.init (SHA256.pad msg)).
  intros s. reflexivity.
Qed.

Lemma substring_prefix_length (n : nat) (s : string) :
  (n <= String.length s)%nat -> String.length (String.substring 0 n s) = n.
Proof.
  revert s. induction n as [|n IH]; intros s Hle.
  - destruct s; reflexivity.
  - destruct s as [|ch s]; simpl in *; [lia|]. rewrite IH; [reflexivity|lia].
Qed.

Lemma substring_prefix_all (p : ascii -> bool) (n : nat) (s : string) :
  string_all p s = true -> string_all p (String.substring 0 n s) = true.
Proof.
  revert s. induction n as [|n IH]; intros s Hall.
  - destruct s; reflexivity.
  - destruct s as [|ch s]; simpl in *; [reflexivity|].
    apply andb_true_iff in Hall. destruct Hall as [Hch Hs].
    now rewrite Hch, IH.
Qed.

(** The digest of "abc" from FIPS 180-4, and the digest of the engine's own
    test as Go computes it. *)
Example Sum256_abc :
  fmt_x (SHA256.Sum256 (bytes_of_string "abc"))
  = "ba7816bf8f01cfea414140de5dae2223b00361a396177a9cb410ff61f20015ad".
Proof. vm_compute. reflexivity. Qed.

Example generateConnectionHash_jazz :
  generateConnectionHash suite_engine
    (CollisionInput.mk ["design"; "technology"] "mobile app" "product" "moderate") "Jazz"
  = "f7cb0985d10d8813".
Proof. vm_compute. reflexivity. Qed.

(** C9. [generateConnectionHash] is a function of the collision input and
    the domain name alone: whatever the engine it is called on, equal
    arguments give equal results; and every result is a string of 16
    lowercase hexadecimal characters. *)
Theorem C9_connection_hash_pure_hex16 (e1 e2 : CollisionEngine.t) (input : CollisionInput.t)
    (domainName : string) :
  generateConnectionHash e1 input domainName = generateConnectionHash e2 input domainName
  /\ String.length (generateConnectionHash e1 input domainName) = 16%nat
  /\ string_all is_lower_hex (generateConnectionHash e1 input domainName) = true.
Proof.
  split; [reflexivity|]. unfold generateConnectionHash. split.
  - apply substring_prefix_length. rewrite fmt_x_length, Sum256_length. lia.
  - apply substring_prefix_all, fmt_x_lower_hex.
Qed.

(** ** The sliding-window limiter *)

Lemma with_faults_same (r : Redis.t) : Redis.with_faults r (Redis.faults r) = r.
Proof. destruct r; reflexivity. Qed.

Lemma zset_at_with_zset (r : Redis.t) (key : string) (s : gmap Z Z) :
  Redis.zset_at (Redis.with_zset r key s) key = s.
Proof. unfold Redis.zset_at, Redis.with_zset. cbn. now rewrite lookup_insert_eq. Qed.

Lemma wrap64_small (z : Z) : (- 2 ^ 63 <= z < 2 ^ 63)%Z -> wrap64 z = z.
Proof. intros Hz. unfold wrap64. rewrite Z.mod_small by lia. lia. Qed.

(** For a window of at most 9223372036 seconds, the longest that a
    [time.Duration] holds, the arithmetic on durations is exact. *)
Lemma window_start_exact (now W : Z) :
  (- 9223372036 <= W <= 9223372036)%Z -> window_start now W = (now - W * Second)%Z.
Proof.
  intros HW. unfold window_start, Second.
  rewrite (wrap64_small (- W)) by lia. rewrite wrap64_small by lia. lia.
Qed.

Lemma Unix_window_start (now W : Z) :
  (- 9223372036 <= W <= 9223372036)%Z -> Unix (window_start now W) = (Unix now - W)%Z.
Proof.
  intros HW. rewrite window_start_exact by exact HW.
  unfold Unix. replace (now - W * Second)%Z with (now + (- W) * Second)%Z by lia.
  rewrite Z.div_add by (unfold Second; lia). lia.
Qed.

Lemma window_expiry (W : Z) :
  (0 < W <= 9223372036)%Z -> formatSec (wrap64 (W * Second)) = W.
Proof.
  intros HW. rewrite wrap64_small by (unfold Second; lia). unfold formatSec.
  destruct (Z.ltb_spec 0 (W * Second)); destruct (Z.ltb_spec (W * Second) Second);
    cbn [andb]; try (unfold Second in *; lia);
    apply Z.quot_mul; unfold Second; lia.
Qed.

Lemma live_idempotent (now W : Z) (s : gmap Z Z) : live now W (live now W s) = live now W s.
Proof.
  unfold live. apply map_filter_id. intros i x Hix.
  apply map_lookup_filter_Some in Hix. apply Hix.
Qed.

(** Eviction that the cache carries out keeps the live members; a window
    left empty goes with its time to live. *)
Lemma ZRemRangeByScore_run (key : string) (now W : Z) (r : Redis.t) (fs : list bool) :
  next_fault (Redis.faults r) = (false, fs) ->
  exists r1,
    Redis.ZRemRangeByScore key 0 (Unix (window_start now W)) r = (None, r1)
    /\ Redis.zset_at r1 key = live now W (Redis.zset_at r key)
    /\ (forall x, <[key := x]> (Redis.ttl r1) = <[key := x]> (Redis.ttl r))
    /\ Redis.usage r1 = Redis.usage r
    /\ Redis.faults r1 = fs.
Proof.
  intros Hf. unfold Redis.ZRemRangeByScore. rewrite Hf.
  cbn [Redis.with_faults Redis.zsets Redis.usage Redis.ttl Redis.faults].
  destruct (Redis.zsets r !! key) as [s|] eqn:Hk.
  - cbv zeta.
    destruct (Nat.eqb_spec
                (size (filter (fun '(_, score) =>
                                 ¬ (0 ≤ score ∧ score ≤ Unix (window_start now W))%Z) s)) 0)
      as [Hempty|Hne].
    + eexists. split; [reflexivity|].
      apply map_size_empty_iff in Hempty.
      unfold Redis.zset_at, Redis.without_zset, live.
      cbn [Redis.zsets Redis.usage Redis.ttl Redis.faults].
      rewrite lookup_delete_eq, Hk. cbn [default].
      split; [symmetry; exact Hempty|]. split; [intros x; apply insert_delete_eq|].
      split; reflexivity.
    + eexists. split; [reflexivity|]. rewrite zset_at_with_zset.
      unfold Redis.zset_at at 1. rewrite Hk. cbn [default].
      split; [reflexivity|]. split; [reflexivity|]. split; reflexivity.
  - eexists. split; [reflexivity|]. unfold Redis.zset_at.
    cbn [Redis.with_faults Redis.zsets Redis.usage Redis.ttl Redis.faults].
    rewrite Hk. cbn [default from_option].
    unfold live. rewrite map_filter_empty. split; [reflexivity|].
    split; [reflexivity|]. split; reflexivity.
Qed.

(** With the cache healthy, eviction succeeds and keeps the live members. *)
Lemma ZRemRangeByScore_ok (key : string) (now W : Z) (r : Redis.t) :
  Redis.faults r = [] ->
  exists r1,
    Redis.ZRemRangeByScore key 0 (Unix (window_start now W)) r = (None, r1)
    /\ Redis.zset_at r1 key = live now W (Redis.zset_at r key)
    /\ (forall x, <[key := x]> (Redis.ttl r1) = <[key := x]> (Redis.ttl r))
    /\ Redis.usage r1 = Redis.usage r
    /\ Redis.faults r1 = [].
Proof. intros Hf. apply ZRemRangeByScore_run. now rewrite Hf. Qed.

Lemma ZCard_ok (key : string) (r : Redis.t) :
  Redis.faults r = [] ->
  Redis.ZCard key r = ((Z.of_nat (size (Redis.zset_at r key)), None), r).
Proof.
  intros Hf. unfold Redis.ZCard. rewrite Hf. cbn [next_fault].
  now rewrite <- Hf, with_faults_same.
Qed.

Lemma ZAdd_ok (key : string) (score member : Z) (r : Redis.t) :
  Redis.faults r = [] ->
  exists r1,
    Redis.ZAdd key score member r = (None, r1)
    /\ Redis.zset_at r1 key = <[member := score]> (Redis.zset_at r key)
    /\ Redis.zsets r1 !! key = Some (<[member := score]> (Redis.zset_at r key))
    /\ Redis.ttl r1 = Redis.ttl r /\ Redis.usage r1 = Redis.usage r
    /\ Redis.faults r1 = [].
Proof.
  intros Hf. unfold Redis.ZAdd. rewrite Hf. cbn [next_fault].
  rewrite <- Hf, with_faults_same.
  eexists. split; [reflexivity|]. rewrite zset_at_with_zset.
  unfold Redis.with_zset. cbn. rewrite lookup_insert_eq. repeat split; auto.
Qed.

Lemma Expire_ok (key : string) (seconds : Z) (r : Redis.t) (s : gmap Z Z) :
  Redis.faults r = [] -> Redis.zsets r !! key = Some s -> (0 < seconds)%Z ->
  exists r1,
    Redis.Expire key seconds r = (None, r1)
    /\ Redis.zset_at r1 key = Redis.zset_at r key
    /\ Redis.ttl r1 = <[key := seconds]> (Redis.ttl r)
    /\ Redis.usage r1 = Redis.usage r
    /\ Redis.faults r1 = [].
Proof.
  intros Hf Hk Hpos. unfold Redis.Expire. rewrite Hf. cbn [next_fault].
  rewrite <- Hf, with_faults_same. rewrite Hk.
  destruct (Z.leb_spec seconds 0) as [Hle|_]; [lia|].
  eexists. split; [reflexivity|]. repeat split; auto.
Qed.

Lemma nil_error_checked (D : Decision (@None string ≠ None)) :
  @bool_decide (@None string ≠ None) D = false.
Proof. apply bool_decide_eq_false_2. intros Hne. now apply Hne. Qed.

Lemma some_error_checked (err : string) (D : Decision (Some err ≠ None)) :
  @bool_decide (Some err ≠ None) D = true.
Proof. now apply bool_decide_eq_true_2. Qed.

(** What [CheckRateLimit] does on a healthy cache, for a window that a
    [time.Duration] holds: with [c] live requests in the window it denies
    exactly when [c >= limit]; otherwise it adds the request under its
    nanosecond and sets the time to live to the window. *)
Lemma CheckRateLimit_ok (now : Z) (userID : string) (W L : Z) (r : Redis.t) :
  Redis.faults r = [] -> (0 < W <= 9223372036)%Z ->
  let key := KeyRateLimit userID W in
  let window := live now W (Redis.zset_at r key) in
  let c := Z.of_nat (size window) in
  exists r',
    CheckRateLimit now userID W L r = ((negb (L <=? c)%Z, None), r')
    /\ Redis.faults r' = []
    /\ Redis.usage r' = Redis.usage r
    /\ (if (L <=? c)%Z
        then Redis.zset_at r' key = window
        else Redis.zset_at r' key = <[UnixNano now := Unix now]> window
             /\ Redis.ttl r' = <[key := W]> (Redis.ttl r)).
Proof.
  intros Hf HW. cbv zeta. unfold CheckRateLimit.
  set (key := KeyRateLimit userID W).
  destruct (ZRemRangeByScore_ok key now W r Hf) as (r1 & E1 & Z1 & T1 & U1 & F1).
  rewrite E1. cbv beta iota. rewrite nil_error_checked, (ZCard_ok key r1 F1).
  cbv beta iota. rewrite nil_error_checked, Z1.
  destruct (L <=? _)%Z eqn:Hdeny.
  - exists r1. cbn [negb]. repeat split; auto.
  - destruct (ZAdd_ok key (Unix now) (UnixNano now) r1 F1)
      as (r2 & E2 & Z2 & K2 & T2 & U2 & F2).
    rewrite E2. cbv beta iota. rewrite nil_error_checked.
    unfold client_Expire. rewrite (window_expiry W HW).
    destruct (Expire_ok key W r2 _ F2 K2 ltac:(lia)) as (r3 & E3 & Z3 & T3 & U3 & F3).
    rewrite E3. exists r3. cbn [negb]. repeat split; auto.
    + congruence.
    + now rewrite Z3, Z2, Z1.
    + now rewrite T3, T2, T1.
Qed.

(** On a healthy cache, [GetRateLimitStatus] reports the limit less the
    live count, as an [int] and not below 0, whatever the reset time. *)
Lemma GetRateLimitStatus_ok (now : Z) (userID : string) (W L : Z) (r : Redis.t) :
  Redis.faults r = [] ->
  let key := KeyRateLimit userID W in
  let window := live now W (Redis.zset_at r key) in
  exists resetTime r',
    GetRateLimitStatus now userID W L r
    = ((Z.max 0 (wrap64 (L - Z.of_nat (size window))), resetTime, None), r')
    /\ Redis.zset_at r' key = window
    /\ Redis.faults r' = [].
Proof.
  intros Hf. cbv zeta. unfold GetRateLimitStatus.
  set (key := KeyRateLimit userID W).
  destruct (ZRemRangeByScore_ok key now W r Hf) as (r1 & E1 & Z1 & T1 & U1 & F1).
  rewrite E1. cbv beta iota. rewrite nil_error_checked, (ZCard_ok key r1 F1).
  cbv beta iota. rewrite nil_error_checked, Z1.
  set (count := Z.of_nat (size (live now W (Redis.zset_at r key)))).
  assert (Hrem : (if (wrap64 (L - count) <? 0)%Z then 0%Z else wrap64 (L - count))
                 = Z.max 0 (wrap64 (L - count))).
  { destruct (Z.ltb_spec (wrap64 (L - count)) 0); lia. }
  rewrite Hrem.
  destruct (0 <? count)%Z; [|eexists _, r1; repeat split; auto].
  unfold Redis.ZRange00. rewrite F1. cbn [next_fault].
  rewrite <- F1, with_faults_same.
  destruct (Redis.first_member (Redis.zset_at r1 key)) as [member|];
    cbn [option_list option_rect]; [|eexists _, r1; repeat split; auto].
  unfold Redis.ZScore. rewrite F1. cbn [next_fault].
  rewrite <- F1, with_faults_same.
  destruct (Redis.zset_at r1 key !! member); eexists _, r1; repeat split; auto.
Qed.

(** The pair of calls the middleware makes for one request, on a healthy
    cache and with the request's nanosecond not yet a member: the status read
    after the check reports [max(0, limit - c - 1)], for a limit and a count
    whose difference is an [int]. *)
Lemma status_after_check (now : Z) (userID : string) (W L : Z) (r : Redis.t) :
  Redis.faults r = [] -> (0 < W <= 9223372036)%Z ->
  let key := KeyRateLimit userID W in
  let c := Z.of_nat (size (live now W (Redis.zset_at r key))) in
  Redis.zset_at r key !! UnixNano now = None ->
  (L < 2 ^ 63)%Z -> (- 2 ^ 63 <= L - c - 1)%Z ->
  exists r1 resetTime r2,
    CheckRateLimit now userID W L r = ((negb (L <=? c)%Z, None), r1)
    /\ GetRateLimitStatus now userID W L r1 = ((Z.max 0 (L - c - 1), resetTime, None), r2).
Proof.
  intros Hf HW. cbv zeta. intros Hfresh HL Hlow.
  destruct (CheckRateLimit_ok now userID W L r Hf HW) as (r1 & E1 & F1 & _ & Hst).
  cbv zeta in *.
  set (key := KeyRateLimit userID W) in *.
  set (window := live now W (Redis.zset_at r key)) in *.
  destruct (GetRateLimitStatus_ok now userID W L r1 F1) as (reset & r2 & E2 & _ & _).
  cbv zeta in E2. fold key in E2.
  exists r1, reset, r2. split; [exact E1|]. rewrite E2.
  destruct (Z.leb_spec L (Z.of_nat (size window))) as [Hdeny|Hallow].
  - rewrite Hst. unfold window at 1. rewrite live_idempotent.
    fold window. rewrite wrap64_small by lia. do 3 f_equal. lia.
  - destruct Hst as [Hz _]. rewrite Hz.
    assert (Hlive : live now W (<[UnixNano now := Unix now]> window)
                    = <[UnixNano now := Unix now]> window).
    { unfold live at 1. rewrite map_filter_insert_True.
      - fold (live now W window). unfold window at 1. now rewrite live_idempotent.
      - rewrite Unix_window_start by lia. lia. }
    rewrite Hlive, map_size_insert_None.
    + rewrite wrap64_small by lia. do 3 f_equal. lia.
    + unfold window, live. apply map_lookup_filter_None. left. exact Hfresh.
Qed.

(** A request that the limiter admits: the header it carries on. The
    status is read after the request was recorded, and one more is taken off
    "for the current request": the header shows [limit - c - 2]. *)
Lemma RateLimitMiddleware_admitted (config : RateLimitConfig.t) (next : Handler)
    (c : Ctx.t) (w : World) (userID : UUID) :
  let W := RateLimitConfig.WindowSeconds config in
  let L := RateLimitConfig.MaxRequests config in
  let key := KeyRateLimit userID W in
  let cnt := Z.of_nat (size (live (clock w) W (Redis.zset_at (redis w) key))) in
  Ctx.user_id c = Some userID ->
  RateLimitConfig.SkipPremium config && is_premium (GetSubscriptionTierFromContext c) = false ->
  Redis.faults (redis w) = [] -> (0 < W <= 9223372036)%Z ->
  Redis.zset_at (redis w) key !! UnixNano (clock w) = None ->
  (cnt < L < 2 ^ 63)%Z ->
  exists c' w',
    RateLimitMiddleware config next c w = next c' w'
    /\ Ctx.headers c' !! "X-RateLimit-Remaining" = Some (pretty (L - cnt - 2)%Z).
Proof.
  cbv zeta. intros Hid Hskip Hf HW Hfresh Hlt.
  unfold RateLimitMiddleware, GetUserIDFromContext. rewrite Hid, Hskip.
  destruct (status_after_check (clock w) userID _ (RateLimitConfig.MaxRequests config)
              (redis w) Hf HW Hfresh ltac:(lia) ltac:(lia)) as (r1 & reset & r2 & E1 & E2).
  rewrite E1. cbv beta iota. cbn [redis with_redis clock]. rewrite E2. cbv beta iota.
  destruct (Z.leb_spec (RateLimitConfig.MaxRequests config)
              (Z.of_nat (size (live (clock w) (RateLimitConfig.WindowSeconds config)
                                 (Redis.zset_at (redis w)
                                    (KeyRateLimit userID
                                       (RateLimitConfig.WindowSeconds config)))))))
    as [Hdeny|_]; [lia|].
  cbn [negb]. eexists _, _. split; [reflexivity|].
  unfold Ctx.Set_. cbn [Ctx.headers].
  rewrite lookup_insert_ne by discriminate. rewrite lookup_insert_eq.
  do 2 f_equal. lia.
Qed.

(** A request that the limiter turns away, with the header it reports. *)
Lemma RateLimitMiddleware_denied (config : RateLimitConfig.t) (next : Handler)
    (c : Ctx.t) (w : World) (userID : UUID) :
  let W := RateLimitConfig.WindowSeconds config in
  let L := RateLimitConfig.MaxRequests config in
  let key := KeyRateLimit userID W in
  let cnt := Z.of_nat (size (live (clock w) W (Redis.zset_at (redis w) key))) in
  Ctx.user_id c = Some userID ->
  RateLimitConfig.SkipPremium config && is_premium (GetSubscriptionTierFromContext c) = false ->
  Redis.faults (redis w) = [] -> (0 < W <= 9223372036)%Z ->
  Redis.zset_at (redis w) key !! UnixNano (clock w) = None ->
  (L <= cnt)%Z -> (L < 2 ^ 63)%Z -> (- 2 ^ 63 <= L - cnt - 1)%Z ->
  exists message c' w',
    RateLimitMiddleware config next c w
    = (Sent StatusTooManyRequests
         (JSONError (ErrorResponse.mk "rate_limit_exceeded" message 429)), c', w')
    /\ Ctx.headers c' !! "X-RateLimit-Remaining" = Some "0".
Proof.
  cbv zeta. intros Hid Hskip Hf HW Hfresh Hge HL Hlow.
  unfold RateLimitMiddleware, GetUserIDFromContext. rewrite Hid, Hskip.
  destruct (status_after_check (clock w) userID _ (RateLimitConfig.MaxRequests config)
              (redis w) Hf HW Hfresh HL Hlow) as (r1 & reset & r2 & E1 & E2).
  rewrite E1. cbv beta iota. cbn [redis with_redis clock]. rewrite E2. cbv beta iota.
  destruct (Z.leb_spec (RateLimitConfig.MaxRequests config)
              (Z.of_nat (size (live (clock w) (RateLimitConfig.WindowSeconds config)
                                 (Redis.zset_at (redis w)
                                    (KeyRateLimit userID
                                       (RateLimitConfig.WindowSeconds config)))))))
    as [_|Hlt]; [|lia].
  cbn [negb]. eexists _, _, _. split; [reflexivity|].
  unfold Ctx.Set_. cbn [Ctx.headers].
  rewrite lookup_insert_ne by discriminate. rewrite lookup_insert_eq.
  f_equal. rewrite Z.max_l by lia. reflexivity.
Qed.

(** A cache that is down fails the first command of the check. *)
Lemma CheckRateLimit_cache_down (now : Z) (userID : string) (W L : Z) (r : Redis.t)
    (fs : list bool) :
  Redis.faults r = true :: fs ->
  CheckRateLimit now userID W L r = ((false, Redis.err), Redis.with_faults r fs).
Proof.
  intros Hf. unfold CheckRateLimit, Redis.ZRemRangeByScore. rewrite Hf. reflexivity.
Qed.

Lemma next_fault_nth (fs : list bool) : next_fault fs = (nth 0 fs false, tl fs).
Proof. destruct fs; reflexivity. Qed.

Lemma nth_tl (k : nat) (fs : list bool) : nth k (tl fs) false = nth (S k) fs false.
Proof. destruct fs; [destruct k|]; reflexivity. Qed.

Lemma C8_cache_error_unlogged_counterexample :
  ~ cache_error_is_logged rateLimitConfig (ctx_generate TierFree suite_input)
      world_expire_fails.
Proof.
  intros Hclaim.
  assert (Herr : limiter_cache_error rateLimitConfig (ctx_generate TierFree suite_input)
                   world_expire_fails).
  { vm_compute. tauto. }
  destruct (Hclaim Herr next_ok) as (c' & w' & line & Hrun & Hlog).
  vm_compute in Hrun. injection Hrun as <- <-.
  vm_compute in Hlog. discriminate.
Qed.

(** C8 (amended). No error of the cache makes the limiter deny a request or
    answer with an error, and the errors it logs are those of the commands
    whose result the check inspects. For every schedule of failures: when
    [ZREMRANGEBYSCORE], [ZCARD] or, for a request under the limit, [ZADD]
    fails (in particular when the cache is down), the next handler runs on
    the unchanged request context and the failure is written to the log; when
    these succeed, a request at or over the limit is answered 429 and one
    under the limit proceeds, and a failure of [EXPIRE] or of a command of the
    status read changes neither and is not logged. *)
Theorem C8_rate_limiter_fails_open (config : RateLimitConfig.t) (next : Handler)
    (c : Ctx.t) (w : World) (userID : UUID) :
  Ctx.user_id c = Some userID ->
  RateLimitConfig.SkipPremium config && is_premium (GetSubscriptionTierFromContext c) = false ->
  let W := RateLimitConfig.WindowSeconds config in
  let L := RateLimitConfig.MaxRequests config in
  let cnt :=
    Z.of_nat (size (live (clock w) W (Redis.zset_at (redis w) (KeyRateLimit userID W)))) in
  let failed k := nth k (Redis.faults (redis w)) false in
  let line := "Rate limit check failed: redis: command failed" in
  if failed 0%nat || failed 1%nat || (negb (L <=? cnt)%Z && failed 2%nat)
  then exists w',
         RateLimitMiddleware config next c w = next c w'
         /\ stdout w' = List.app (stdout w) [line] /\ db w' = db w
  else if (L <=? cnt)%Z
  then exists message c' w',
         RateLimitMiddleware config next c w
         = (Sent StatusTooManyRequests
              (JSONError (ErrorResponse.mk "rate_limit_exceeded" message 429)), c', w')
         /\ stdout w' = stdout w /\ db w' = db w
  else exists c' w',
         RateLimitMiddleware config next c w = next c' w'
         /\ stdout w' = stdout w /\ db w' = db w.
Proof.
  intros Hid Hskip. cbv zeta.
  unfold RateLimitMiddleware, GetUserIDFromContext. rewrite Hid, Hskip.
  unfold CheckRateLimit.
  set (W := RateLimitConfig.WindowSeconds config).
  set (L := RateLimitConfig.MaxRequests config).
  set (key := KeyRateLimit userID W).
  set (fs := Redis.faults (redis w)).
  destruct (nth 0 fs false) eqn:H0.
  { (* eviction fails *)
    unfold Redis.ZRemRangeByScore. fold fs. rewrite next_fault_nth, H0.
    cbv beta iota. unfold Redis.err. rewrite some_error_checked. cbn [orb].
    eexists. split; [reflexivity|]. split; reflexivity. }
  destruct (ZRemRangeByScore_run key (clock w) W (redis w) (tl fs)) as (r1 & E1 & Z1 & _ & _ & F1).
  { fold fs. now rewrite next_fault_nth, H0. }
  rewrite E1. cbv beta iota. rewrite nil_error_checked.
  unfold Redis.ZCard. rewrite F1, next_fault_nth, nth_tl.
  destruct (nth 1 fs false) eqn:H1.
  { (* the count fails *)
    cbv beta iota. unfold Redis.err. rewrite some_error_checked. cbn [orb].
    eexists. split; [reflexivity|]. split; reflexivity. }
  cbv beta iota. rewrite nil_error_checked.
  assert (Hcount : Redis.zset_at (Redis.with_faults r1 (tl (tl fs))) key
                   = live (clock w) W (Redis.zset_at (redis w) key)).
  { rewrite <- Z1. reflexivity. }
  rewrite Hcount. cbn [orb].
  destruct (L <=? _)%Z eqn:Hdeny; cbn [negb andb].
  { (* at or over the limit: denied for the count *)
    cbv beta iota. cbn [redis with_redis clock].
    destruct (GetRateLimitStatus _ _ _ _ _) as [[[remaining resetTime] e5] r5].
    cbn [negb]. eexists _, _, _. split; [reflexivity|]. split; reflexivity. }
  unfold Redis.ZAdd.
  cbn [Redis.faults Redis.with_faults]. rewrite next_fault_nth, !nth_tl.
  destruct (nth 2 fs false) eqn:H2.
  { (* recording the request fails *)
    cbv beta iota. unfold Redis.err. rewrite some_error_checked.
    eexists. split; [reflexivity|]. split; reflexivity. }
  cbv beta iota. rewrite nil_error_checked.
  destruct (client_Expire _ _ _) as [e4 r4]. cbv beta iota.
  cbn [redis with_redis clock].
  destruct (GetRateLimitStatus _ _ _ _ _) as [[[remaining resetTime] e5] r5].
  cbn [negb]. eexists _, _. split; [reflexivity|]. split; reflexivity.
Qed.

Lemma C8_rate_limiter_fails_open_witness :
  let c := ctx_generate TierFree suite_input in
  exists w',
    RateLimitMiddleware rateLimitConfig next_ok c world_cache_down = next_ok c w'
    /\ stdout w' = List.app (stdout world_cache_down)
                     ["Rate limit check failed: redis: command failed"]
    /\ db w' = db world_cache_down.
Proof.
  exact (C8_rate_limiter_fails_open rateLimitConfig next_ok
           (ctx_generate TierFree suite_input) world_cache_down alice eq_refl eq_refl).
Defined.

(** C2. On the generate route's limiter (window 60 s, limit 10) the decision
    is taken as the claim says, but the remaining count sent with an admitted
    request is not [max(0, L - c - 1)]: with no request in the window the
    header reads 8, not 9, and with nine requests in the window the tenth is
    admitted with a header of -1, not 0. *)
Theorem C2_remaining_header_counts_request_twice :
  let c0 := ctx_generate TierFree suite_input in
  let key := KeyRateLimit alice 60 in
  (size (live (clock world0) 60 (Redis.zset_at (redis world0) key)) = 0%nat
   /\ exists c' w',
        RateLimitMiddleware rateLimitConfig next_ok c0 world0
        = (Sent 200 (JSONMessage "ok"), c', w')
        /\ Redis.zset_at (redis w') key !! clock world0 = Some (Unix (clock world0))
        /\ Redis.ttl (redis w') !! key = Some 60%Z
        /\ Ctx.headers c' !! "X-RateLimit-Remaining" = Some "8"
        /\ pretty (Z.max 0 (10 - 0 - 1)) = "9")
  /\ (size (live (clock world_nine) 60 (Redis.zset_at (redis world_nine) key)) = 9%nat
      /\ exists c' w',
           RateLimitMiddleware rateLimitConfig next_ok c0 world_nine
           = (Sent 200 (JSONMessage "ok"), c', w')
           /\ Ctx.headers c' !! "X-RateLimit-Remaining" = Some "-1"
           /\ pretty (Z.max 0 (10 - 9 - 1)) = "0").
Proof.
  cbv zeta. split.
  - split; [vm_compute; reflexivity|].
    destruct (RateLimitMiddleware rateLimitConfig next_ok (ctx_generate TierFree suite_input)
                world0) as [[out c'] w'] eqn:Hrun.
    vm_compute in Hrun. injection Hrun as <- <- <-.
    eexists _, _. split; [reflexivity|]. repeat split; vm_compute; reflexivity.
  - split; [vm_compute; reflexivity|].
    destruct (RateLimitMiddleware rateLimitConfig next_ok (ctx_generate TierFree suite_input)
                world_nine) as [[out c'] w'] eqn:Hrun.
    vm_compute in Hrun. injection Hrun as <- <- <-.
    eexists _, _. split; [reflexivity|]. repeat split; vm_compute; reflexivity.
Qed.

(** ** The weekly usage limit *)

Lemma UsageLimits_free : UsageLimits_at TierFree = 5%Z.
Proof. vm_compute. reflexivity. Qed.

Lemma free_not_premium : is_premium TierFree = false.
Proof. reflexivity. Qed.

(** A cache miss on a healthy cache: [GetCachedUserUsage] returns a nil
    record and a nil error, the fallback to the durable store is not taken,
    and the limit check reads the count through the nil pointer. The
    durable store is left as it was: no row is read or created. *)
Lemma UsageLimitMiddleware_cache_miss (next : Handler) (c : Ctx.t) (w : World)
    (userID : UUID) (fs : list bool) :
  Ctx.user_id c = Some userID ->
  GetSubscriptionTierFromContext c = TierFree ->
  next_fault (Redis.faults (redis w)) = (false, fs) ->
  Redis.usage (redis w) !! KeyUserUsage userID = None ->
  UsageLimitMiddleware next c w
  = (Panic nil_dereference, c, with_redis w (Redis.with_faults (redis w) fs)).
Proof.
  intros Hid Htier Hf Hmiss.
  unfold UsageLimitMiddleware, GetUserIDFromContext. rewrite Hid, Htier, free_not_premium.
  unfold GetCachedUserUsage, Redis.Get. rewrite Hf. cbn [Redis.usage Redis.with_faults].
  rewrite Hmiss. unfold checkWeeklyLimit. rewrite UsageLimits_free. reflexivity.
Qed.

(** A cached record at or over the limit: 402, and nothing is written. *)
Lemma UsageLimitMiddleware_cached_over_limit (next : Handler) (c : Ctx.t) (w : World)
    (userID : UUID) (fs : list bool) (u : UserUsage.t) :
  Ctx.user_id c = Some userID ->
  GetSubscriptionTierFromContext c = TierFree ->
  next_fault (Redis.faults (redis w)) = (false, fs) ->
  Redis.usage (redis w) !! KeyUserUsage userID = Some u ->
  (5 <= UserUsage.CollisionCount u)%Z ->
  exists message,
    UsageLimitMiddleware next c w
    = (Sent StatusPaymentRequired
         (JSONError (ErrorResponse.mk "usage_limit_exceeded" message 402)),
       c, with_redis w (Redis.with_faults (redis w) fs)).
Proof.
  intros Hid Htier Hf Hhit Hcount.
  unfold UsageLimitMiddleware, GetUserIDFromContext. rewrite Hid, Htier, free_not_premium.
  unfold GetCachedUserUsage, Redis.Get. rewrite Hf. cbn [Redis.usage Redis.with_faults].
  rewrite Hhit. unfold checkWeeklyLimit. rewrite UsageLimits_free.
  change (0 <? 5)%Z with true. cbv beta iota.
  destruct (Z.leb_spec 5 (UserUsage.CollisionCount u)) as [_|Hlt]; [|lia].
  eexists. reflexivity.
Qed.

(** A cache error, then a row at or over the limit in the durable store:
    402 as well, the tables are as before. *)
Lemma UsageLimitMiddleware_fallback_over_limit (next : Handler) (c : Ctx.t) (w : World)
    (userID : UUID) (fs : list bool) (u : UserUsage.t) :
  Ctx.user_id c = Some userID ->
  GetSubscriptionTierFromContext c = TierFree ->
  Redis.faults (redis w) = true :: fs ->
  Postgres.faults (db w) = [] ->
  latest (List.filter (in_window (clock w) userID) (Postgres.user_usage (db w))) = Some u ->
  (5 <= UserUsage.CollisionCount u)%Z ->
  exists message c' w',
    UsageLimitMiddleware next c w
    = (Sent StatusPaymentRequired
         (JSONError (ErrorResponse.mk "usage_limit_exceeded" message 402)), c', w')
    /\ Postgres.collision_sessions (db w') = Postgres.collision_sessions (db w)
    /\ Postgres.user_usage (db w') = Postgres.user_usage (db w).
Proof.
  intros Hid Htier Hf Hpf Hrow Hcount.
  unfold UsageLimitMiddleware, GetUserIDFromContext. rewrite Hid, Htier, free_not_premium.
  unfold GetCachedUserUsage, Redis.Get. rewrite Hf. cbn [next_fault]. cbv beta iota.
  destruct (uuid_New_ _) as [fresh w1] eqn:Hnew.
  assert (Hdb : db w1 = db w /\ clock w1 = clock w).
  { unfold uuid_New_ in Hnew. cbn in Hnew.
    destruct (uuids w); injection Hnew as <- <-; split; reflexivity. }
  destruct Hdb as [Hdb Hclock].
  unfold GetUserUsage. rewrite Hdb, Hclock, Hpf. cbn [next_fault].
  cbn [Postgres.with_faults Postgres.user_usage]. rewrite Hrow. cbv beta iota.
  destruct (CacheUserUsage _ _ _ _) as [cerr r2].
  unfold checkWeeklyLimit. rewrite UsageLimits_free.
  change (0 <? 5)%Z with true. cbv beta iota.
  destruct (Z.leb_spec 5 (UserUsage.CollisionCount u)) as [_|Hlt]; [|lia].
  eexists _, _, _. split; [reflexivity|]. split; reflexivity.
Qed.

(** C3. A free-tier generation request on a healthy cache that holds no
    usage entry for the principal does not end with a limit decision: the
    cache miss comes back as a nil record with a nil error, the durable store
    is not consulted (no row is read or created, although [GetUserUsage]
    would create one with count 0), and the limit check panics on the nil
    record; the client gets a 500 [server_error]. *)
Theorem C3_cache_miss_skips_store_and_panics :
  let c0 := ctx_generate TierFree suite_input in
  GetCachedUserUsage alice (redis world0) = ((None, None), redis world0)
  /\ (exists u p,
         GetUserUsage (clock world0) "0a0a0a0a-0000-4000-8000-000000000001" alice (db world0)
         = ((Some u, None), p)
         /\ UserUsage.CollisionCount u = 0%Z
         /\ length (Postgres.user_usage p) = 1%nat)
  /\ UsageLimitMiddleware next_ok c0 world0 = (Panic nil_dereference, c0, world0)
  /\ serve (generate_route suite_handler rateLimitConfig suite_entropy no_ai) c0 world0
     = (Response.mk 500
          (JSONError (ErrorResponse.mk "server_error" nil_dereference 500)) ∅,
        world0).
Proof.
  cbv zeta. split; [vm_compute; reflexivity|].
  split.
  { eexists _, _. split; [vm_compute; reflexivity|]. split; reflexivity. }
  assert (Hmiss : forall next,
             UsageLimitMiddleware next (ctx_generate TierFree suite_input) world0
             = (Panic nil_dereference, ctx_generate TierFree suite_input, world0)).
  { intros next.
    rewrite (UsageLimitMiddleware_cache_miss next _ world0 alice []); reflexivity. }
  split; [apply Hmiss|].
  unfold serve, generate_route. rewrite Hmiss. reflexivity.
Qed.

(** C4. A free principal with five collisions in the current week, on a
    healthy cache without an entry of theirs: the generation request is not
    answered 402 [usage_limit_exceeded] but 500 [server_error] (the limit
    check panics on the nil record of the cache miss). No session is inserted
    and the count stays 5. With the record in the cache the same request is
    answered 402 and nothing changes. *)
Theorem C4_at_quota_cache_miss_is_500 :
  let c0 := ctx_generate TierFree suite_input in
  let route := generate_route suite_handler rateLimitConfig suite_entropy no_ai in
  (exists u,
      latest (List.filter (in_window (clock world_at_quota) alice)
                (Postgres.user_usage (db world_at_quota))) = Some u
      /\ UserUsage.CollisionCount u = 5%Z)
  /\ serve route c0 world_at_quota
     = (Response.mk 500
          (JSONError (ErrorResponse.mk "server_error" nil_dereference 500)) ∅,
        world_at_quota)
  /\ serve route c0 world_at_quota_cached
     = (Response.mk 402 usage_limit_exceeded ∅, world_at_quota_cached).
Proof.
  cbv zeta. split.
  { exists usage_at_quota. split; vm_compute; reflexivity. }
  split.
  - unfold serve, generate_route.
    rewrite (UsageLimitMiddleware_cache_miss _ _ world_at_quota alice []); reflexivity.
  - vm_compute. reflexivity.
Qed.

(** ** Rating a collision *)

Lemma validate_RateRequest_ok (rating : Z) :
  (1 <= rating <= 5)%Z -> validate_RateRequest rating = None.
Proof.
  intros Hr. unfold validate_RateRequest.
  destruct (Z.eqb_spec rating 0); [lia|].
  destruct (Z.ltb_spec rating 1); [lia|].
  destruct (Z.ltb_spec 5 rating); [lia|reflexivity].
Qed.

Lemma map_unmatched {A} (test : A -> bool) (update : A -> A) (l : list A) :
  (forall x, In x l -> test x = false) ->
  map (fun x => if test x then update x else x) l = l.
Proof.
  induction l as [|x l IH]; intros Hnone; [reflexivity|].
  cbn [map]. rewrite (Hnone x (or_introl eq_refl)), IH; [reflexivity|].
  intros y Hy. apply Hnone. now right.
Qed.

(** An update that matches no row leaves the table as it was. *)
Lemma RateCollision_no_match (sessionID userID : UUID) (rating : Z) (notes : option string)
    (p : Postgres.t) :
  (forall s, In s (Postgres.collision_sessions p) -> rate_matches sessionID userID s = false) ->
  RateCollision sessionID userID rating notes p
  = (if fst (next_fault (Postgres.faults p)) then Postgres.err else None,
     Postgres.with_faults p (snd (next_fault (Postgres.faults p)))).
Proof.
  intros Hnone. unfold RateCollision.
  destruct (next_fault (Postgres.faults p)) as [f fs]. cbn [fst snd].
  destruct f; [reflexivity|].
  cbn [Postgres.collision_sessions Postgres.with_faults Postgres.user_usage Postgres.faults].
  assert (Hex : existsb (rate_matches sessionID userID) (Postgres.collision_sessions p) = false).
  { apply not_true_is_false. intros Hex. apply existsb_exists in Hex.
    destruct Hex as (s & Hs & Hm). rewrite (Hnone s Hs) in Hm. discriminate. }
  rewrite Hex. cbn [andb]. unfold Postgres.with_faults. do 2 f_equal.
  now apply map_unmatched.
Qed.

Lemma C10_rating_unknown_session_counterexample :
  ~ rating_unknown_session_is_404
      (ctx_rate (CollisionSession.ID bob_session) 5 (Some "Great collision!")) world_bob.
Proof.
  intros Hclaim.
  specialize (Hclaim alice (CollisionSession.ID bob_session) 5%Z (Some "Great collision!")
                eq_refl eq_refl eq_refl ltac:(lia)).
  assert (Hnone : forall s, In s (Postgres.collision_sessions (db world_bob)) ->
                            rate_matches (CollisionSession.ID bob_session) alice s = false).
  { intros s [<-|[]]. vm_compute. reflexivity. }
  specialize (Hclaim Hnone). vm_compute in Hclaim. discriminate.
Qed.

(** C10 (amended). A well-formed rating of a session that does not exist, or
    is not the principal's, changes no session and is never answered 404: the
    update matches no row, [Exec] returns no error for that, and the handler
    answers 200 "Rating saved successfully"; only a failure of the database
    command itself gives 500 [rating_failed]. *)
Theorem C10_rating_unknown_session_reports_success (c : Ctx.t) (w : World)
    (userID sessionID : UUID) (rating : Z) (notes : option string) :
  Ctx.user_id c = Some userID ->
  Ctx.param_id c = Some sessionID ->
  Ctx.body_rate c = Some (rating, notes) ->
  (1 <= rating <= 5)%Z ->
  (forall s, In s (Postgres.collision_sessions (db w)) ->
             rate_matches sessionID userID s = false) ->
  let resp := fst (serve rate_route c w) in
  let w' := snd (serve rate_route c w) in
  Postgres.collision_sessions (db w') = Postgres.collision_sessions (db w)
  /\ Response.Status resp <> 404%Z
  /\ (if fst (next_fault (Postgres.faults (db w)))
      then Response.Status resp = 500%Z
           /\ Response.Body_ resp
              = JSONError (ErrorResponse.mk "rating_failed" "Failed to save rating" 500)
      else Response.Status resp = 200%Z
           /\ Response.Body_ resp = JSONMessage "Rating saved successfully").
Proof.
  intros Hid Hparam Hbody Hrating Hnone. cbv zeta.
  unfold serve, rate_route, RateCollision_handler, GetUserIDFromContext.
  rewrite Hid, Hparam, Hbody, (validate_RateRequest_ok rating Hrating).
  rewrite (RateCollision_no_match sessionID userID rating notes (db w) Hnone).
  destruct (next_fault (Postgres.faults (db w))) as [f fs]. cbn [fst snd].
  destruct f; cbn; repeat split; discriminate.
Qed.

Lemma C10_rating_unknown_session_reports_success_witness :
  let c := ctx_rate (CollisionSession.ID bob_session) 5 (Some "Great collision!") in
  let resp := fst (serve rate_route c world_bob) in
  let w' := snd (serve rate_route c world_bob) in
  Postgres.collision_sessions (db w') = Postgres.collision_sessions (db world_bob)
  /\ Response.Status resp <> 404%Z
  /\ (if fst (next_fault (Postgres.faults (db world_bob)))
      then Response.Status resp = 500%Z
           /\ Response.Body_ resp
              = JSONError (ErrorResponse.mk "rating_failed" "Failed to save rating" 500)
      else Response.Status resp = 200%Z
           /\ Response.Body_ resp = JSONMessage "Rating saved successfully").
Proof.
  apply (C10_rating_unknown_session_reports_success
           (ctx_rate (CollisionSession.ID bob_session) 5 (Some "Great collision!"))
           world_bob alice (CollisionSession.ID bob_session) 5%Z (Some "Great collision!")).
  - reflexivity.
  - reflexivity.
  - reflexivity.
  - lia.
  - intros s [<-|[]]. vm_compute. reflexivity.
Defined.

(** * Further properties of the engine *)

Section EngineRanges.
Context `{GoLib}.
Local Open Scope Q_scope.

Lemma calculateDomainRelevance_nonneg input domain :
  0 <= calculateDomainRelevance input domain.
Proof.
  unfold calculateDomainRelevance.
  apply math_Min_glb; [|discriminate].
  apply (fold_bonus_nonneg
           (fun example =>
              existsb (fun word => (3 <? String.length word)%nat
                                   && strings_Contains (strings_ToLower example) word)
                      (strings_Fields (strings_ToLower (CollisionInput.CurrentProject input)))));
    [discriminate|].
  apply fold_bonus_nonneg; [discriminate|].
  destruct (relevanceMap !! _) as [cats|]; [|discriminate].
  destruct (existsb _ cats); discriminate.
Qed.

Lemma count_matches_nonneg {A} (test : A -> bool) (l : list A) (n0 : nat) :
  (n0 <= fold_left (fun n x => if test x then S n else n) l n0)%nat.
Proof.
  revert n0. induction l as [|x l IH]; simpl; intros n0; [lia|].
  destruct (test x); [|apply IH]. specialize (IH (S n0)). lia.
Qed.

Lemma count_matches_le_length {A} (test : A -> bool) (l : list A) (n0 : nat) :
  (fold_left (fun n x => if test x then S n else n) l n0 <= n0 + length l)%nat.
Proof.
  revert n0. induction l as [|x l IH]; simpl; intros n0; [lia|].
  destruct (test x); [specialize (IH (S n0))|specialize (IH n0)]; lia.
Qed.

Lemma float_of_nat_nonneg (n : nat) : 0 <= inject_Z (Z.of_nat n).
Proof. change 0 with (inject_Z 0). rewrite <- Zle_Qle. lia. Qed.

Lemma Qdiv_nonneg (x y : Q) : 0 <= x -> 0 < y -> 0 <= x / y.
Proof. intros Hx Hy. apply Qle_shift_div_l; [exact Hy|]. now rewrite Qmult_0_l. Qed.
End EngineRanges.

(** X1. The project relevance of a domain lies in [0,1] for every request and
    every domain, whatever the number of keyword and example matches. *)
Theorem X1_domain_relevance_in_range `{GoLib} (input : CollisionInput.t)
    (domain : CollisionDomain.t) :
  (0 <= calculateDomainRelevance input domain <= 1)%Q.
Proof.
  split; [apply calculateDomainRelevance_nonneg|].
  unfold calculateDomainRelevance. apply math_Min_le_r.
Qed.

(** X2. Project complexity and domain depth, the two other inputs of the
    quality score, both lie in [0,1]. *)
Theorem X2_complexity_and_depth_in_range `{GoLib} (project : string)
    (domain : CollisionDomain.t) :
  (0 <= assessProjectComplexity project <= 1)%Q
  /\ (0 <= assessDomainDepth domain <= 1)%Q.
Proof.
  split.
  - unfold assessProjectComplexity. split; [|apply math_Min_le_l].
    apply math_Min_glb; [discriminate|].
    apply Qdiv_nonneg; [apply float_of_nat_nonneg|reflexivity].
  - { unfold assessDomainDepth. split; [|apply math_Min_le_l].
      apply math_Min_glb; [discriminate|].
      assert (Hk : (0 <= math_Min (3 # 10)
                            (float_of_len (CollisionDomain.Keywords domain) / 10))%Q).
      { apply math_Min_glb; [discriminate|].
        apply Qdiv_nonneg; [apply float_of_nat_nonneg|reflexivity]. }
      assert (He : (0 <= math_Min (3 # 10)
                            (float_of_len (CollisionDomain.Examples domain) / 5))%Q).
      { apply math_Min_glb; [discriminate|].
        apply Qdiv_nonneg; [apply float_of_nat_nonneg|reflexivity]. }
      assert (Hs : (0 <= math_Min (2 # 10)
                            (inject_Z (Z.of_nat (String.length
                                                   (CollisionDomain.Description domain)))
                             / 200))%Q).
      { apply math_Min_glb; [discriminate|].
        apply Qdiv_nonneg; [apply float_of_nat_nonneg|reflexivity]. }
      destruct (String.eqb _ _); lra. }
Qed.

(** X3. The novelty score never falls below its floor 0.2, however well the
    domain matches the interests. *)
Theorem X3_novelty_floor `{GoLib} (interests : list string) (domain : CollisionDomain.t) :
  (2 # 10 <= calculateNoveltyScore interests domain)%Q.
Proof.
  unfold calculateNoveltyScore.
  set (n := math_Max (2 # 10) (1 - calculateInterestRelevance interests domain)).
  assert (Hn : (2 # 10 <= n)%Q) by apply math_Max_le_l.
  apply math_Min_glb; [|discriminate].
  destruct (existsb _ _); [|exact Hn]. lra.
Qed.

(** Whatever the intensity string, the weights are those of one of the
    three rows of the table. *)
Lemma weight_of_cases (intensity : string) :
  weight_of intensity = (6 # 10, 4 # 10)%Q
  \/ weight_of intensity = (4 # 10, 6 # 10)%Q
  \/ weight_of intensity = (2 # 10, 8 # 10)%Q.
Proof.
  unfold weight_of, weights.
  rewrite !lookup_insert, lookup_empty.
  repeat case_decide; try discriminate; try congruence; cbn; auto.
Qed.

Lemma weight_of_unknown (intensity : string) :
  intensity <> "gentle" -> intensity <> "moderate" -> intensity <> "radical" ->
  weight_of intensity = (4 # 10, 6 # 10)%Q.
Proof.
  intros Hg Hm Hr. unfold weight_of, weights.
  rewrite !lookup_insert_ne by congruence. rewrite lookup_empty. reflexivity.
Qed.

(** X4. For relevance and novelty in [0,1] the composite selection score
    lies in [0,1] for every intensity string; an intensity outside the table
    is scored with the moderate weights. *)
Theorem X4_composite_in_range (relevance novelty : Q) (intensity : string) :
  (0 <= relevance <= 1)%Q -> (0 <= novelty <= 1)%Q ->
  (0 <= calculateAntiEchoChamberScore relevance novelty intensity <= 1)%Q
  /\ (intensity <> "gentle" -> intensity <> "moderate" -> intensity <> "radical" ->
      calculateAntiEchoChamberScore relevance novelty intensity
      = calculateAntiEchoChamberScore relevance novelty "moderate").
Proof.
  intros Hr Hn. split.
  - unfold calculateAntiEchoChamberScore.
    destruct (weight_of_cases intensity) as [-> | [-> | ->]]; cbn [fst snd]; lra.
  - intros Hg Hm Hrad. unfold calculateAntiEchoChamberScore.
    rewrite (weight_of_unknown intensity Hg Hm Hrad). reflexivity.
Qed.

Lemma X4_composite_in_range_witness :
  (0 <= calculateAntiEchoChamberScore (1 # 4) (3 # 4) "extreme" <= 1)%Q
  /\ ("extreme" <> "gentle" -> "extreme" <> "moderate" -> "extreme" <> "radical" ->
      calculateAntiEchoChamberScore (1 # 4) (3 # 4) "extreme"
      = calculateAntiEchoChamberScore (1 # 4) (3 # 4) "moderate").
Proof.
  apply (X4_composite_in_range (1 # 4) (3 # 4) "extreme"); split; discriminate.
Defined.

Section SelectionExtras.
Context `{GoLib}.

(** The loop returns the match at an index it visited. *)
Lemma selectLoop_index matches ws i cumulative target m :
  selectLoop matches ws i cumulative target = Some m ->
  exists j, (i <= j < i + length ws)%nat /\ matches !! j = Some m.
Proof.
  revert i cumulative.
  induction ws as [|w ws IH]; simpl; intros i cumulative Hsel; [discriminate|].
  destruct (Qge_bool _ _).
  - exists i. split; [lia|exact Hsel].
  - destruct (IH _ _ Hsel) as (j & Hj & Hm). exists j. split; [lia|exact Hm].
Qed.

Lemma poolSizes_cases (intensity : string) :
  match poolSizes !! intensity with
  | Some size => size = 3%nat \/ size = 5%nat \/ size = 8%nat
  | None => True
  end.
Proof.
  unfold poolSizes. rewrite !lookup_insert, lookup_empty.
  repeat case_decide; cbn; auto.
Qed.

Lemma poolSizes_moderate : poolSizes !! "moderate" = Some 5%nat.
Proof. vm_compute. reflexivity. Qed.
End SelectionExtras.

(** X5. The weighted draw returns one of the best-ranked matches only: an
    element of the slice at an index below the pool size of the intensity,
    which is 3 for gentle, 5 for moderate, 8 for radical and 5 for any other
    string. *)
Theorem X5_selection_within_pool `{GoLib} (r : Q) (matches : list DomainMatch.t)
    (intensity : string) :
  matches <> [] ->
  let pool := default 5%nat (poolSizes !! intensity) in
  (exists i, (i < pool)%nat
             /\ matches !! i = Some (selectWithRandomness r matches intensity))
  /\ (pool = 3 \/ pool = 5 \/ pool = 8)%nat
  /\ default 5%nat (poolSizes !! "gentle") = 3%nat
  /\ default 5%nat (poolSizes !! "moderate") = 5%nat
  /\ default 5%nat (poolSizes !! "radical") = 8%nat.
Proof.
  intros Hne. cbv zeta.
  assert (Hpool : (default 5 (poolSizes !! intensity) = 3
                   \/ default 5 (poolSizes !! intensity) = 5
                   \/ default 5 (poolSizes !! intensity) = 8)%nat).
  { pose proof (poolSizes_cases intensity) as Hc.
    destruct (poolSizes !! intensity); cbn; [exact Hc|auto]. }
  split; [|split; [exact Hpool|repeat split; vm_compute; reflexivity]].
  destruct matches as [|first rest]; [congruence|].
  unfold selectWithRandomness. rewrite poolSizes_moderate. cbn [default].
  set (size := match poolSizes !! intensity with Some size => size | None => 5%nat end).
  assert (Hsize : size = default 5%nat (poolSizes !! intensity)).
  { subst size. destruct (poolSizes !! intensity); reflexivity. }
  rewrite <- Hsize in *.
  set (poolSize := if (length (first :: rest) <? size)%nat
                   then length (first :: rest) else size).
  assert (Hle : (poolSize <= size)%nat).
  { subst poolSize. destruct (Nat.ltb_spec (length (first :: rest)) size); lia. }
  match goal with |- context [selectLoop ?a ?b ?c ?d ?t] =>
    destruct (selectLoop a b c d t) as [m|] eqn:Hsel end.
  - apply selectLoop_index in Hsel. destruct Hsel as (j & Hj & Hm).
    rewrite length_map, length_seq in Hj. unfold id in Hj.
    fold size in Hj. fold poolSize in Hj. exists j. split; [lia|exact Hm].
  - exists 0%nat. split; [lia|reflexivity].
Qed.

Lemma X5_selection_within_pool_witness :
  let matches := map (scoreCandidate suite_input) [biomimicry; jazz; quantum] in
  let pool := default 5%nat (poolSizes !! "gentle") in
  (exists i, (i < pool)%nat /\ matches !! i = Some (selectWithRandomness (9 # 10) matches "gentle"))
  /\ (pool = 3 \/ pool = 5 \/ pool = 8)%nat
  /\ default 5%nat (poolSizes !! "gentle") = 3%nat
  /\ default 5%nat (poolSizes !! "moderate") = 5%nat
  /\ default 5%nat (poolSizes !! "radical") = 8%nat.
Proof.
  apply (X5_selection_within_pool (9 # 10)
           (map (scoreCandidate suite_input) [biomimicry; jazz; quantum]) "gentle").
  discriminate.
Defined.

Section PrimaryDomain.
Context `{GoLib}.
Local Open Scope Q_scope.

Lemma Qgt_bool_true (x y : Q) : Qgt_bool x y = true <-> y < x.
Proof.
  unfold Qgt_bool. rewrite negb_true_iff. split.
  - intros Hle. apply Qnot_le_lt. intros Hxy. apply Qle_bool_iff in Hxy. congruence.
  - intros Hlt. apply not_true_is_false. intros Hle. apply Qle_bool_iff in Hle.
    apply (Qlt_not_le _ _ Hlt Hle).
Qed.

Lemma Qgt_bool_false (x y : Q) : Qgt_bool x y = false <-> x <= y.
Proof.
  unfold Qgt_bool. rewrite negb_false_iff. apply Qle_bool_iff.
Qed.

Lemma primary_loop_invariant interests todo seen acc :
  best_so_far interests seen acc ->
  best_so_far interests (seen ++ todo)
    (fold_left (fun '(bestMatch, highestScore) domain =>
                  let score := calculateInterestRelevance interests domain in
                  if Qgt_bool score highestScore
                  then (CollisionDomain.Name domain, score)
                  else (bestMatch, highestScore))
               todo acc).
Proof.
  revert seen acc.
  induction todo as [|x todo IH]; intros seen acc Hinv.
  - now rewrite app_nil_r.
  - cbn [fold_left]. replace (seen ++ x :: todo)%list with ((seen ++ [x]) ++ todo)%list
      by (rewrite <- app_assoc; reflexivity).
    apply IH. destruct acc as [b h]. destruct Hinv as [Hmax Hbest]. cbn [fst snd] in *.
    assert (Hh : 0 <= h).
    { destruct Hbest as [[_ ->]|(d & _ & _ & -> & Hpos)]; [discriminate|].
      now apply Qlt_le_weak. }
    destruct (Qgt_bool (calculateInterestRelevance interests x) h) eqn:Hgt.
    + apply Qgt_bool_true in Hgt. split; cbn [fst snd].
      * intros d Hd. apply in_app_or in Hd. destruct Hd as [Hd|[<-|[]]].
        -- apply Qle_trans with h; [now apply Hmax|now apply Qlt_le_weak].
        -- apply Qle_refl.
      * right. exists x. repeat split; try reflexivity.
        -- apply in_or_app. right. now left.
        -- now apply Qle_lt_trans with h.
    + apply Qgt_bool_false in Hgt. split; cbn [fst snd].
      * intros d Hd. apply in_app_or in Hd. destruct Hd as [Hd|[<-|[]]].
        -- now apply Hmax.
        -- exact Hgt.
      * destruct Hbest as [Hnone|(d & Hd & Hb & Hs & Hpos)]; [now left|].
        right. exists d. repeat split; try assumption. apply in_or_app. now left.
Qed.
End PrimaryDomain.

(** X6. Without interests the primary domain is "General Innovation".
    Otherwise it is the name of a catalog domain whose interest relevance is
    positive and maximal over the catalog; when no domain has positive
    relevance, or the best one has an empty name, it is the first interest in
    title case. *)
Theorem X6_primary_domain_is_best_match `{GoLib} (e : CollisionEngine.t)
    (interests : list string) :
  match interests with
  | [] => selectPrimaryDomain e interests = "General Innovation"
  | first :: _ =>
      ((forall d, In d (CollisionEngine.Domains e) ->
                  (calculateInterestRelevance interests d <= 0)%Q)
       /\ selectPrimaryDomain e interests = strings_Title first)
      \/ exists d,
           In d (CollisionEngine.Domains e)
           /\ (0 < calculateInterestRelevance interests d)%Q
           /\ (forall d', In d' (CollisionEngine.Domains e) ->
                          (calculateInterestRelevance interests d'
                           <= calculateInterestRelevance interests d)%Q)
           /\ selectPrimaryDomain e interests
              = (if String.eqb (CollisionDomain.Name d) ""
                 then strings_Title first else CollisionDomain.Name d)
  end.
Proof.
  destruct interests as [|first rest]; [reflexivity|].
  unfold selectPrimaryDomain.
  pose proof (primary_loop_invariant (first :: rest) (CollisionEngine.Domains e) []
                ("", 0%Q)) as Hinv.
  cbn [app] in Hinv.
  match type of Hinv with _ -> best_so_far _ _ ?f => destruct f as [b h] end.
  destruct Hinv as [Hmax Hbest].
  { split; [intros d []|left; split; reflexivity]. }
  cbn [fst snd] in *.
  destruct Hbest as [[-> ->]|(d & Hd & -> & -> & Hpos)].
  - left. split; [exact Hmax|reflexivity].
  - right. exists d. repeat split; assumption || reflexivity.
Qed.

(** X7. Every generated collision carries three or four spark questions
    (four exactly when the chosen domain has keywords), four or five next
    steps (five exactly for radical intensity), one adapted example per
    example of the chosen domain, no rating and no notes, the drawn uuid and
    the clock reading. *)
Theorem X7_enrichment_shape `{GoLib} (e : CollisionEngine.t) (rnd : Entropy)
    (input : CollisionInput.t) :
  let result := fst (GenerateCollision e rnd input) in
  let chosen :=
    fst (selectCollisionDomain e (rand_select rnd) input
           (selectPrimaryDomain e (CollisionInput.UserInterests input))) in
  length (CollisionResult.SparkQuestions result)
  = (if CollisionDomain.Keywords chosen is [] then 3 else 4)%nat
  /\ length (CollisionResult.NextSteps result)
     = (if String.eqb (CollisionInput.CollisionIntensity input) "radical" then 5 else 4)%nat
  /\ length (CollisionResult.Examples result) = length (CollisionDomain.Examples chosen)
  /\ CollisionResult.Rating result = None /\ CollisionResult.Notes result = None
  /\ CollisionResult.ID result = uuid_New rnd
  /\ CollisionResult.Timestamp result = time_Now rnd.
Proof.
  cbv zeta. unfold GenerateCollision.
  destruct (selectCollisionDomain e (rand_select rnd) input _) as [d reasoning].
  cbn [fst enrichCollisionResult CollisionResult.SparkQuestions CollisionResult.NextSteps
       CollisionResult.Examples CollisionResult.Rating CollisionResult.Notes
       CollisionResult.ID CollisionResult.Timestamp].
  repeat split.
  - unfold generateSparkQuestions. destruct (CollisionDomain.Keywords d); reflexivity.
  - unfold generateNextSteps. destruct (String.eqb _ "radical"); reflexivity.
  - unfold adaptExamples. apply length_map.
Qed.
(** * Further properties of the cache tier *)



(** X9. The window slides: when every recorded request of the principal is
    [W] whole seconds old or older (the bound is inclusive), a new request is
    admitted on a healthy cache for any positive limit, however full the
    window was, and afterwards the window holds this request alone, under its
    nanosecond reading, with a time to live of [W] seconds. This holds for
    the windows whose length a [time.Duration] holds, from 1 to 9223372036
    seconds. *)
Theorem X9_expired_window_readmits (userID : string) (W L now : Z) (r : Redis.t) :
  Redis.faults r = [] -> (0 < L)%Z -> (0 < W <= 9223372036)%Z ->
  (forall m sc, Redis.zset_at r (KeyRateLimit userID W) !! m = Some sc ->
                (0 <= sc <= Unix now - W)%Z) ->
  exists r',
    CheckRateLimit now userID W L r = ((true, None), r')
    /\ Redis.zset_at r' (KeyRateLimit userID W) = {[ UnixNano now := Unix now ]}
    /\ Redis.ttl r' !! KeyRateLimit userID W = Some W.
Proof.
  intros Hf HL HW Hold.
  destruct (CheckRateLimit_ok now userID W L r Hf HW) as (r' & E & _ & _ & Hst).
  cbv zeta in E, Hst.
  assert (Hlive : live now W (Redis.zset_at r (KeyRateLimit userID W)) = ∅).
  { unfold live. apply map_empty_filter_2. intros m sc Hm Hkeep.
    apply Hkeep. rewrite Unix_window_start by lia. now apply (Hold m sc). }
  rewrite Hlive, map_size_empty in E, Hst.
  destruct (Z.leb_spec L (Z.of_nat 0)) as [Hle|_]; [cbn in Hle; lia|].
  destruct Hst as [Hz Ht]. exists r'. split; [exact E|]. split.
  - rewrite Hz. reflexivity.
  - rewrite Ht. apply lookup_insert_eq.
Qed.

Lemma X9_expired_window_readmits_witness :
  exists r',
    CheckRateLimit (clock world0 + 60 * Second) alice 60 1 (redis world_nine)
    = ((true, None), r')
    /\ Redis.zset_at r' (KeyRateLimit alice 60)
       = {[ UnixNano (clock world0 + 60 * Second) := Unix (clock world0 + 60 * Second) ]}
    /\ Redis.ttl r' !! KeyRateLimit alice 60 = Some 60%Z.
Proof.
  apply (X9_expired_window_readmits alice 60 1 (clock world0 + 60 * Second) (redis world_nine)).
  - reflexivity.
  - lia.
  - lia.
  - intros m sc Hm.
    assert (Hz : Redis.zset_at (redis world_nine) (KeyRateLimit alice 60) = nine_recorded)
      by (vm_compute; reflexivity).
    rewrite Hz in Hm. unfold nine_recorded in Hm.
    apply elem_of_list_to_map_2 in Hm. apply list_elem_of_In in Hm. cbn in Hm.
    repeat destruct Hm as [Hm|Hm]; try contradiction;
      injection Hm as <- <-; vm_compute; split; discriminate.
Defined.

(** X10. Whatever commands of the cache fail, and whatever the window and
    the limit, the status of the limiter reports a remaining count and a
    reset time that are not negative, and both are 0 when it returns an
    error. For a limit that is a Go [int] and so far above the least [int]
    that taking off the recorded requests does not wrap around, the remaining
    count is at most [max(0, limit)]. *)
Theorem X10_status_is_clamped (now : Z) (userID : string) (W L : Z) (r : Redis.t) :
  let '((remaining, resetTime, err), _) := GetRateLimitStatus now userID W L r in
  (0 <= remaining)%Z /\ (0 <= resetTime)%Z
  /\ (err <> None -> remaining = 0%Z /\ resetTime = 0%Z)
  /\ ((L < 2 ^ 63)%Z ->
      (- 2 ^ 63 <= L - Z.of_nat (size (Redis.zset_at r (KeyRateLimit userID W))))%Z ->
      (remaining <= Z.max 0 L)%Z).
Proof.
  unfold GetRateLimitStatus.
  set (key := KeyRateLimit userID W).
  destruct (next_fault (Redis.faults r)) as [f fs] eqn:Hf.
  destruct f.
  { unfold Redis.ZRemRangeByScore. rewrite Hf. cbv beta iota. unfold Redis.err.
    rewrite some_error_checked. repeat split; lia. }
  destruct (ZRemRangeByScore_run key now W r fs Hf) as (r1 & E1 & Z1 & _ & _ & F1).
  rewrite E1. cbv beta iota. rewrite nil_error_checked.
  assert (Hle : (size (Redis.zset_at r1 key) <= size (Redis.zset_at r key))%nat).
  { rewrite Z1. unfold live. apply map_subseteq_size, map_filter_subseteq. }
  unfold Redis.ZCard. destruct (next_fault (Redis.faults r1)) as [[] fs2]; cbv beta iota.
  { unfold Redis.err. rewrite some_error_checked. repeat split; lia. }
  rewrite nil_error_checked.
  change (Redis.zset_at (Redis.with_faults r1 fs2) key) with (Redis.zset_at r1 key).
  set (n := size (Redis.zset_at r1 key)) in *.
  set (remaining := if (wrap64 (L - Z.of_nat n) <? 0)%Z then 0%Z
                    else wrap64 (L - Z.of_nat n)).
  assert (Hrem : (0 <= remaining)%Z
                 /\ ((L < 2 ^ 63)%Z ->
                     (- 2 ^ 63 <= L - Z.of_nat (size (Redis.zset_at r key)))%Z ->
                     (remaining <= Z.max 0 L)%Z)).
  { subst remaining. split.
    - destruct (Z.ltb_spec (wrap64 (L - Z.of_nat n)) 0); lia.
    - intros HL Hlow. rewrite wrap64_small by lia.
      destruct (Z.ltb_spec (L - Z.of_nat n) 0); lia. }
  destruct Hrem as [Hrem0 Hrem1].
  destruct (0 <? Z.of_nat n)%Z; [|repeat split; try lia; try congruence; auto].
  destruct (Redis.ZRange00 _ _) as [[oldest e3] r3].
  destruct e3 as [e3|]; [repeat split; try lia; try congruence; auto|].
  destruct oldest as [|member rest]; [repeat split; try lia; try congruence; auto|].
  destruct (Redis.ZScore _ member r3) as [[score e4] r4].
  match goal with |- context [(?x <? 0)%Z] => destruct (Z.ltb_spec x 0) end;
    repeat split; try lia; try congruence; auto.
Qed.

Lemma X10_status_is_clamped_witness :
  let '((remaining, resetTime, err), _) :=
    GetRateLimitStatus (clock world0) alice 60 10 (redis world_nine) in
  (0 <= remaining <= 10)%Z /\ (0 <= resetTime)%Z.
Proof.
  pose proof (X10_status_is_clamped (clock world0) alice 60 10 (redis world_nine)) as Hx.
  destruct (GetRateLimitStatus (clock world0) alice 60 10 (redis world_nine))
    as [[[remaining resetTime] err] r'].
  destruct Hx as (Hlo & Hreset & _ & Hhi).
  split; [|exact Hreset]. split; [exact Hlo|].
  apply Hhi; [lia|]. vm_compute. discriminate.
Defined.

Lemma KeyUserUsage_inj (a b : string) : KeyUserUsage a = KeyUserUsage b -> a = b.
Proof. unfold KeyUserUsage. intros Heq. cbn in Heq. now simplify_eq. Qed.

(** X11. On a healthy cache, a usage record written by [CacheUserUsage] is
    what [GetCachedUserUsage] reads back for the same principal while the
    entry lives; after [InvalidateUserUsage] the read is a miss (no record, no
    error); and the entry of any other principal is what it was. An
    expiration of a positive whole number of seconds becomes the time to live
    of the entry; one that is not positive leaves the entry without a time to
    live, except -1 ([KeepTTL]), which leaves the time to live as it was. *)
Theorem X11_usage_cache_round_trip (userID other : string) (u : UserUsage.t)
    (expiration : Z) (r : Redis.t) :
  Redis.faults r = [] -> other <> userID ->
  exists r1 r2,
    CacheUserUsage userID u expiration r = (None, r1)
    /\ GetCachedUserUsage userID r1 = ((Some u, None), r1)
    /\ ((0 < expiration)%Z -> (expiration mod Second = 0)%Z ->
        Redis.ttl r1 !! KeyUserUsage userID = Some (expiration / Second)%Z)
    /\ ((expiration <= 0)%Z ->
        Redis.ttl r1 !! KeyUserUsage userID
        = if (expiration =? -1)%Z then Redis.ttl r !! KeyUserUsage userID else None)
    /\ InvalidateUserUsage userID r1 = (None, r2)
    /\ GetCachedUserUsage userID r2 = ((None, None), r2)
    /\ fst (GetCachedUserUsage other r1) = fst (GetCachedUserUsage other r)
    /\ fst (GetCachedUserUsage other r2) = fst (GetCachedUserUsage other r).
Proof.
  intros Hf Hother.
  assert (Hk : KeyUserUsage userID <> KeyUserUsage other).
  { intros Heq. apply KeyUserUsage_inj in Heq. congruence. }
  unfold CacheUserUsage, client_Set, InvalidateUserUsage, GetCachedUserUsage,
    Redis.Set_, Redis.Del, Redis.Get.
  rewrite Hf. cbn [next_fault Redis.with_faults Redis.faults Redis.usage Redis.ttl
                   Redis.zsets].
  eexists _, _. split; [reflexivity|].
  cbn [next_fault Redis.with_faults Redis.faults Redis.usage Redis.ttl Redis.zsets].
  rewrite lookup_insert_eq. split; [reflexivity|]. split; [|split].
  - intros Hpos Hwhole.
    destruct (Z.ltb_spec 0 expiration) as [_|Hle]; [|lia].
    assert (Hsec : (Second <= expiration)%Z).
    { apply Z.mod_divide in Hwhole; [|unfold Second; lia].
      destruct Hwhole as [k Hk']. unfold Second in *. lia. }
    assert (Hcoarse : usePrecise expiration = false).
    { unfold usePrecise. rewrite Z.rem_mod_nonneg by (unfold Second; lia).
      rewrite Hwhole. destruct (Z.ltb_spec expiration Second); [lia|reflexivity]. }
    rewrite Hcoarse, lookup_insert_eq. f_equal. unfold formatSec.
    destruct (Z.ltb_spec 0 expiration); destruct (Z.ltb_spec expiration Second);
      cbn [andb]; try lia.
    apply Z.quot_div_nonneg; unfold Second; lia.
  - intros Hle.
    destruct (Z.ltb_spec 0 expiration) as [Hpos|_]; [lia|].
    unfold KeepTTL. destruct (expiration =? -1)%Z; [reflexivity|].
    apply lookup_delete_eq.
  - split; [reflexivity|].
    cbn [next_fault Redis.with_faults Redis.faults Redis.usage Redis.ttl Redis.zsets].
    rewrite lookup_delete_eq. split; [reflexivity|].
    rewrite lookup_delete_ne, !lookup_insert_ne by exact Hk.
    split; destruct (Redis.usage r !! KeyUserUsage other); reflexivity.
Qed.

Lemma X11_usage_cache_round_trip_witness :
  exists r1 r2,
    CacheUserUsage alice usage_at_quota (5 * Minute) redis0 = (None, r1)
    /\ GetCachedUserUsage alice r1 = ((Some usage_at_quota, None), r1)
    /\ Redis.ttl r1 !! KeyUserUsage alice = Some 300%Z
    /\ InvalidateUserUsage alice r1 = (None, r2)
    /\ GetCachedUserUsage alice r2 = ((None, None), r2)
    /\ fst (GetCachedUserUsage bob r1) = fst (GetCachedUserUsage bob redis0)
    /\ fst (GetCachedUserUsage bob r2) = fst (GetCachedUserUsage bob redis0).
Proof.
  destruct (X11_usage_cache_round_trip alice bob usage_at_quota (5 * Minute) redis0
              eq_refl ltac:(discriminate))
    as (r1 & r2 & Hset & Hget & Httl & _ & Hdel & Hmiss & Ho1 & Ho2).
  exists r1, r2. split; [exact Hset|]. split; [exact Hget|].
  split; [exact (Httl eq_refl eq_refl)|].
  split; [exact Hdel|]. split; [exact Hmiss|]. split; [exact Ho1|exact Ho2].
Defined.

Section CacheIsolation.

Lemma same_elsewhere_refl key r : same_elsewhere key r r.
Proof. split; [intros; split; reflexivity|reflexivity]. Qed.

Lemma same_elsewhere_trans key r1 r2 r3 :
  same_elsewhere key r1 r2 -> same_elsewhere key r2 r3 -> same_elsewhere key r1 r3.
Proof.
  intros [H12 U12] [H23 U23]. split; [|congruence].
  intros key' Hne. destruct (H12 key' Hne), (H23 key' Hne). split; congruence.
Qed.

Lemma same_elsewhere_faults key r fs : same_elsewhere key r (Redis.with_faults r fs).
Proof. split; [intros; split; reflexivity|reflexivity]. Qed.

Lemma same_elsewhere_zset key r s : same_elsewhere key r (Redis.with_zset r key s).
Proof.
  split; [|reflexivity]. intros key' Hne. unfold Redis.with_zset. cbn.
  rewrite lookup_insert_ne by congruence. split; reflexivity.
Qed.

Lemma same_elsewhere_without key r : same_elsewhere key r (Redis.without_zset r key).
Proof.
  split; [|reflexivity]. intros key' Hne. unfold Redis.without_zset. cbn.
  rewrite !lookup_delete_ne by congruence. split; reflexivity.
Qed.

Lemma ZRemRangeByScore_elsewhere key mn mx r :
  same_elsewhere key r (snd (Redis.ZRemRangeByScore key mn mx r)).
Proof.
  unfold Redis.ZRemRangeByScore. destruct (next_fault (Redis.faults r)) as [[] fs];
    cbn [snd]; [apply same_elsewhere_faults|].
  destruct (Redis.zsets (Redis.with_faults r fs) !! key); cbn [snd].
  - cbv zeta. destruct (size _ =? 0)%nat; cbn [snd];
      (eapply same_elsewhere_trans; [apply same_elsewhere_faults|]);
      [apply same_elsewhere_without|apply same_elsewhere_zset].
  - apply same_elsewhere_faults.
Qed.

Lemma ZCard_elsewhere key r : same_elsewhere key r (snd (Redis.ZCard key r)).
Proof.
  unfold Redis.ZCard. destruct (next_fault (Redis.faults r)) as [[] fs];
    cbn [snd]; apply same_elsewhere_faults.
Qed.

Lemma ZAdd_elsewhere key sc m r : same_elsewhere key r (snd (Redis.ZAdd key sc m r)).
Proof.
  unfold Redis.ZAdd. destruct (next_fault (Redis.faults r)) as [[] fs];
    cbn [snd]; [apply same_elsewhere_faults|].
  eapply same_elsewhere_trans; [apply same_elsewhere_faults|apply same_elsewhere_zset].
Qed.

Lemma Expire_elsewhere key seconds r : same_elsewhere key r (snd (Redis.Expire key seconds r)).
Proof.
  unfold Redis.Expire. destruct (next_fault (Redis.faults r)) as [[] fs];
    cbn [snd]; [apply same_elsewhere_faults|].
  destruct (Redis.zsets (Redis.with_faults r fs) !! key); cbn [snd];
    [|apply same_elsewhere_faults].
  destruct (seconds <=? 0)%Z; cbn [snd].
  - eapply same_elsewhere_trans; [apply same_elsewhere_faults|].
    apply same_elsewhere_without.
  - split; [|reflexivity]. intros key' Hne. cbn.
    rewrite lookup_insert_ne by congruence. split; reflexivity.
Qed.

Lemma CheckRateLimit_elsewhere now userID W L r :
  same_elsewhere (KeyRateLimit userID W) r (snd (CheckRateLimit now userID W L r)).
Proof.
  unfold CheckRateLimit. set (key := KeyRateLimit userID W).
  pose proof (ZRemRangeByScore_elsewhere key 0 (Unix (window_start now W)) r) as H1.
  destruct (Redis.ZRemRangeByScore key 0 _ r) as [e1 r1]. cbn [snd] in *.
  destruct (bool_decide (e1 ≠ None)); [exact H1|].
  pose proof (ZCard_elsewhere key r1) as H2.
  destruct (Redis.ZCard key r1) as [[count e2] r2]. cbn [snd] in *.
  assert (H12 := same_elsewhere_trans _ _ _ _ H1 H2).
  destruct (bool_decide (e2 ≠ None)); [exact H12|].
  destruct (L <=? count)%Z; [exact H12|].
  pose proof (ZAdd_elsewhere key (Unix now) (UnixNano now) r2) as H3.
  destruct (Redis.ZAdd key (Unix now) (UnixNano now) r2) as [e3 r3]. cbn [snd] in *.
  assert (H13 := same_elsewhere_trans _ _ _ _ H12 H3).
  destruct (bool_decide (e3 ≠ None)); [exact H13|].
  unfold client_Expire.
  pose proof (Expire_elsewhere key (formatSec (wrap64 (W * Second))) r3) as H4.
  destruct (Redis.Expire key _ r3) as [e4 r4]. cbn [snd] in *.
  exact (same_elsewhere_trans _ _ _ _ H13 H4).
Qed.

Lemma string_app_length (a b : string) :
  String.length (a ++ b) = (String.length a + String.length b)%nat.
Proof. induction a as [|ch a IH]; [reflexivity|]. simpl. f_equal. exact IH. Qed.

Lemma string_app_inv_tail (a b s : string) : a ++ s = b ++ s -> a = b.
Proof.
  revert b. induction a as [|ch a IH]; intros [|ch' b] Heq.
  - reflexivity.
  - apply (f_equal String.length) in Heq. rewrite !string_app_length in Heq.
    cbn in Heq. lia.
  - apply (f_equal String.length) in Heq. rewrite !string_app_length in Heq.
    cbn in Heq. lia.
  - cbn in Heq. injection Heq as -> Heq. f_equal. now apply IH.
Qed.

Lemma KeyRateLimit_inj (a b : string) (W : Z) :
  KeyRateLimit a W = KeyRateLimit b W -> a = b.
Proof.
  unfold KeyRateLimit. intros Heq. cbn in Heq. simplify_eq.
  eapply string_app_inv_tail. eassumption.
Qed.
End CacheIsolation.

(** X12. The limiter is per principal: a rate-limit check for one principal,
    whatever commands fail, changes neither the window nor its time to live
    of any other principal (for the same window length), nor any cached usage
    record. *)
Theorem X12_rate_limit_is_per_principal (now : Z) (userID other : string) (W L : Z)
    (r : Redis.t) :
  other <> userID ->
  let r' := snd (CheckRateLimit now userID W L r) in
  Redis.zset_at r' (KeyRateLimit other W) = Redis.zset_at r (KeyRateLimit other W)
  /\ Redis.ttl r' !! KeyRateLimit other W = Redis.ttl r !! KeyRateLimit other W
  /\ Redis.usage r' = Redis.usage r.
Proof.
  intros Hother. cbv zeta.
  destruct (CheckRateLimit_elsewhere now userID W L r) as [Hkeys Husage].
  assert (Hne : KeyRateLimit other W <> KeyRateLimit userID W).
  { intros Heq. apply KeyRateLimit_inj in Heq. contradiction. }
  destruct (Hkeys _ Hne) as [Hz Ht].
  unfold Redis.zset_at. rewrite Hz. repeat split; assumption.
Qed.

Lemma X12_rate_limit_is_per_principal_witness :
  let r' := snd (CheckRateLimit (clock world0) bob 60 10 (redis world_nine)) in
  Redis.zset_at r' (KeyRateLimit alice 60)
  = Redis.zset_at (redis world_nine) (KeyRateLimit alice 60)
  /\ Redis.ttl r' !! KeyRateLimit alice 60
     = Redis.ttl (redis world_nine) !! KeyRateLimit alice 60
  /\ Redis.usage r' = Redis.usage (redis world_nine).
Proof.
  apply (X12_rate_limit_is_per_principal (clock world0) bob alice 60 10 (redis world_nine)).
  discriminate.
Defined.

(** * Further properties of the durable store *)

Section UsageRows.
Variable now : Z.

Lemma latest_None (rows : list UserUsage.t) : latest rows = None -> rows = [].
Proof.
  destruct rows as [|u rows]; [reflexivity|]. intros Hl. cbn in Hl.
  repeat match type of Hl with
         | context [match ?c with _ => _ end] => destruct c
         end; discriminate.
Qed.

Lemma latest_In (rows : list UserUsage.t) (u : UserUsage.t) :
  latest rows = Some u -> In u rows.
Proof.
  revert u. induction rows as [|x rows IH]; intros u Hl; [discriminate|].
  cbn [latest foldr] in Hl. change (foldr _ None rows) with (latest rows) in Hl.
  destruct (latest rows) as [b|].
  - match type of Hl with context [if ?c then _ else _] => destruct c end;
      injection Hl as <-; [now left|right; now apply IH].
  - injection Hl as <-. now left.
Qed.

Lemma date_of_midnight (t : Z) : date_of (date_of t * Day) = date_of t.
Proof. unfold date_of. apply Z.div_mul. unfold Day, Second. lia. Qed.



End UsageRows.

(** X13. The usage row is created lazily and once: on a healthy store, a
    principal without a row in the last seven days gets one row appended, with
    count 0 and today's date, and a second consultation at the same time
    returns a record with count 0 for them without adding another row. *)
Theorem X13_usage_row_created_once (now : Z) (fresh fresh' userID : UUID) (p : Postgres.t) :
  Postgres.faults p = [] ->
  latest (List.filter (in_window now userID) (Postgres.user_usage p)) = None ->
  exists u p1 u',
    GetUserUsage now fresh userID p = ((Some u, None), p1)
    /\ UserUsage.CollisionCount u = 0%Z /\ UserUsage.UserID u = userID
    /\ length (Postgres.user_usage p1) = S (length (Postgres.user_usage p))
    /\ Postgres.collision_sessions p1 = Postgres.collision_sessions p
    /\ GetUserUsage now fresh' userID p1 = ((Some u', None), p1)
    /\ UserUsage.CollisionCount u' = 0%Z /\ UserUsage.UserID u' = userID
    /\ date_of (UserUsage.ResetDate u') = date_of now.
Proof.
  intros Hf Hnone.
  assert (Hnil := latest_None _ Hnone).
  unfold GetUserUsage at 1. rewrite Hf. cbn [next_fault].
  cbn [Postgres.with_faults Postgres.user_usage Postgres.faults]. rewrite Hnone.
  cbn [next_fault Postgres.with_faults Postgres.user_usage Postgres.faults
       Postgres.collision_sessions].
  eexists _, _, _. split; [reflexivity|]. split; [reflexivity|]. split; [reflexivity|].
  split; [cbn; rewrite length_app; cbn; lia|]. split; [reflexivity|].
  unfold GetUserUsage. cbn [Postgres.faults next_fault Postgres.with_faults
                            Postgres.user_usage Postgres.collision_sessions].
  rewrite List.filter_app, Hnil. cbn [List.filter app].
  assert (Hin : in_window now userID
                  (UserUsage.mk fresh userID 0 (date_of now * Day) now now) = true).
  { unfold in_window. cbn. rewrite String.eqb_refl, date_of_midnight. cbn.
    apply Z.leb_le. lia. }
  rewrite Hin. cbn [latest foldr].
  split; [reflexivity|]. split; [reflexivity|]. split; [reflexivity|].
  cbn. apply date_of_midnight.
Qed.

Lemma X13_usage_row_created_once_witness :
  exists u p1 u',
    GetUserUsage (clock world0) "0a0a0a0a-0000-4000-8000-000000000001" alice pg0
    = ((Some u, None), p1)
    /\ UserUsage.CollisionCount u = 0%Z /\ UserUsage.UserID u = alice
    /\ length (Postgres.user_usage p1) = S (length (Postgres.user_usage pg0))
    /\ Postgres.collision_sessions p1 = Postgres.collision_sessions pg0
    /\ GetUserUsage (clock world0) "0a0a0a0a-0000-4000-8000-000000000002" alice p1
       = ((Some u', None), p1)
    /\ UserUsage.CollisionCount u' = 0%Z /\ UserUsage.UserID u' = alice
    /\ date_of (UserUsage.ResetDate u') = date_of (clock world0).
Proof.
  apply (X13_usage_row_created_once (clock world0) "0a0a0a0a-0000-4000-8000-000000000001"
           "0a0a0a0a-0000-4000-8000-000000000002" alice pg0); reflexivity.
Defined.



Lemma rate_matches_rated sid uid rating notes s :
  rate_matches sid uid (rated rating notes s) = rate_matches sid uid s.
Proof. reflexivity. Qed.

Lemma RateCollision_healthy (sid uid : UUID) (rating : Z) (notes : option string)
    (p : Postgres.t) :
  Postgres.faults p = [] -> (1 <= rating <= 5)%Z ->
  RateCollision sid uid rating notes p
  = (None,
     Postgres.mk
       (map (fun s => if rate_matches sid uid s then rated rating notes s else s)
            (Postgres.collision_sessions p))
       (Postgres.user_usage p) []).
Proof.
  intros Hf Hr. unfold RateCollision. rewrite Hf. cbn [next_fault].
  cbn [Postgres.with_faults Postgres.collision_sessions Postgres.user_usage Postgres.faults].
  destruct (Z.leb_spec 1 rating); [|lia]. destruct (Z.leb_spec rating 5); [|lia].
  cbn [andb negb]. rewrite andb_false_r. reflexivity.
Qed.

(** X15. Rating is last-write-wins and touches the owner's session only: on a
    healthy store, rating a session twice leaves the table as if only the
    second rating had been given; the number of rows is unchanged, every row
    with that id and owner carries the second rating and notes, every other
    row and the usage table are as before. *)
Theorem X15_rating_overwrites (sid uid : UUID) (rating1 rating2 : Z)
    (notes1 notes2 : option string) (p : Postgres.t) :
  Postgres.faults p = [] -> (1 <= rating1 <= 5)%Z -> (1 <= rating2 <= 5)%Z ->
  exists p1 p2,
    RateCollision sid uid rating1 notes1 p = (None, p1)
    /\ RateCollision sid uid rating2 notes2 p1 = (None, p2)
    /\ RateCollision sid uid rating2 notes2 p = (None, p2)
    /\ length (Postgres.collision_sessions p2) = length (Postgres.collision_sessions p)
    /\ (forall s, In s (Postgres.collision_sessions p) ->
                  rate_matches sid uid s = true ->
                  In (rated rating2 notes2 s) (Postgres.collision_sessions p2))
    /\ (forall s, In s (Postgres.collision_sessions p) ->
                  rate_matches sid uid s = false ->
                  In s (Postgres.collision_sessions p2))
    /\ Postgres.user_usage p2 = Postgres.user_usage p.
Proof.
  intros Hf H1 H2.
  rewrite (RateCollision_healthy sid uid rating1 notes1 p Hf H1).
  rewrite (RateCollision_healthy sid uid rating2 notes2 p Hf H2).
  eexists _, _. split; [reflexivity|].
  rewrite RateCollision_healthy by (reflexivity || assumption).
  cbn [Postgres.collision_sessions Postgres.user_usage].
  assert (Hmap : map (fun s => if rate_matches sid uid s then rated rating2 notes2 s else s)
                   (map (fun s => if rate_matches sid uid s then rated rating1 notes1 s else s)
                      (Postgres.collision_sessions p))
                 = map (fun s => if rate_matches sid uid s then rated rating2 notes2 s else s)
                     (Postgres.collision_sessions p)).
  { rewrite map_map. apply map_ext. intros s.
    destruct (rate_matches sid uid s) eqn:Hm.
    - rewrite rate_matches_rated, Hm. reflexivity.
    - now rewrite Hm. }
  rewrite Hmap. split; [reflexivity|]. split; [reflexivity|].
  split; [apply length_map|]. repeat split.
  - intros s Hin Hm. apply in_map_iff. exists s. now rewrite Hm.
  - intros s Hin Hm. apply in_map_iff. exists s. now rewrite Hm.
Qed.

Lemma X15_rating_overwrites_witness :
  exists p1 p2,
    RateCollision (CollisionSession.ID bob_session) bob 2 None (db world_bob) = (None, p1)
    /\ RateCollision (CollisionSession.ID bob_session) bob 5 (Some "better") p1 = (None, p2)
    /\ RateCollision (CollisionSession.ID bob_session) bob 5 (Some "better") (db world_bob)
       = (None, p2)
    /\ length (Postgres.collision_sessions p2)
       = length (Postgres.collision_sessions (db world_bob))
    /\ (forall s, In s (Postgres.collision_sessions (db world_bob)) ->
                  rate_matches (CollisionSession.ID bob_session) bob s = true ->
                  In (rated 5 (Some "better") s) (Postgres.collision_sessions p2))
    /\ (forall s, In s (Postgres.collision_sessions (db world_bob)) ->
                  rate_matches (CollisionSession.ID bob_session) bob s = false ->
                  In s (Postgres.collision_sessions p2))
    /\ Postgres.user_usage p2 = Postgres.user_usage (db world_bob).
Proof.
  apply (X15_rating_overwrites (CollisionSession.ID bob_session) bob 2 5 None
           (Some "better") (db world_bob)); [reflexivity|lia|lia].
Defined.

Lemma digits_value_nonneg (s : string) (acc n : Z) :
  (0 <= acc)%Z -> digits_value acc s = Some n -> (0 <= n)%Z.
Proof.
  revert acc. induction s as [|ch s IH]; intros acc Hacc Hd; cbn in Hd.
  - injection Hd as <-. exact Hacc.
  - destruct (AsciiLib.is_digit ch) eqn:Hdig; [|discriminate].
    apply IH in Hd; [exact Hd|].
    unfold AsciiLib.is_digit in Hdig. apply andb_true_iff in Hdig.
    destruct Hdig as [Hlo _]. apply Nat.leb_le in Hlo. lia.
Qed.

Lemma historyLimit_range (query : option string) : (1 <= historyLimit query <= 100)%Z.
Proof.
  unfold historyLimit. destruct (strconv_Atoi _) as [limit|]; [|lia].
  destruct (Z.ltb_spec limit 1); cbn [orb]; [lia|].
  destruct (Z.ltb_spec 100 limit); lia.
Qed.

Lemma StronglySorted_firstn {A} (R : A -> A -> Prop) (n : nat) (l : list A) :
  StronglySorted R l -> StronglySorted R (firstn n l).
Proof.
  intros Hs. revert n. induction Hs as [|x l Hs IH Hx]; intros [|n]; cbn; try constructor.
  - apply IH.
  - rewrite List.Forall_forall in Hx |- *. intros y Hy. apply Hx.
    rewrite <- (firstn_skipn n l). apply in_or_app. now left.
Qed.

Lemma In_firstn_In {A} (n : nat) (l : list A) (x : A) : In x (firstn n l) -> In x l.
Proof. intros Hin. rewrite <- (firstn_skipn n l). apply in_or_app. now left. Qed.

(** X16. The history of a principal is theirs alone: the answer holds only rows
    of the session table owned by the caller, newest first, at most as many
    as the clamped limit (between 1 and 100, 20 by default) and all of them
    when they have no more than that; a failing query gives 500
    [database_error]; the store and the cache are not modified. *)
Theorem X16_history_is_own_newest_first `{SQLOrder} (query : option string) (c : Ctx.t)
    (w : World) (userID : UUID) :
  Ctx.user_id c = Some userID ->
  let reply := fst (GetCollisionHistory_handler query c w) in
  let w' := snd (GetCollisionHistory_handler query c w) in
  let own := List.filter (fun s => String.eqb (CollisionSession.UserID s) userID)
               (Postgres.collision_sessions (db w)) in
  Postgres.collision_sessions (db w') = Postgres.collision_sessions (db w)
  /\ Postgres.user_usage (db w') = Postgres.user_usage (db w)
  /\ redis w' = redis w
  /\ (1 <= historyLimit query <= 100)%Z
  /\ match reply with
     | HistorySent sessions =>
         (Z.of_nat (length sessions) <= historyLimit query)%Z
         /\ (forall s, In s sessions ->
                       CollisionSession.UserID s = userID
                       /\ In s (Postgres.collision_sessions (db w)))
         /\ StronglySorted (fun x y => (CollisionSession.CreatedAt y
                                        <= CollisionSession.CreatedAt x)%Z) sessions
         /\ ((Z.of_nat (length own) <= historyLimit query)%Z -> Permutation sessions own)
         /\ fst (next_fault (Postgres.faults (db w))) = false
     | HistoryError status e =>
         status = 500%Z /\ ErrorResponse.Error e = "database_error"
         /\ fst (next_fault (Postgres.faults (db w))) = true
     | HistoryFailed _ _ => False
     end.
Proof.
  intros Hid. cbv zeta.
  pose proof (historyLimit_range query) as Hlim.
  unfold GetCollisionHistory_handler, GetUserIDFromContext. rewrite Hid.
  unfold GetUserCollisionHistory.
  destruct (next_fault (Postgres.faults (db w))) as [[] fs]; cbn [fst snd].
  { repeat split; try reflexivity; lia. }
  destruct (Z.ltb_spec (historyLimit query) 0) as [Hneg|_]; [lia|].
  cbn [fst snd db with_db redis Postgres.with_faults Postgres.collision_sessions
       Postgres.user_usage].
  set (own := List.filter _ (Postgres.collision_sessions (db w))).
  set (sorted := order_by_desc CollisionSession.CreatedAt own).
  assert (Hperm : Permutation sorted own) by apply order_by_desc_Permutation.
  split; [reflexivity|]. split; [reflexivity|]. split; [reflexivity|]. split; [lia|].
  split; [rewrite length_firstn; lia|].
  split.
  { intros s Hs. apply In_firstn_In in Hs. eapply Permutation_in in Hs; [|exact Hperm].
    apply filter_In in Hs. destruct Hs as [Hin Heq].
    split; [now apply String.eqb_eq in Heq|exact Hin]. }
  split; [apply StronglySorted_firstn, order_by_desc_Sorted|].
  split; [|reflexivity].
  intros Hall. rewrite firstn_all2; [exact Hperm|].
  rewrite (Permutation_length Hperm). lia.
Qed.

Lemma X16_history_is_own_newest_first_witness :
  let c := ctx_rate (CollisionSession.ID bob_session) 5 None in
  let reply := fst (GetCollisionHistory_handler (Some "500") c world_bob) in
  let w' := snd (GetCollisionHistory_handler (Some "500") c world_bob) in
  let own := List.filter (fun s => String.eqb (CollisionSession.UserID s) alice)
               (Postgres.collision_sessions (db world_bob)) in
  Postgres.collision_sessions (db w') = Postgres.collision_sessions (db world_bob)
  /\ Postgres.user_usage (db w') = Postgres.user_usage (db world_bob)
  /\ redis w' = redis world_bob
  /\ (1 <= historyLimit (Some "500") <= 100)%Z
  /\ match reply with
     | HistorySent sessions =>
         (Z.of_nat (length sessions) <= historyLimit (Some "500"))%Z
         /\ (forall s, In s sessions ->
                       CollisionSession.UserID s = alice
                       /\ In s (Postgres.collision_sessions (db world_bob)))
         /\ StronglySorted (fun x y => (CollisionSession.CreatedAt y
                                        <= CollisionSession.CreatedAt x)%Z) sessions
         /\ ((Z.of_nat (length own) <= historyLimit (Some "500"))%Z
             -> Permutation sessions own)
         /\ fst (next_fault (Postgres.faults (db world_bob))) = false
     | HistoryError status e =>
         status = 500%Z /\ ErrorResponse.Error e = "database_error"
         /\ fst (next_fault (Postgres.faults (db world_bob))) = true
     | HistoryFailed _ _ => False
     end.
Proof.
  apply (X16_history_is_own_newest_first (Some "500")
           (ctx_rate (CollisionSession.ID bob_session) 5 None) world_bob alice).
  reflexivity.
Defined.

(** * Further properties of the request pipeline *)

Lemma premium_not_free (tier : string) : is_premium tier = true -> String.eqb tier TierFree = false.
Proof.
  unfold is_premium. intros Hp. apply orb_true_iff in Hp.
  destruct Hp as [Hp|Hp]; apply String.eqb_eq in Hp; subst; reflexivity.
Qed.

Lemma uuid_New_stores (w : World) :
  db (snd (uuid_New_ w)) = db w /\ redis (snd (uuid_New_ w)) = redis w
  /\ stdout (snd (uuid_New_ w)) = stdout w /\ clock (snd (uuid_New_ w)) = clock w.
Proof. unfold uuid_New_. destruct (uuids w); repeat split. Qed.

(** X17. Premium principals stay off the meter: for a pro or team principal,
    and a limiter configured to skip premium, the generate route is the
    handler alone (neither middleware sends a command to the cache or reads
    the usage table), and the handler leaves the usage table and the whole
    cache as they are, adding at most one session. *)
Theorem X17_premium_stays_off_the_meter `{GoLib} (h : CollisionHandler.t)
    (config : RateLimitConfig.t) (rnd : Entropy) (ai : AIReplies) (c : Ctx.t) (w : World)
    (userID : UUID) :
  Ctx.user_id c = Some userID ->
  is_premium (GetSubscriptionTierFromContext c) = true ->
  RateLimitConfig.SkipPremium config = true ->
  let w' := snd (generate_route h config rnd ai c w) in
  generate_route h config rnd ai c w = GenerateCollision_handler h rnd ai c w
  /\ Postgres.user_usage (db w') = Postgres.user_usage (db w)
  /\ redis w' = redis w
  /\ (length (Postgres.collision_sessions (db w'))
      <= S (length (Postgres.collision_sessions (db w))))%nat.
Proof.
  intros Hid Hprem Hskip. cbv zeta.
  assert (Hroute : generate_route h config rnd ai c w = GenerateCollision_handler h rnd ai c w).
  { unfold generate_route, UsageLimitMiddleware, RateLimitMiddleware, GetUserIDFromContext.
    rewrite Hid, Hprem, Hskip. reflexivity. }
  rewrite Hroute. split; [reflexivity|].
  unfold GenerateCollision_handler, GetUserIDFromContext. rewrite Hid.
  destruct (Ctx.body_input c) as [input|]; [|cbn; repeat split; lia].
  destruct (validate_CollisionInput input); [cbn; repeat split; lia|].
  destruct (GenerateCollision _ rnd input) as [result [err|]]; [cbn; repeat split; lia|].
  rewrite Hprem, (premium_not_free _ Hprem).
  set (enhanced := match findDomainByName h _ with Some _ => _ | None => _ end).
  assert (Hw : snd enhanced = w).
  { subst enhanced. destruct (findDomainByName h _); reflexivity. }
  destruct enhanced as [result' w0]. cbn [snd] in Hw. subst w0.
  pose proof (uuid_New_stores w) as (Hdb & Hredis & _ & _).
  destruct (uuid_New_ w) as [id w1]. cbn [snd] in *.
  unfold CreateCollisionSession. rewrite Hdb.
  destruct (next_fault (Postgres.faults (db w))) as [[] fs].
  - cbn. rewrite Hredis. repeat split. lia.
  - cbn [Postgres.with_faults Postgres.collision_sessions Postgres.user_usage].
    destruct (existsb _ _); cbn; rewrite Hredis; repeat split; try lia.
    rewrite length_app. cbn. lia.
Qed.

Lemma X17_premium_stays_off_the_meter_witness :
  let c := ctx_generate TierPro suite_input in
  let w' := snd (generate_route suite_handler rateLimitConfig suite_entropy no_ai c
                   world_at_quota_cached) in
  generate_route suite_handler rateLimitConfig suite_entropy no_ai c world_at_quota_cached
  = GenerateCollision_handler suite_handler suite_entropy no_ai c world_at_quota_cached
  /\ Postgres.user_usage (db w') = Postgres.user_usage (db world_at_quota_cached)
  /\ redis w' = redis world_at_quota_cached
  /\ (length (Postgres.collision_sessions (db w'))
      <= S (length (Postgres.collision_sessions (db world_at_quota_cached))))%nat.
Proof.
  apply (X17_premium_stays_off_the_meter suite_handler rateLimitConfig suite_entropy no_ai
           (ctx_generate TierPro suite_input) world_at_quota_cached alice); reflexivity.
Defined.

Lemma validationErrors_None (errors : list string) :
  validationErrors errors = None -> errors = [].
Proof. destruct errors; [reflexivity|discriminate]. Qed.

Lemma oneofErrors_nil (structName field value : string) (allowed : list string) :
  oneofErrors structName field value allowed = [] -> In value allowed.
Proof.
  unfold oneofErrors. destruct (String.eqb value ""); [discriminate|].
  destruct (existsb _ allowed) eqn:Hex; [|discriminate].
  intros _. apply existsb_exists in Hex. destruct Hex as (x & Hx & Heq).
  apply String.eqb_eq in Heq. now subst.
Qed.

Lemma validate_CollisionInput_None (input : CollisionInput.t) :
  validate_CollisionInput input = None ->
  CollisionInput.UserInterests input <> []
  /\ CollisionInput.CurrentProject input <> ""
  /\ In (CollisionInput.ProjectType input) ["product"; "content"; "business"; "research"]
  /\ In (CollisionInput.CollisionIntensity input) ["gentle"; "moderate"; "radical"].
Proof.
  unfold validate_CollisionInput. intros Hv. apply validationErrors_None in Hv.
  apply app_eq_nil in Hv. destruct Hv as [Hinterests Hv].
  apply app_eq_nil in Hv. destruct Hv as [Hproject Hv].
  apply app_eq_nil in Hv. destruct Hv as [Htype Hintensity].
  repeat split.
  - destruct (CollisionInput.UserInterests input); [discriminate|discriminate].
  - destruct (String.eqb_spec (CollisionInput.CurrentProject input) "");
      [discriminate|assumption].
  - now apply oneofErrors_nil in Htype.
  - now apply oneofErrors_nil in Hintensity.
Qed.

(** X18. The generate handler answers with a collision only to an
    authenticated request whose body parsed and passed validation (some
    interest, a project, a known project type and intensity), and then with
    status 200; every other request is answered without a command to the
    store or the cache, and without a log line: the state is untouched. *)
Theorem X18_only_valid_requests_generate `{GoLib} (h : CollisionHandler.t) (rnd : Entropy)
    (ai : AIReplies) (c : Ctx.t) (w : World) :
  match GenerateCollision_handler h rnd ai c w with
  | (Sent status (JSONResult result), _, _) =>
      status = 200%Z
      /\ exists userID input,
           Ctx.user_id c = Some userID /\ Ctx.body_input c = Some input
           /\ CollisionInput.UserInterests input <> []
           /\ CollisionInput.CurrentProject input <> ""
           /\ In (CollisionInput.ProjectType input)
                ["product"; "content"; "business"; "research"]
           /\ In (CollisionInput.CollisionIntensity input) ["gentle"; "moderate"; "radical"]
  | (_, c', w') => c' = c /\ w' = w
  end.
Proof.
  unfold GenerateCollision_handler, GetUserIDFromContext.
  destruct (Ctx.user_id c) as [userID|]; [|split; reflexivity].
  destruct (Ctx.body_input c) as [input|]; [|split; reflexivity].
  destruct (validate_CollisionInput input) eqn:Hv; [split; reflexivity|].
  destruct (GenerateCollision _ rnd input) as [result [err|]]; [split; reflexivity|].
  destruct (if is_premium _ then _ else _) as [result' w0].
  destruct (uuid_New_ w0) as [id w1].
  destruct (CreateCollisionSession _ _) as [err1 p1].
  assert (Hgoal : 200%Z = 200%Z
                  /\ exists userID0 input0,
                       Some userID = Some userID0 /\ Some input = Some input0
                       /\ CollisionInput.UserInterests input0 <> []
                       /\ CollisionInput.CurrentProject input0 <> ""
                       /\ In (CollisionInput.ProjectType input0)
                            ["product"; "content"; "business"; "research"]
                       /\ In (CollisionInput.CollisionIntensity input0)
                            ["gentle"; "moderate"; "radical"]).
  { split; [reflexivity|]. exists userID, input. split; [reflexivity|].
    split; [reflexivity|]. now apply validate_CollisionInput_None. }
  exact Hgoal.
Qed.



(** X20. Persistence is best effort: when both commands to the store fail, a
    valid generation of a free principal is still answered 200 with the
    engine's result; no table changes, and the two failures are logged, session
    first. *)
Theorem X20_store_failure_does_not_fail_generation `{GoLib} (h : CollisionHandler.t)
    (rnd : Entropy) (ai : AIReplies) (c : Ctx.t) (w : World) (userID : UUID)
    (input : CollisionInput.t) (fs : list bool) :
  Ctx.user_id c = Some userID ->
  GetSubscriptionTierFromContext c = TierFree ->
  Ctx.body_input c = Some input ->
  validate_CollisionInput input = None ->
  Postgres.faults (db w) = true :: true :: fs ->
  let result := fst (GenerateCollision (CollisionHandler.engine h) rnd input) in
  exists w',
    GenerateCollision_handler h rnd ai c w = (Sent 200 (JSONResult result), c, w')
    /\ Postgres.collision_sessions (db w') = Postgres.collision_sessions (db w)
    /\ Postgres.user_usage (db w') = Postgres.user_usage (db w)
    /\ stdout w'
       = List.app (stdout w)
           ["Failed to save collision session: pq: command failed";
            "Failed to increment usage: pq: command failed"].
Proof.
  intros Hid Htier Hbody Hvalid Hpf. cbv zeta.
  unfold GenerateCollision_handler, GetUserIDFromContext.
  rewrite Hid, Hbody, Hvalid, Htier.
  pose proof (GenerateCollision_no_error (CollisionHandler.engine h) rnd input) as Herr.
  destruct (GenerateCollision (CollisionHandler.engine h) rnd input) as [result err].
  cbn [fst snd] in *. subst err.
  change (is_premium TierFree) with false. cbv beta iota.
  pose proof (uuid_New_stores w) as (Hdb & Hredis & Hout & Hclock).
  destruct (uuid_New_ w) as [id w1]. cbn [snd] in *.
  unfold CreateCollisionSession. rewrite Hdb, Hpf. cbn [next_fault].
  unfold Postgres.err. cbv beta iota.
  change (String.eqb TierFree TierFree) with true. cbv beta iota.
  unfold IncrementUserUsage, Postgres.err.
  cbn [db redis clock stdout uuids with_db with_redis Printf Postgres.with_faults
       Postgres.faults next_fault].
  cbv beta iota.
  match goal with |- context [InvalidateUserUsage ?a ?b] =>
    destruct (InvalidateUserUsage a b) as [err3 r3] end.
  eexists. split; [reflexivity|].
  cbn [db redis clock stdout uuids with_db with_redis Printf Postgres.with_faults
       Postgres.collision_sessions Postgres.user_usage].
  rewrite Hout, <- app_assoc. repeat split.
Qed.

Lemma X20_store_failure_does_not_fail_generation_witness :
  let c := ctx_generate TierFree suite_input in
  let w := Build_World redis0 (Postgres.mk [] [usage_at_quota] [true; true]) []
             (clock world0) (uuids world0) in
  let result := fst (GenerateCollision (CollisionHandler.engine suite_handler)
                       suite_entropy suite_input) in
  exists w',
    GenerateCollision_handler suite_handler suite_entropy no_ai c w
    = (Sent 200 (JSONResult result), c, w')
    /\ Postgres.collision_sessions (db w') = Postgres.collision_sessions (db w)
    /\ Postgres.user_usage (db w') = Postgres.user_usage (db w)
    /\ stdout w'
       = List.app (stdout w)
           ["Failed to save collision session: pq: command failed";
            "Failed to increment usage: pq: command failed"].
Proof.
  apply (X20_store_failure_does_not_fail_generation suite_handler suite_entropy no_ai
           (ctx_generate TierFree suite_input)
           (Build_World redis0 (Postgres.mk [] [usage_at_quota] [true; true]) []
              (clock world0) (uuids world0))
           alice suite_input []); reflexivity.
Defined.

(** X21. A free principal under the weekly limit, with their record in the
    cache, is let through: the next handler runs with that record stored in
    the request context, and neither the cache contents nor the store are
    touched. *)
Theorem X21_under_limit_passes_with_record (next : Handler) (c : Ctx.t) (w : World)
    (userID : UUID) (fs : list bool) (u : UserUsage.t) :
  Ctx.user_id c = Some userID ->
  GetSubscriptionTierFromContext c = TierFree ->
  next_fault (Redis.faults (redis w)) = (false, fs) ->
  Redis.usage (redis w) !! KeyUserUsage userID = Some u ->
  (UserUsage.CollisionCount u < 5)%Z ->
  UsageLimitMiddleware next c w
  = next (Ctx.set_user_usage (Some u) c) (with_redis w (Redis.with_faults (redis w) fs)).
Proof.
  intros Hid Htier Hf Hhit Hcount.
  unfold UsageLimitMiddleware, GetUserIDFromContext. rewrite Hid, Htier, free_not_premium.
  unfold GetCachedUserUsage, Redis.Get. rewrite Hf. cbn [Redis.usage Redis.with_faults].
  rewrite Hhit. unfold checkWeeklyLimit. rewrite UsageLimits_free.
  change (0 <? 5)%Z with true. cbv beta iota.
  destruct (Z.leb_spec 5 (UserUsage.CollisionCount u)) as [Hge|_]; [lia|reflexivity].
Qed.

Lemma X21_under_limit_passes_with_record_witness :
  let u := UserUsage.mk "0b0b0b0b-0000-4000-8000-000000000002" alice 4
             (clock world0) (clock world0) (clock world0) in
  let w := Build_World (Redis.mk ∅ {[ KeyUserUsage alice := u ]} ∅ []) pg0 []
             (clock world0) (uuids world0) in
  UsageLimitMiddleware next_ok (ctx_generate TierFree suite_input) w
  = next_ok (Ctx.set_user_usage (Some u) (ctx_generate TierFree suite_input))
      (with_redis w (Redis.with_faults (redis w) [])).
Proof.
  apply (X21_under_limit_passes_with_record next_ok (ctx_generate TierFree suite_input)
           (Build_World
              (Redis.mk ∅ {[ KeyUserUsage alice :=
                               UserUsage.mk "0b0b0b0b-0000-4000-8000-000000000002" alice 4
                                 (clock world0) (clock world0) (clock world0) ]} ∅ [])
              pg0 [] (clock world0) (uuids world0))
           alice []
           (UserUsage.mk "0b0b0b0b-0000-4000-8000-000000000002" alice 4
              (clock world0) (clock world0) (clock world0))).
  - reflexivity.
  - reflexivity.
  - reflexivity.
  - vm_compute. reflexivity.
  - cbn. lia.
Defined.

(** X22. When the usage cache and the usage query both fail, a free
    principal's request is answered 500 [usage_check_failed]: the next
    handler does not run, and no table changes. *)
Theorem X22_both_stores_down_is_500 (next : Handler) (c : Ctx.t) (w : World)
    (userID : UUID) (fs fs' : list bool) :
  Ctx.user_id c = Some userID ->
  GetSubscriptionTierFromContext c = TierFree ->
  Redis.faults (redis w) = true :: fs ->
  Postgres.faults (db w) = true :: fs' ->
  exists w',
    UsageLimitMiddleware next c w
    = (Sent StatusInternalServerError
         (JSONError (ErrorResponse.mk "usage_check_failed" "Unable to check usage limits" 500)),
       c, w')
    /\ Postgres.collision_sessions (db w') = Postgres.collision_sessions (db w)
    /\ Postgres.user_usage (db w') = Postgres.user_usage (db w)
    /\ Redis.usage (redis w') = Redis.usage (redis w)
    /\ Redis.zsets (redis w') = Redis.zsets (redis w).
Proof.
  intros Hid Htier Hrf Hpf.
  unfold UsageLimitMiddleware, GetUserIDFromContext. rewrite Hid, Htier, free_not_premium.
  unfold GetCachedUserUsage, Redis.Get. rewrite Hrf. cbn [next_fault]. cbv beta iota.
  pose proof (uuid_New_stores (with_redis w (Redis.with_faults (redis w) fs)))
    as (Hdb & Hredis & _ & Hclock).
  destruct (uuid_New_ _) as [fresh w1]. cbn [snd] in *.
  unfold GetUserUsage. rewrite Hdb. cbn [db with_redis]. rewrite Hpf. cbn [next_fault].
  cbv beta iota.
  eexists. split; [reflexivity|].
  cbn [db redis with_db with_redis Postgres.with_faults Postgres.collision_sessions
       Postgres.user_usage].
  rewrite Hredis. repeat split.
Qed.

Lemma X22_both_stores_down_is_500_witness :
  let w := Build_World (Redis.mk ∅ ∅ ∅ [true]) (Postgres.mk [] [usage_at_quota] [true]) []
             (clock world0) (uuids world0) in
  exists w',
    UsageLimitMiddleware next_ok (ctx_generate TierFree suite_input) w
    = (Sent StatusInternalServerError
         (JSONError (ErrorResponse.mk "usage_check_failed" "Unable to check usage limits" 500)),
       ctx_generate TierFree suite_input, w')
    /\ Postgres.collision_sessions (db w') = Postgres.collision_sessions (db w)
    /\ Postgres.user_usage (db w') = Postgres.user_usage (db w)
    /\ Redis.usage (redis w') = Redis.usage (redis w)
    /\ Redis.zsets (redis w') = Redis.zsets (redis w).
Proof.
  apply (X22_both_stores_down_is_500 next_ok (ctx_generate TierFree suite_input)
           (Build_World (Redis.mk ∅ ∅ ∅ [true]) (Postgres.mk [] [usage_at_quota] [true]) []
              (clock world0) (uuids world0))
           alice [] []); reflexivity.
Defined.

(** Five minutes are sent as [EX 300]. *)
Lemma client_Set_five_minutes (key : string) (v : UserUsage.t) (r : Redis.t) :
  client_Set key v (5 * Minute) r = Redis.Set_ key v (Redis.EX 300) r.
Proof. reflexivity. Qed.

(** X23. The fallback fills the cache: when the cache read fails but the
    store is healthy and holds no row of the principal's window, the
    middleware creates the row with count 0, writes the record to the cache
    with a time to live of 300 seconds (once the cache answers again), and
    lets the request through with that record in the context. *)
Theorem X23_fallback_creates_and_caches (next : Handler) (c : Ctx.t) (w : World)
    (userID fresh : UUID) (ids : list UUID) :
  Ctx.user_id c = Some userID ->
  GetSubscriptionTierFromContext c = TierFree ->
  Redis.faults (redis w) = [true] ->
  Postgres.faults (db w) = [] ->
  uuids w = fresh :: ids ->
  latest (List.filter (in_window (clock w) userID) (Postgres.user_usage (db w))) = None ->
  let u := UserUsage.mk fresh userID 0 (clock w) (clock w) (clock w) in
  exists w',
    UsageLimitMiddleware next c w = next (Ctx.set_user_usage (Some u) c) w'
    /\ length (Postgres.user_usage (db w')) = S (length (Postgres.user_usage (db w)))
    /\ Postgres.collision_sessions (db w') = Postgres.collision_sessions (db w)
    /\ Redis.usage (redis w') !! KeyUserUsage userID = Some u
    /\ Redis.ttl (redis w') !! KeyUserUsage userID = Some 300%Z.
Proof.
  intros Hid Htier Hrf Hpf Hids Hnone. cbv zeta.
  unfold UsageLimitMiddleware, GetUserIDFromContext. rewrite Hid, Htier, free_not_premium.
  unfold GetCachedUserUsage, Redis.Get. rewrite Hrf. cbn [next_fault]. cbv beta iota.
  unfold uuid_New_. cbn [uuids with_redis]. rewrite Hids. cbv beta iota.
  cbn [db redis clock stdout uuids with_db with_redis].
  unfold GetUserUsage. rewrite Hpf. cbn [next_fault].
  cbn [Postgres.with_faults Postgres.user_usage Postgres.faults]. rewrite Hnone.
  cbn [next_fault]. cbv beta iota.
  cbn [db redis clock stdout uuids with_db with_redis].
  unfold CacheUserUsage. rewrite client_Set_five_minutes. unfold Redis.Set_.
  cbn [Redis.faults Redis.with_faults next_fault Redis.zsets Redis.usage Redis.ttl].
  cbv beta iota. unfold checkWeeklyLimit. rewrite UsageLimits_free.
  change (0 <? 5)%Z with true. cbv beta iota.
  cbn [UserUsage.CollisionCount]. change (5 <=? 0)%Z with false. cbv beta iota.
  eexists. split; [reflexivity|].
  cbn [db redis with_db with_redis Postgres.user_usage Postgres.collision_sessions
       Redis.usage Redis.ttl].
  split; [rewrite length_app; cbn; lia|]. split; [reflexivity|].
  split; [apply lookup_insert_eq|]. rewrite lookup_insert_eq. reflexivity.
Qed.

Lemma X23_fallback_creates_and_caches_witness :
  let w := Build_World (Redis.mk ∅ ∅ ∅ [true]) pg0 [] (clock world0) (uuids world0) in
  let u := UserUsage.mk "0a0a0a0a-0000-4000-8000-000000000001" alice 0
             (clock w) (clock w) (clock w) in
  exists w',
    UsageLimitMiddleware next_ok (ctx_generate TierFree suite_input) w
    = next_ok (Ctx.set_user_usage (Some u) (ctx_generate TierFree suite_input)) w'
    /\ length (Postgres.user_usage (db w')) = S (length (Postgres.user_usage (db w)))
    /\ Postgres.collision_sessions (db w') = Postgres.collision_sessions (db w)
    /\ Redis.usage (redis w') !! KeyUserUsage alice = Some u
    /\ Redis.ttl (redis w') !! KeyUserUsage alice = Some 300%Z.
Proof.
  apply (X23_fallback_creates_and_caches next_ok (ctx_generate TierFree suite_input)
           (Build_World (Redis.mk ∅ ∅ ∅ [true]) pg0 [] (clock world0) (uuids world0))
           alice "0a0a0a0a-0000-4000-8000-000000000001"
           ["0a0a0a0a-0000-4000-8000-000000000002"]); reflexivity.
Defined.

Lemma Split_byte_nonempty (sep : ascii) (s : string) : strings_Split_byte sep s <> [].
Proof.
  destruct s as [|a s]; cbn [strings_Split_byte]; [discriminate|].
  destruct (Ascii.eqb a sep); [discriminate|].
  destruct (strings_Split_byte sep s); discriminate.
Qed.

Lemma Split_byte_one (sep : ascii) (s b : string) :
  strings_Split_byte sep s = [b] <-> s = b /\ has_byte sep b = false.
Proof.
  revert b. induction s as [|a s IH]; intros b; cbn [strings_Split_byte].
  - split.
    + intros [= <-]. split; reflexivity.
    + intros [<- _]. reflexivity.
  - destruct (Ascii.eqb a sep) eqn:Ha.
    + split.
      * intros Heq. injection Heq as <- Hrest.
        now apply Split_byte_nonempty in Hrest.
      * intros [<- Hb]. cbn [has_byte] in Hb. rewrite Ha in Hb. discriminate.
    + destruct (strings_Split_byte sep s) as [|part parts] eqn:Hs.
      * now apply Split_byte_nonempty in Hs.
      * split.
        -- intros [= <- ->]. destruct (proj1 (IH part) eq_refl) as [-> Hb].
           split; [reflexivity|]. cbn [has_byte]. now rewrite Ha, Hb.
        -- intros [<- Hb]. cbn [has_byte] in Hb. rewrite Ha in Hb. cbn [orb] in Hb.
           pose proof (proj2 (IH s) (conj eq_refl Hb)) as Hp.
           injection Hp as -> ->. reflexivity.
Qed.

Lemma Split_byte_two (sep : ascii) (s a b : string) :
  strings_Split_byte sep s = [a; b]
  <-> s = a ++ String sep b /\ has_byte sep a = false /\ has_byte sep b = false.
Proof.
  revert a. induction s as [|ch s IH]; intros a; cbn [strings_Split_byte].
  - split; [discriminate|]. intros [Heq _]. destruct a; discriminate.
  - destruct (Ascii.eqb ch sep) eqn:Hch.
    + apply Ascii.eqb_eq in Hch. subst ch. split.
      * intros Heq. injection Heq as <- Hrest.
        apply Split_byte_one in Hrest. destruct Hrest as [-> Hb].
        split; [reflexivity|]. split; [reflexivity|exact Hb].
      * intros (Heq & Ha & Hb). destruct a as [|ch a].
        -- cbn in Heq. injection Heq as ->. f_equal.
           apply Split_byte_one. now split.
        -- cbn in Heq. injection Heq as <- _. cbn [has_byte] in Ha.
           rewrite Ascii.eqb_refl in Ha. discriminate.
    + destruct (strings_Split_byte sep s) as [|part parts] eqn:Hs.
      * split; [discriminate|]. intros (Heq & Ha & Hb). destruct a as [|ch' a].
        -- cbn in Heq. injection Heq as -> _. rewrite Ascii.eqb_refl in Hch. discriminate.
        -- cbn in Heq. injection Heq as <- ->. cbn [has_byte] in Ha.
           rewrite Hch in Ha. cbn [orb] in Ha.
           pose proof (proj2 (IH a) (conj eq_refl (conj Ha Hb))). discriminate.
      * split.
        -- intros [= <- ->]. destruct (proj1 (IH part) eq_refl) as (-> & Ha & Hb).
           split; [reflexivity|]. split; [|exact Hb]. cbn [has_byte]. now rewrite Hch, Ha.
        -- intros (Heq & Ha & Hb). destruct a as [|ch' a].
           ++ cbn in Heq. injection Heq as -> _. rewrite Ascii.eqb_refl in Hch. discriminate.
           ++ cbn in Heq. injection Heq as <- ->. cbn [has_byte] in Ha.
              rewrite Hch in Ha. cbn [orb] in Ha.
              pose proof (proj2 (IH a) (conj eq_refl (conj Ha Hb))) as Hsplit.
              injection Hsplit as -> ->. reflexivity.
Qed.

(** What [AuthMiddleware] lets pass: a header that is "Bearer", one blank
    and a token without a blank that the service validates. *)
Lemma AuthMiddleware_decides (ValidateToken : string -> option Claims.t)
    (authHeader : string) :
  (exists token claims,
      authHeader = "Bearer " ++ token /\ has_byte " " token = false
      /\ ValidateToken token = Some claims
      /\ forall next c w,
           AuthMiddleware ValidateToken authHeader next c w = next (set_claims claims c) w)
  \/ ((forall token, authHeader = "Bearer " ++ token -> has_byte " " token = false ->
                     ValidateToken token = None)
      /\ exists message,
           In message ["Authorization header required";
                       "Invalid authorization header format"; "Invalid token"]
           /\ forall next c w,
                AuthMiddleware ValidateToken authHeader next c w
                = (unauthorized message, c, w)).
Proof.
  assert (Hformat : forall header parts,
             strings_Split_byte " " header = parts ->
             (forall scheme tokenString, parts <> [scheme; tokenString]) ->
             forall token, header = "Bearer " ++ token ->
                           has_byte " " token = false -> ValidateToken token = None).
  { intros header parts Hs Hparts token -> Hb. exfalso.
    apply (Hparts "Bearer" token). rewrite <- Hs.
    apply Split_byte_two. now repeat split. }
  destruct (String.eqb authHeader "") eqn:He.
  { right. apply String.eqb_eq in He. subst authHeader.
    split; [intros token Heq; discriminate|].
    exists "Authorization header required". split; [now left|]. reflexivity. }
  destruct (strings_Split_byte " " authHeader) as [|scheme [|tokenString [|x parts]]] eqn:Hs.
  - right. split; [apply (Hformat authHeader _ Hs); intros; discriminate|].
    exists "Invalid authorization header format". split; [right; now left|].
    intros next c w. unfold AuthMiddleware. now rewrite He, Hs.
  - right. split; [apply (Hformat authHeader _ Hs); intros; discriminate|].
    exists "Invalid authorization header format". split; [right; now left|].
    intros next c w. unfold AuthMiddleware. now rewrite He, Hs.
  - pose proof Hs as Hparts. apply Split_byte_two in Hparts.
    destruct Hparts as (Heq & Hscheme & Htoken).
    destruct (String.eqb scheme "Bearer") eqn:Hbearer.
    + apply String.eqb_eq in Hbearer. subst scheme.
      destruct (ValidateToken tokenString) as [claims|] eqn:Hvalid.
      * left. exists tokenString, claims. repeat split; auto.
        intros next c w. unfold AuthMiddleware. now rewrite He, Hs, Hvalid.
      * right. split.
        -- intros token Heq' _.
           assert (Ht : tokenString = token).
           { rewrite Heq in Heq'. cbv in Heq'. now injection Heq'. }
           subst token. exact Hvalid.
        -- exists "Invalid token". split; [right; right; now left|].
           intros next c w. unfold AuthMiddleware. now rewrite He, Hs, Hvalid.
    + right. split.
      * intros token Heq' Hb. exfalso.
        assert (Hsplit : strings_Split_byte " " authHeader = ["Bearer"; token]).
        { rewrite Heq'. apply Split_byte_two. now repeat split. }
        rewrite Hs in Hsplit. injection Hsplit as -> _. discriminate.
      * exists "Invalid authorization header format". split; [right; now left|].
        intros next c w. unfold AuthMiddleware. now rewrite He, Hs, Hbearer.
  - right. split; [apply (Hformat authHeader _ Hs); intros; discriminate|].
    exists "Invalid authorization header format". split; [right; now left|].
    intros next c w. unfold AuthMiddleware. now rewrite He, Hs.
Qed.

(** X24. A request never reaches the generate or the rate handlers without
    a valid token. Unless the Authorization header is "Bearer", one blank and
    a token without a blank that the token service validates, both routes
    answer 401 [unauthorized] (header required, invalid format or invalid
    token), whatever locals the context held, and leave the context and the
    state untouched. With such a header, the handlers run on the context that
    carries the principal and the tier of the token's claims. *)
Theorem X24_unauthenticated_is_refused `{GoLib} (ValidateToken : string -> option Claims.t)
    (h : CollisionHandler.t) (config : RateLimitConfig.t) (rnd : Entropy) (ai : AIReplies)
    (authHeader : string) (c : Ctx.t) (w : World) :
  ((forall token, authHeader = "Bearer " ++ token -> has_byte " " token = false ->
                  ValidateToken token = None) ->
   exists message,
     serve (generate_endpoint ValidateToken h authHeader config rnd ai) c w
     = (Response.mk 401 (JSONError (ErrorResponse.mk "unauthorized" message 401))
          (Ctx.headers c), w)
     /\ serve (rate_endpoint ValidateToken authHeader) c w
        = (Response.mk 401 (JSONError (ErrorResponse.mk "unauthorized" message 401))
             (Ctx.headers c), w)
     /\ In message ["Authorization header required"; "Invalid authorization header format";
                    "Invalid token"])
  /\ (forall token claims,
        authHeader = "Bearer " ++ token -> has_byte " " token = false ->
        ValidateToken token = Some claims ->
        let c' := set_claims claims c in
        generate_endpoint ValidateToken h authHeader config rnd ai c w
        = generate_route h config rnd ai c' w
        /\ rate_endpoint ValidateToken authHeader c w = rate_route c' w
        /\ GetUserIDFromContext c' = inl (Claims.UserID claims)
        /\ GetSubscriptionTierFromContext c' = Claims.SubscriptionTier claims).
Proof.
  unfold generate_endpoint, rate_endpoint.
  destruct (AuthMiddleware_decides ValidateToken authHeader)
    as [(token & claims & Heq & Hb & Hvalid & Hrun)|(Hnone & message & Hin & Hrun)].
  - split.
    + intros Hrefused. rewrite (Hrefused token Heq Hb) in Hvalid. discriminate.
    + intros token' claims' Heq' _ Hvalid'.
      assert (Ht : token = token').
      { rewrite Heq in Heq'. cbv in Heq'. now injection Heq'. }
      subst token'. rewrite Hvalid in Hvalid'. injection Hvalid' as <-.
      cbv zeta. rewrite !Hrun. repeat split.
  - split.
    + intros _. exists message. unfold serve. rewrite !Hrun. repeat split. exact Hin.
    + intros token claims Heq Hb Hvalid. rewrite (Hnone token Heq Hb) in Hvalid.
      discriminate.
Qed.

Lemma X24_unauthenticated_is_refused_witness :
  let c := ctx_generate TierPro suite_input in
  (exists message,
      serve (generate_endpoint sample_ValidateToken suite_handler "Bearer mallory-token"
               rateLimitConfig suite_entropy no_ai) c world0
      = (Response.mk 401 (JSONError (ErrorResponse.mk "unauthorized" message 401))
           (Ctx.headers c), world0)
      /\ serve (rate_endpoint sample_ValidateToken "Bearer mallory-token") c world0
         = (Response.mk 401 (JSONError (ErrorResponse.mk "unauthorized" message 401))
              (Ctx.headers c), world0))
  /\ GetSubscriptionTierFromContext
       (set_claims (Claims.mk alice "alice@example.com" TierFree) c) = TierFree.
Proof.
  split.
  - destruct (X24_unauthenticated_is_refused sample_ValidateToken suite_handler
                rateLimitConfig suite_entropy no_ai "Bearer mallory-token"
                (ctx_generate TierPro suite_input) world0) as [Hrefused _].
    destruct Hrefused as (message & Hgenerate & Hrate & _).
    + intros token Heq _. cbv in Heq. injection Heq as <-. reflexivity.
    + exists message. split; [exact Hgenerate|exact Hrate].
  - destruct (X24_unauthenticated_is_refused sample_ValidateToken suite_handler
                rateLimitConfig suite_entropy no_ai "Bearer alice-token"
                (ctx_generate TierPro suite_input) world0) as [_ Hpass].
    destruct (Hpass "alice-token" (Claims.mk alice "alice@example.com" TierFree)
                eq_refl eq_refl eq_refl) as (_ & _ & _ & Htier).
    exact Htier.
Defined.

(** ** The language model's replies *)

Lemma Split_lines_single (s : string) :
  single_line s = true -> strings_Split_lines s = [s].
Proof.
  induction s as [|a s IH]; simpl; [reflexivity|].
  intros Hs. apply andb_prop in Hs. destruct Hs as [Ha Hs].
  apply negb_true_iff in Ha. rewrite Ha, (IH Hs). reflexivity.
Qed.

Lemma Split_lines_app (s t : string) :
  single_line s = true ->
  strings_Split_lines (s ++ String newline t) = s :: strings_Split_lines t.
Proof.
  induction s as [|a s IH]; simpl.
  - intros _. rewrite ?Ascii.eqb_refl. reflexivity.
  - intros Hs. apply andb_prop in Hs. destruct Hs as [Ha Hs].
    apply negb_true_iff in Ha. rewrite Ha, (IH Hs). reflexivity.
Qed.

Lemma Split_lines_concat (lines : list string) :
  lines <> [] -> List.Forall (fun l => single_line l = true) lines ->
  strings_Split_lines (String.concat (String newline "") lines) = lines.
Proof.
  induction lines as [|l lines IH]; [congruence|].
  intros _ Hall. inversion Hall as [|? ? Hl Hrest]; subst.
  destruct lines as [|l' lines].
  - simpl. now apply Split_lines_single.
  - change (String.concat (String newline "") (l :: l' :: lines))
      with (l ++ String newline (String.concat (String newline "") (l' :: lines))).
    rewrite (Split_lines_app _ _ Hl), IH; [reflexivity|discriminate|exact Hrest].
Qed.

Lemma single_line_app (s t : string) :
  single_line s = true -> single_line t = true -> single_line (s ++ t) = true.
Proof.
  induction s as [|a s IH]; simpl; [auto|].
  intros Hs Ht. apply andb_prop in Hs. destruct Hs as [Ha Hs].
  rewrite Ha. simpl. now apply IH.
Qed.

Lemma last_byte_graphic_app (s t : string) (a b : ascii) :
  last_byte (s ++ String b t) a = last_byte t b.
Proof. revert a. induction s as [|c s IH]; intros a; simpl; [reflexivity|apply IH]. Qed.

Lemma digit_cases (i : Z) :
  (1 <= i <= 9)%Z ->
  i = 1%Z \/ i = 2%Z \/ i = 3%Z \/ i = 4%Z \/ i = 5%Z \/ i = 6%Z \/ i = 7%Z \/ i = 8%Z
  \/ i = 9%Z.
Proof. lia. Qed.

(** One line of a numbered reply is read back as its item. *)
Lemma numbered_line_parsed `{GoTrim} (i n : Z) (x : string) :
  (1 <= i <= n)%Z -> (n <= 9)%Z -> graphic_ends x = true ->
  let line := pretty i ++ ". " ++ x in
  strings_TrimSpace line = line
  /\ String.eqb line "" = false
  /\ numberedItem line n = Some x.
Proof.
  intros Hi Hn Hx. cbv zeta.
  assert (Hne : String.eqb x "" = false) by (destruct x; [discriminate|reflexivity]).
  assert (Hitem : strings_TrimSpace (String " " x) = x)
    by (rewrite TrimSpace_blank; now apply TrimSpace_graphic).
  assert (Hlast : forall d, is_graphic d = true ->
                            graphic_ends (String d (String "." (String " " x))) = true).
  { intros d Hd. destruct x as [|a x]; [discriminate|].
    simpl in Hx |- *. apply andb_prop in Hx. destruct Hx as [_ Hx].
    rewrite Hd. exact Hx. }
  destruct (digit_cases i ltac:(lia)) as [->|[->|[->|[->|[->|[->|[->|[->| ->]]]]]]]];
    destruct (digit_cases n ltac:(lia)) as [->|[->|[->|[->|[->|[->|[->|[->| ->]]]]]]]];
    try lia;
    (split; [apply TrimSpace_graphic, Hlast; reflexivity|]);
    (split; [reflexivity|]);
    unfold numberedItem;
    match goal with
    | |- context [List.find ?f ?l] =>
        let r := eval vm_compute in (List.find f l) in
        change (List.find f l) with r
    end;
    cbv beta iota;
    match goal with
    | |- context [strings_TrimPrefix ?s ?p] =>
        let r := eval vm_compute in (strings_TrimPrefix s p) in
        change (strings_TrimPrefix s p) with r
    end;
    rewrite Hitem, Hne; reflexivity.
Qed.

Lemma numbered_single_line (i : Z) (items : list string) :
  (1 <= i)%Z -> (i + Z.of_nat (length items) <= 10)%Z ->
  List.Forall (fun x => single_line x = true) items ->
  List.Forall (fun l => single_line l = true) (numbered i items).
Proof.
  revert i. induction items as [|x items IH]; intros i Hlo Hhi Hall; simpl; [constructor|].
  inversion Hall as [|? ? Hx Hrest]; subst. simpl length in Hhi.
  constructor; [|apply IH; [lia|lia|exact Hrest]].
  destruct (digit_cases i ltac:(lia)) as [->|[->|[->|[->|[->|[->|[->|[->| ->]]]]]]]];
    exact Hx.
Qed.

Lemma fold_numbered `{GoTrim} (n i : Z) (items acc : list string) :
  (1 <= i)%Z -> (i + Z.of_nat (length items) <= n + 1)%Z -> (n <= 9)%Z ->
  List.Forall (fun x => graphic_ends x = true) items ->
  fold_left
    (fun items line =>
       let line := strings_TrimSpace line in
       if String.eqb line "" then items
       else match numberedItem line n with
            | Some item => List.app items [item]
            | None => items
            end)
    (numbered i items) acc
  = List.app acc items.
Proof.
  revert i acc. induction items as [|x items IH]; intros i acc Hlo Hhi Hn Hall; simpl.
  - now rewrite app_nil_r.
  - inversion Hall as [|? ? Hx Hrest]; subst. simpl length in Hhi.
    destruct (numbered_line_parsed i n x ltac:(lia) Hn Hx) as (Htrim & Hnonempty & Hitem).
    rewrite Htrim, Hnonempty, Hitem.
    rewrite IH; [|lia|lia|exact Hn|exact Hrest].
    now rewrite <- app_assoc.
Qed.

(** X25. A reply in the format the prompts ask for is read back exactly:
    for at most [expectedCount <= 9] items, each on one line and starting
    and ending with printable ASCII, [parseNumberedList] of the items
    numbered "1. ", "2. ", ... and joined by newlines returns the items, in
    order. *)
Theorem X25_numbered_reply_round_trip `{GoTrim} (items : list string) (expectedCount : Z) :
  (Z.of_nat (length items) <= expectedCount <= 9)%Z ->
  List.Forall (fun x => graphic_ends x = true /\ single_line x = true) items ->
  parseNumberedList (numbered_reply items) expectedCount = items.
Proof.
  intros Hn Hall.
  assert (Hg : List.Forall (fun x => graphic_ends x = true) items)
    by (eapply List.Forall_impl; [|exact Hall]; now intros x [Hx _]).
  assert (Hs : List.Forall (fun x => single_line x = true) items)
    by (eapply List.Forall_impl; [|exact Hall]; now intros x [_ Hx]).
  unfold parseNumberedList, numbered_reply.
  destruct items as [|x items].
  - simpl. now rewrite TrimSpace_empty.
  - rewrite Split_lines_concat.
    + apply (fold_numbered expectedCount 1 (x :: items) []); [lia|lia|lia|exact Hg].
    + discriminate.
    + apply numbered_single_line; [lia|lia|exact Hs].
Qed.

Lemma X25_numbered_reply_round_trip_witness :
  let items := ["How would a reef recruit contributors?"; "What is the keystone species?";
                "Where does the nutrient cycle leak?"] in
  @parseNumberedList ascii_trim (numbered_reply items) 4 = items.
Proof.
  apply (@X25_numbered_reply_round_trip ascii_trim
           ["How would a reef recruit contributors?"; "What is the keystone species?";
            "Where does the nutrient cycle leak?"] 4).
  - simpl. lia.
  - repeat constructor.
Defined.

Lemma numberedItem_Some `{GoTrim} (line : string) (n : Z) (item : string) :
  numberedItem line n = Some item ->
  item <> ""
  /\ exists i, (1 <= i <= n)%Z
               /\ strings_HasPrefix line (pretty i ++ ".") = true
               /\ item = strings_TrimSpace (strings_TrimPrefix line (pretty i ++ ".")).
Proof.
  unfold numberedItem.
  destruct (List.find _ _) as [i|] eqn:Hfind; [|discriminate].
  apply List.find_some in Hfind. destruct Hfind as [Hin Hpre].
  apply List.in_map_iff in Hin. destruct Hin as (k & <- & Hk).
  apply List.in_seq in Hk.
  destruct (String.eqb _ "") eqn:Hempty; [discriminate|].
  intros [= <-]. split.
  - intros Heq. rewrite Heq in Hempty. discriminate.
  - exists (Z.of_nat k). split; [lia|]. split; [exact Hpre|reflexivity].
Qed.

(** X26. Whatever the language model answers, every item that
    [parseNumberedList] returns is a non-empty string cut from a line of the
    answer that, once trimmed, starts with a number of [1..expectedCount]
    and a full stop; so there are no more items than lines, and none for an
    [expectedCount] below one. *)
Theorem X26_parsed_items_come_from_numbered_lines `{GoTrim} (content : string)
    (expectedCount : Z) :
  let items := parseNumberedList content expectedCount in
  (length items <= length (strings_Split_lines content))%nat
  /\ List.Forall
       (fun item =>
          item <> ""
          /\ exists line i,
               In line (strings_Split_lines content)
               /\ (1 <= i <= expectedCount)%Z
               /\ strings_HasPrefix (strings_TrimSpace line) (pretty i ++ ".") = true
               /\ item = strings_TrimSpace
                           (strings_TrimPrefix (strings_TrimSpace line) (pretty i ++ ".")))
       items
  /\ ((expectedCount < 1)%Z -> items = []).
Proof.
  cbv zeta. unfold parseNumberedList.
  set (Q := fun item : string =>
              item <> ""
              /\ exists line i,
                   In line (strings_Split_lines content)
                   /\ (1 <= i <= expectedCount)%Z
                   /\ strings_HasPrefix (strings_TrimSpace line) (pretty i ++ ".") = true
                   /\ item = strings_TrimSpace
                               (strings_TrimPrefix (strings_TrimSpace line)
                                  (pretty i ++ "."))).
  set (step := fun (items : list string) (line : string) => _).
  assert (Hfold : forall lines acc,
             (forall l, In l lines -> In l (strings_Split_lines content)) ->
             List.Forall Q acc ->
             (length (fold_left step lines acc) <= length acc + length lines)%nat
             /\ List.Forall Q (fold_left step lines acc)).
  { induction lines as [|line lines IH]; intros acc Hsub Hacc; simpl.
    - split; [lia|exact Hacc].
    - assert (Hstep : (length (step acc line) <= S (length acc))%nat
                      /\ List.Forall Q (step acc line)).
      { unfold step. destruct (String.eqb _ ""); [split; [lia|exact Hacc]|].
        destruct (numberedItem _ _) as [item|] eqn:Hitem; [|split; [lia|exact Hacc]].
        split; [rewrite length_app; simpl; lia|].
        apply List.Forall_app. split; [exact Hacc|]. constructor; [|constructor].
        apply numberedItem_Some in Hitem. destruct Hitem as (Hne & i & Hi & Hpre & ->).
        split; [exact Hne|]. exists line, i.
        split; [apply Hsub; now left|]. now repeat split. }
      destruct Hstep as [Hlen HQ].
      destruct (IH (step acc line) (fun l Hl => Hsub l (or_intror Hl)) HQ) as [Hlen' HQ'].
      split; [lia|exact HQ']. }
  destruct (Hfold (strings_Split_lines content) [] (fun l Hl => Hl) (List.Forall_nil Q))
    as [Hlen HQ].
  split; [exact Hlen|]. split; [exact HQ|].
  intros Hn. destruct (fold_left step _ []) as [|item rest]; [reflexivity|].
  inversion HQ as [|? ? (_ & line & i & _ & Hi & _) _]. lia.
Qed.

Lemma GenerateCollision_lists_nonempty `{GoLib} (e : CollisionEngine.t) (rnd : Entropy)
    (input : CollisionInput.t) :
  CollisionResult.SparkQuestions (fst (GenerateCollision e rnd input)) <> []
  /\ CollisionResult.NextSteps (fst (GenerateCollision e rnd input)) <> []
  /\ CollisionResult.Rating (fst (GenerateCollision e rnd input)) = None
  /\ CollisionResult.Notes (fst (GenerateCollision e rnd input)) = None.
Proof.
  unfold GenerateCollision.
  destruct (selectCollisionDomain e (rand_select rnd) input _) as [d reasoning].
  cbn [fst enrichCollisionResult CollisionResult.SparkQuestions CollisionResult.NextSteps
       CollisionResult.Rating CollisionResult.Notes].
  repeat split.
  - unfold generateSparkQuestions. destruct (CollisionDomain.Keywords d); discriminate.
  - unfold generateNextSteps. destruct (String.eqb _ "radical"); discriminate.
Qed.

Lemma EnhanceCollisionResult_sound (ai : AIReplies) (result : CollisionResult.t) :
  let result' := fst (EnhanceCollisionResult ai result) in
  CollisionResult.ID result' = CollisionResult.ID result
  /\ CollisionResult.PrimaryDomain result' = CollisionResult.PrimaryDomain result
  /\ CollisionResult.CollisionDomain result' = CollisionResult.CollisionDomain result
  /\ CollisionResult.QualityScore result' = CollisionResult.QualityScore result
  /\ CollisionResult.Timestamp result' = CollisionResult.Timestamp result
  /\ CollisionResult.Rating result' = CollisionResult.Rating result
  /\ CollisionResult.Notes result' = CollisionResult.Notes result
  /\ (CollisionResult.Connection result <> ""
      -> CollisionResult.Connection result' <> "")
  /\ (CollisionResult.SparkQuestions result <> []
      -> CollisionResult.SparkQuestions result' <> [])
  /\ (CollisionResult.NextSteps result <> [] -> CollisionResult.NextSteps result' <> []).
Proof.
  cbv zeta. unfold EnhanceCollisionResult.
  cbn [fst CollisionResult.ID CollisionResult.PrimaryDomain CollisionResult.CollisionDomain
       CollisionResult.QualityScore CollisionResult.Timestamp CollisionResult.Rating
       CollisionResult.Notes CollisionResult.Connection CollisionResult.SparkQuestions
       CollisionResult.NextSteps].
  repeat split.
  - intros Hc. destruct (ai_connection ai) as [s|]; [|exact Hc].
    destruct (String.eqb s "") eqn:Hs; [exact Hc|].
    intros ->. discriminate.
  - intros Hq. destruct (ai_questions ai) as [[|x xs]|]; [exact Hq|discriminate|exact Hq].
  - intros Hq. destruct (ai_steps ai) as [[|x xs]|]; [exact Hq|discriminate|exact Hq].
Qed.

Lemma EnhanceCollisionResult_silent `{GoTrim} (result : CollisionResult.t) :
  fst (EnhanceCollisionResult (replies_of_chat (Build_ChatReplies None None None None))
         result) = result.
Proof. destruct result. reflexivity. Qed.

Lemma EnhanceCollisionResult_questions `{GoTrim} (chat : ChatReplies)
    (result : CollisionResult.t) (qs : list string) :
  chat_questions chat = Some (numbered_reply qs) ->
  qs <> [] -> (length qs <= 4)%nat ->
  List.Forall (fun x => graphic_ends x = true /\ single_line x = true) qs ->
  CollisionResult.SparkQuestions (fst (EnhanceCollisionResult (replies_of_chat chat) result))
  = qs.
Proof.
  intros Hchat Hne Hlen Hall.
  assert (Hg : List.Forall (fun x => graphic_ends x = true) qs)
    by (eapply List.Forall_impl; [|exact Hall]; now intros x [Hx _]).
  assert (Hs : List.Forall (fun x => single_line x = true) qs)
    by (eapply List.Forall_impl; [|exact Hall]; now intros x [_ Hx]).
  unfold EnhanceCollisionResult, replies_of_chat, generateAdvancedSparkQuestions.
  cbn [fst ai_questions CollisionResult.SparkQuestions]. rewrite Hchat.
  cbn [option_map]. unfold parseQuestionsList, parseNumberedList, numbered_reply.
  destruct qs as [|x qs]; [congruence|].
  rewrite Split_lines_concat;
    [|discriminate|apply numbered_single_line; [lia|simpl length in *; lia|exact Hs]].
  rewrite (fold_numbered 4 1 (x :: qs) []); [reflexivity|lia|simpl length in *; lia|lia|exact Hg].
Qed.

(** X27. What the enrichment by the language model can and cannot do to a
    generated collision. For every valid request and every four answers
    (errors included), the handler answers 200 with a result that keeps the
    engine's id, primary and collision domain, quality score and timestamp,
    has no rating or notes, and still has spark questions and next steps. A
    caller who is not premium gets the engine's result unchanged, and so
    does everyone when all four calls fail. For a premium caller whose
    collision domain is in the catalog, a well-formed numbered list of at
    most four questions replaces the spark questions. *)
Theorem X27_enrichment_by_the_model_is_bounded `{GoLib} `{GoTrim} (h : CollisionHandler.t)
    (rnd : Entropy) (chat : ChatReplies) (c : Ctx.t) (w : World) (userID : UUID)
    (input : CollisionInput.t) :
  Ctx.user_id c = Some userID ->
  Ctx.body_input c = Some input ->
  validate_CollisionInput input = None ->
  let base := fst (GenerateCollision (CollisionHandler.engine h) rnd input) in
  exists result w',
    GenerateCollision_handler h rnd (replies_of_chat chat) c w
    = (Sent 200 (JSONResult result), c, w')
    /\ CollisionResult.ID result = CollisionResult.ID base
    /\ CollisionResult.PrimaryDomain result = CollisionResult.PrimaryDomain base
    /\ CollisionResult.CollisionDomain result = CollisionResult.CollisionDomain base
    /\ CollisionResult.QualityScore result = CollisionResult.QualityScore base
    /\ CollisionResult.Timestamp result = CollisionResult.Timestamp base
    /\ CollisionResult.Rating result = None /\ CollisionResult.Notes result = None
    /\ CollisionResult.SparkQuestions result <> []
    /\ CollisionResult.NextSteps result <> []
    /\ (is_premium (GetSubscriptionTierFromContext c) = false -> result = base)
    /\ (chat = Build_ChatReplies None None None None -> result = base)
    /\ (forall qs,
          is_premium (GetSubscriptionTierFromContext c) = true ->
          findDomainByName h (CollisionResult.CollisionDomain base) <> None ->
          chat_questions chat = Some (numbered_reply qs) ->
          qs <> [] -> (length qs <= 4)%nat ->
          List.Forall (fun x => graphic_ends x = true /\ single_line x = true) qs ->
          CollisionResult.SparkQuestions result = qs).
Proof.
  intros Hid Hbody Hvalid. cbv zeta.
  unfold GenerateCollision_handler, GetUserIDFromContext.
  rewrite Hid, Hbody, Hvalid.
  pose proof (GenerateCollision_no_error (CollisionHandler.engine h) rnd input) as Herr.
  pose proof (GenerateCollision_lists_nonempty (CollisionHandler.engine h) rnd input)
    as (Hq & Hs & Hr & Hn).
  destruct (GenerateCollision (CollisionHandler.engine h) rnd input) as [base err].
  cbn [fst snd] in *. subst err.
  set (enhanced := if is_premium _ then _ else _).
  pose proof (EnhanceCollisionResult_sound (replies_of_chat chat) base) as Hsound.
  cbv zeta in Hsound.
  destruct Hsound as (E1 & E2 & E3 & E4 & E5 & E6 & E7 & _ & E9 & E10).
  assert (Hres : fst enhanced
                 = match is_premium (GetSubscriptionTierFromContext c),
                         findDomainByName h (CollisionResult.CollisionDomain base) with
                   | true, Some _ => fst (EnhanceCollisionResult (replies_of_chat chat) base)
                   | _, _ => base
                   end).
  { subst enhanced. destruct (is_premium _); [|reflexivity].
    destruct (findDomainByName h _); [|reflexivity].
    destruct (EnhanceCollisionResult _ base) as [r [e|]]; reflexivity. }
  destruct enhanced as [result w0]. cbn [fst] in Hres.
  assert (Hshape :
    CollisionResult.ID result = CollisionResult.ID base
    /\ CollisionResult.PrimaryDomain result = CollisionResult.PrimaryDomain base
    /\ CollisionResult.CollisionDomain result = CollisionResult.CollisionDomain base
    /\ CollisionResult.QualityScore result = CollisionResult.QualityScore base
    /\ CollisionResult.Timestamp result = CollisionResult.Timestamp base
    /\ CollisionResult.Rating result = None /\ CollisionResult.Notes result = None
    /\ CollisionResult.SparkQuestions result <> []
    /\ CollisionResult.NextSteps result <> []
    /\ (is_premium (GetSubscriptionTierFromContext c) = false -> result = base)
    /\ (chat = Build_ChatReplies None None None None -> result = base)
    /\ (forall qs,
          is_premium (GetSubscriptionTierFromContext c) = true ->
          findDomainByName h (CollisionResult.CollisionDomain base) <> None ->
          chat_questions chat = Some (numbered_reply qs) ->
          qs <> [] -> (length qs <= 4)%nat ->
          List.Forall (fun x => graphic_ends x = true /\ single_line x = true) qs ->
          CollisionResult.SparkQuestions result = qs)).
  { destruct (is_premium (GetSubscriptionTierFromContext c)).
    - destruct (findDomainByName h (CollisionResult.CollisionDomain base)) as [d|].
      + subst result. rewrite E1, E2, E3, E4, E5, E6, E7.
        do 5 (split; [reflexivity|]).
        split; [exact Hr|]. split; [exact Hn|].
        split; [now apply E9|]. split; [now apply E10|].
        split; [discriminate|].
        split; [intros ->; apply EnhanceCollisionResult_silent|].
        intros qs _ _ Hchat Hne Hlen Hall.
        now apply EnhanceCollisionResult_questions.
      + subst result. repeat split; try assumption; try reflexivity.
        intros qs _ Hfound. congruence.
    - subst result. repeat split; try assumption; try reflexivity.
      intros qs Hprem. discriminate. }
  destruct (uuid_New_ w0) as [id w1].
  destruct (CreateCollisionSession _ _) as [err1 p1].
  destruct (String.eqb _ TierFree).
  - destruct (IncrementUserUsage _ _ _) as [err2 p2].
    destruct (InvalidateUserUsage _ _) as [err3 r3].
    eexists _, _. split; [reflexivity|exact Hshape].
  - eexists _, _. split; [reflexivity|exact Hshape].
Qed.

Lemma X27_enrichment_by_the_model_is_bounded_witness :
  let qs := ["How would a reef recruit contributors?"; "What is the keystone species?"] in
  let chat := Build_ChatReplies None (Some (numbered_reply qs)) None None in
  let base := fst (GenerateCollision (CollisionHandler.engine suite_handler) suite_entropy
                     suite_input) in
  exists result w',
    GenerateCollision_handler (H := ascii_lib) suite_handler suite_entropy
      (replies_of_chat (H := ascii_trim) chat) (ctx_generate TierPro suite_input) world0
    = (Sent 200 (JSONResult result), ctx_generate TierPro suite_input, w')
    /\ CollisionResult.CollisionDomain result = CollisionResult.CollisionDomain base
    /\ CollisionResult.QualityScore result = CollisionResult.QualityScore base
    /\ CollisionResult.SparkQuestions result = qs.
Proof.
  destruct (X27_enrichment_by_the_model_is_bounded (H := ascii_lib) (H0 := ascii_trim)
              suite_handler suite_entropy
              (Build_ChatReplies None
                 (Some (numbered_reply ["How would a reef recruit contributors?";
                                        "What is the keystone species?"])) None None)
              (ctx_generate TierPro suite_input) world0 alice suite_input
              eq_refl eq_refl eq_refl)
    as (result & w' & Heq & _ & _ & Hd & Hq & _ & _ & _ & _ & _ & _ & _ & Hqs).
  exists result, w'. split; [exact Heq|]. split; [exact Hd|]. split; [exact Hq|].
  apply Hqs.
  - reflexivity.
  - vm_compute. discriminate.
  - reflexivity.
  - discriminate.
  - simpl. lia.
  - repeat constructor.
Defined.

(** X28. The usage endpoint. A premium principal is told "unlimited"
    (used 0, limit and remaining -1, no reset date) without any store being
    consulted. Anyone else is told the count of their latest usage row of the
    last seven days (0 when there is none, in which case the row is
    created), the limit of their tier and [max 0 (limit - used)] as the
    remaining count; the cache is not consulted. The only error is 500
    [usage_check_failed], and it needs a failing database command; it
    leaves the usage table as it was. *)
Theorem X28_usage_status_report (c : Ctx.t) (w : World) (userID : UUID) :
  Ctx.user_id c = Some userID ->
  let tier := GetSubscriptionTierFromContext c in
  exists reply w',
    GetUsageStatus_handler c w = (reply, w')
    /\ redis w' = redis w
    /\ Postgres.collision_sessions (db w') = Postgres.collision_sessions (db w)
    /\ stdout w' = stdout w
    /\ match reply with
       | UsageSent s =>
           UsageStatus.tier s = tier
           /\ if is_premium tier
              then s = UsageStatus.mk tier 0 (-1) (-1) None true /\ w' = w
              else UsageStatus.unlimited s = false
                   /\ UsageStatus.collisions_limit s = UsageLimits_at tier
                   /\ UsageStatus.collisions_used s
                      = match latest (List.filter (in_window (clock w) userID)
                                        (Postgres.user_usage (db w))) with
                        | Some u => UserUsage.CollisionCount u
                        | None => 0%Z
                        end
                   /\ UsageStatus.collisions_remaining s
                      = Z.max 0 (UsageStatus.collisions_limit s
                                 - UsageStatus.collisions_used s)
       | UsageError status e =>
           status = 500%Z
           /\ e = ErrorResponse.mk "usage_check_failed" "Failed to check usage" 500
           /\ is_premium tier = false
           /\ In true (Postgres.faults (db w))
           /\ Postgres.user_usage (db w') = Postgres.user_usage (db w)
       | UsageFailed _ _ => False
       end.
Proof.
  intros Hid. cbv zeta.
  unfold GetUsageStatus_handler, GetUserIDFromContext. rewrite Hid.
  destruct (is_premium (GetSubscriptionTierFromContext c)) eqn:Hprem.
  { eexists _, _. split; [reflexivity|]. repeat split. }
  pose proof (uuid_New_stores w) as (Hdb & Hredis & Hout & Hclock).
  destruct (uuid_New_ w) as [fresh w1]. cbn [snd] in *.
  unfold GetUserUsage. rewrite Hdb, Hclock.
  destruct (Postgres.faults (db w)) as [|f fs] eqn:Hf; cbn [next_fault].
  - cbn [Postgres.with_faults Postgres.user_usage Postgres.faults next_fault].
    destruct (latest _) as [u|] eqn:Hlatest.
    + eexists _, _. split; [reflexivity|].
      cbn [db redis stdout with_db Postgres.collision_sessions Postgres.with_faults].
      repeat split; try assumption.
      cbn [UsageStatus.collisions_remaining UsageStatus.collisions_limit
           UsageStatus.collisions_used].
      destruct (Z.ltb_spec (UsageLimits_at (GetSubscriptionTierFromContext c)
                            - UserUsage.CollisionCount u) 0); lia.
    + eexists _, _. split; [reflexivity|].
      cbn [db redis stdout with_db Postgres.collision_sessions Postgres.with_faults].
      repeat split; try assumption.
      cbn [UsageStatus.collisions_remaining UsageStatus.collisions_limit
           UsageStatus.collisions_used UserUsage.CollisionCount].
      destruct (Z.ltb_spec (UsageLimits_at (GetSubscriptionTierFromContext c) - 0) 0); lia.
  - destruct f.
    + eexists _, _. split; [reflexivity|].
      cbn [db redis stdout with_db Postgres.collision_sessions Postgres.with_faults
           Postgres.user_usage].
      repeat split; try assumption. now left.
    + cbn [Postgres.with_faults Postgres.user_usage Postgres.faults].
      destruct (latest _) as [u|] eqn:Hlatest.
      * eexists _, _. split; [reflexivity|].
        cbn [db redis stdout with_db Postgres.collision_sessions Postgres.with_faults].
        repeat split; try assumption.
        cbn [UsageStatus.collisions_remaining UsageStatus.collisions_limit
             UsageStatus.collisions_used].
        destruct (Z.ltb_spec (UsageLimits_at (GetSubscriptionTierFromContext c)
                              - UserUsage.CollisionCount u) 0); lia.
      * destruct fs as [|f' fs']; cbn [next_fault]; [|destruct f'].
        -- eexists _, _. split; [reflexivity|].
           cbn [db redis stdout with_db Postgres.collision_sessions Postgres.with_faults].
           repeat split; try assumption.
           cbn [UsageStatus.collisions_remaining UsageStatus.collisions_limit
                UsageStatus.collisions_used UserUsage.CollisionCount].
           destruct (Z.ltb_spec (UsageLimits_at (GetSubscriptionTierFromContext c) - 0) 0);
             lia.
        -- eexists _, _. split; [reflexivity|].
           cbn [db redis stdout with_db Postgres.collision_sessions Postgres.with_faults
                Postgres.user_usage].
           repeat split; try assumption. right. now left.
        -- eexists _, _. split; [reflexivity|].
           cbn [db redis stdout with_db Postgres.collision_sessions Postgres.with_faults].
           repeat split; try assumption.
           cbn [UsageStatus.collisions_remaining UsageStatus.collisions_limit
                UsageStatus.collisions_used UserUsage.CollisionCount].
           destruct (Z.ltb_spec (UsageLimits_at (GetSubscriptionTierFromContext c) - 0) 0);
             lia.
Qed.

Lemma X28_usage_status_report_witness :
  exists w',
    GetUsageStatus_handler (ctx_generate TierFree suite_input) world_at_quota
    = (UsageSent (UsageStatus.mk TierFree 5 5 0 (Some (UserUsage.ResetDate usage_at_quota))
                    false), w')
    /\ redis w' = redis world_at_quota.
Proof.
  destruct (X28_usage_status_report (ctx_generate TierFree suite_input) world_at_quota alice
              eq_refl) as (reply & w' & Heq & Hredis & _).
  exists w'. split; [|exact Hredis].
  rewrite Heq. f_equal.
  assert (Hrun : fst (GetUsageStatus_handler (ctx_generate TierFree suite_input)
                        world_at_quota)
                 = UsageSent (UsageStatus.mk TierFree 5 5 0
                                (Some (UserUsage.ResetDate usage_at_quota)) false))
    by (vm_compute; reflexivity).
  rewrite Heq in Hrun. exact Hrun.
Defined.
